(** * trade-bridge: broker adapters (Dhan, Upstox, Zerodha)

    A shallow embedding of the three broker clients
    ([dhanClient.js], [upstoxClient.js], [zerodhaClient.js]) and of the
    JavaScript behaviour they rely on: strict equality and truthiness,
    property lookup on object literals, binary64 numbers with
    [Math.round], and promises with [Promise.all]. *)

From Stdlib Require Import ZArith List String Ascii Bool Lia.
From Stdlib Require Import Floats.SpecFloat.
Import ListNotations.

Local Open Scope string_scope.
Local Open Scope Z_scope.

(* ===================================================================== *)
(** * The JavaScript fragment the clients use                            *)
(* ===================================================================== *)

Module JS.

(** ** Primitive values

    Identifiers coming from a broker (security ids, tokens, symbols) are
    strings or integers, and a property that is missing reads as
    [undefined].  Integers, here and for quantities, are taken in [Z]:
    comparison, [Math.abs] and [===] are exact on them. *)

Inductive prim : Type :=
| PUndef
| PStr (s : string)
| PNum (n : Z).

(** [a === b] *)
Definition strict_eq (a b : prim) : bool :=
  match a, b with
  | PUndef, PUndef => true
  | PStr s, PStr t => String.eqb s t
  | PNum n, PNum m => Z.eqb n m
  | _, _ => false
  end.

(** ** Strings: [toUpperCase] and [toLowerCase]

    Trading symbols and order statuses are ASCII; the conversion maps the
    letters a-z and A-Z and leaves every other character alone. *)

Definition upper_ascii (c : ascii) : ascii :=
  let n := nat_of_ascii c in
  if (Nat.leb 97 n && Nat.leb n 122)%bool then ascii_of_nat (n - 32) else c.

Definition lower_ascii (c : ascii) : ascii :=
  let n := nat_of_ascii c in
  if (Nat.leb 65 n && Nat.leb n 90)%bool then ascii_of_nat (n + 32) else c.

Fixpoint toUpperCase (s : string) : string :=
  match s with
  | EmptyString => EmptyString
  | String c r => String (upper_ascii c) (toUpperCase r)
  end.

Fixpoint toLowerCase (s : string) : string :=
  match s with
  | EmptyString => EmptyString
  | String c r => String (lower_ascii c) (toLowerCase r)
  end.

(** [arr.includes(x)] on an array of strings *)
Definition includes (arr : list string) (x : string) : bool :=
  existsb (String.eqb x) arr.

(** ** Numbers: IEEE 754 binary64

    Prices are JavaScript numbers.  They are modelled bit-exactly with
    the specification floats of the standard library; every operation
    rounds to nearest, ties to even. *)

Definition prec : Z := 53.
Definition emax : Z := 1024.

Definition number : Type := spec_float.

Definition num_of_Z (z : Z) : number := binary_normalize prec emax z 0 false.
Definition num_add : number -> number -> number := SFadd prec emax.
Definition num_sub : number -> number -> number := SFsub prec emax.
Definition num_mul : number -> number -> number := SFmul prec emax.
Definition num_div : number -> number -> number := SFdiv prec emax.

(** The number a decimal literal [n / d] denotes (e.g. [100.005] is
    [decimal 100005 1000]): the correctly rounded quotient of two
    integers that are exact in binary64. *)
Definition decimal (n d : Z) : number := num_div (num_of_Z n) (num_of_Z d).

(** The exact rational value of a finite number, as a fraction
    [numerator / 2^k]. *)
Definition exact_num (s : bool) (m : positive) (e : Z) : Z :=
  cond_Zopp s (Zpos m) * 2 ^ Z.max e 0.
Definition exact_den (e : Z) : Z := 2 ^ Z.max (- e) 0.

(** [Math.round(x)]: the integer closest to [x], the one nearer to
    [+infinity] when two are equally close, i.e. [floor (x + 1/2)] on the
    exact value; NaN, the infinities, the zeros and integral values are
    returned unchanged, and a result of zero keeps the sign of [x]. *)
Definition round_half_up (num den : Z) : Z := (2 * num + den) / (2 * den).

Definition Math_round (x : number) : number :=
  match x with
  | S754_finite s m e =>
      if 0 <=? e then x
      else
        let k := round_half_up (exact_num s m e) (exact_den e) in
        if k =? 0 then S754_zero s else num_of_Z k
  | _ => x
  end.

(** ** Truthiness *)

Class Truthy (A : Type) : Type := Boolean : A -> bool.

#[export] Instance Truthy_string : Truthy string :=
  fun s => negb (String.eqb s "").

#[export] Instance Truthy_number : Truthy number :=
  fun x => match x with
           | S754_zero _ | S754_nan => false
           | _ => true
           end.

#[export] Instance Truthy_prim : Truthy prim :=
  fun v => match v with
           | PUndef => false
           | PStr s => Boolean s
           | PNum n => negb (n =? 0)
           end.

(** A property that may be absent ([undefined]) or [null]. *)
#[export] Instance Truthy_option {A : Type} `{Truthy A} : Truthy (option A) :=
  fun o => match o with
           | Some a => Boolean a
           | None => false
           end.

(** [a || b] where [a] may be missing *)
Definition or_else {A : Type} `{Truthy A} (a : option A) (b : A) : A :=
  match a with
  | Some x => if Boolean x then x else b
  | None => b
  end.

(** ** Property lookup on an object literal

    [obj[key]] finds an own property first and then walks the prototype
    chain: an object literal inherits the members of [Object.prototype],
    which are functions (or, for [__proto__], the prototype object), all
    of them truthy. *)

Definition Object_prototype : list string :=
  [ "constructor"; "toString"; "toLocaleString"; "valueOf";
    "hasOwnProperty"; "isPrototypeOf"; "propertyIsEnumerable";
    "__proto__"; "__defineGetter__"; "__defineSetter__";
    "__lookupGetter__"; "__lookupSetter__" ].

Inductive value : Type :=
| VStr (s : string)
| VInherited (member : string).

Fixpoint own_property (obj : list (string * string)) (key : string)
  : option string :=
  match obj with
  | [] => None
  | (k, v) :: rest => if String.eqb k key then Some v else own_property rest key
  end.

Definition get_property (obj : list (string * string)) (key : string)
  : option value :=
  match own_property obj key with
  | Some v => Some (VStr v)
  | None => if includes Object_prototype key then Some (VInherited key)
            else None
  end.

#[export] Instance Truthy_value : Truthy value :=
  fun v => match v with
           | VStr s => Boolean s
           | VInherited _ => true
           end.

(** [arr.includes(v)] when [v] is the result of a property lookup *)
Definition includes_value (arr : list string) (v : value) : bool :=
  match v with
  | VStr s => includes arr s
  | VInherited _ => false
  end.

(** ** Exceptions and promises

    A synchronous call either returns or throws; a promise is either
    fulfilled or rejected.  An [async] function runs eagerly up to its
    first [await] and issues its requests whether or not a sibling
    fails, so a promise is modelled together with the requests it sent:
    [Async Req A] is the list of requests the call issues, in the order
    the call issues them, and the settlement.  Each broker answer is a
    function of the request alone. *)

Definition Error : Type := string.

Inductive completion (A : Type) : Type :=
| Normal (a : A)
| Throw (e : Error).
Arguments Normal {A} a.
Arguments Throw {A} e.

Definition Async (Req A : Type) : Type := (list Req * completion A)%type.

Definition resolve {Req A : Type} (a : A) : Async Req A := ([], Normal a).

(** [const x = await m; k x] *)
Definition await {Req A B : Type} (m : Async Req A) (k : A -> Async Req B)
  : Async Req B :=
  match m with
  | (t, Normal a) => let (t', r) := k a in ((t ++ t')%list, r)
  | (t, Throw e) => (t, Throw e)
  end.

(** A request sent to the broker and its answer *)
Definition send {Req A : Type} (r : Req) (answer : completion A) : Async Req A :=
  ([r], answer).

(** A synchronous step that may throw inside an [async] function *)
Definition lift {Req A : Type} (c : completion A) : Async Req A := ([], c).

Definition requests {Req A : Type} (m : Async Req A) : list Req := fst m.
Definition settled {Req A : Type} (m : Async Req A) : completion A := snd m.

(** A promise is an object, hence truthy, whatever it settles to. *)
#[export] Instance Truthy_Async {Req A : Type} : Truthy (Async Req A) :=
  fun _ => true.

(** [Promise.all]: fulfilled with all the values, in array order, when
    every promise is fulfilled, and rejected as soon as one is rejected.
    Every promise of the array has already been started, so all their
    requests are issued either way; they are listed promise by promise
    (on the wire the requests of concurrent promises interleave).  With
    several rejections the first to arrive wins; here it is the first in
    array order, and no statement below depends on which one it is. *)
Fixpoint all_values {A : Type} (l : list (completion A)) : completion (list A) :=
  match l with
  | [] => Normal []
  | Normal a :: rest =>
      match all_values rest with
      | Normal vs => Normal (a :: vs)
      | Throw e => Throw e
      end
  | Throw e :: _ => Throw e
  end.

Definition Promise_all {Req A : Type} (ps : list (Async Req A))
  : Async Req (list A) :=
  (List.concat (map requests ps), all_values (map settled ps)).

(** [`${n}`] for an array length *)
Fixpoint digits (fuel : nat) (n : nat) (acc : string) : string :=
  match fuel with
  | O => acc
  | S fuel' =>
      let d := String (ascii_of_nat (48 + Nat.modulo n 10)) acc in
      if Nat.ltb n 10 then d else digits fuel' (Nat.div n 10) d
  end.

Definition string_of_nat (n : nat) : string := digits (S n) n "".

End JS.

Import JS.

Notation "x <- m ;; k" := (await m (fun x => k))
  (at level 61, m at next level, right associativity).

(** Template-literal interpolation of a primitive, [`${v}`] *)
Definition to_string (v : prim) : string :=
  match v with
  | PUndef => "undefined"
  | PStr s => s
  | PNum n => if n <? 0 then "-" ++ string_of_nat (Z.abs_nat n)
              else string_of_nat (Z.abs_nat n)
  end.

(** [arr.filter(Boolean)] on an array whose elements may be [null] *)
Definition filter_Boolean {A : Type} `{Truthy A} (arr : list (option A)) : list A :=
  flat_map (fun x => match x with
                     | Some a => if Boolean a then [a] else []
                     | None => []
                     end) arr.

(** The aggregate a bulk operation returns:
    [{ success: true, message: ..., details: results }] *)
Module Report.
Record t (A : Type) : Type := mk {
  success : bool;
  message : string;
  details : list A }.
Arguments mk {A}.
Arguments success {A}.
Arguments message {A}.
Arguments details {A}.
End Report.

(** What [placeOrder] and [cancelOrder] return *)
Module OrderResult.
Record t : Type := mk {
  orderId : string;
  status : string;
  message : string }.
End OrderResult.

#[export] Instance Truthy_OrderResult : Truthy OrderResult.t := fun _ => true.

(** The persisted instrument file: its age, [Date.now() - mtime] in
    milliseconds, and what reading and parsing it yields ([None] when it
    cannot be parsed). *)
Module CacheFile.
Record t (I : Type) : Type := mk {
  age : Z;
  parsed : option (list I) }.
Arguments mk {I}.
Arguments age {I}.
Arguments parsed {I}.
End CacheFile.

(** The state [_loadInstrumentsCache] reads and writes: the client's
    [instrumentsCache] ([None] is [null]) and the cache file, if any. *)
Module CacheState.
Record t (I : Type) : Type := mk {
  instrumentsCache : option (list I);
  file : option (CacheFile.t I) }.
Arguments mk {I}.
Arguments instrumentsCache {I}.
Arguments file {I}.
End CacheState.

Definition day_ms : Z := 24 * 60 * 60 * 1000.

(** [shouldDownload]: true unless a cache file exists whose age is at
    most 24 hours. *)
Definition shouldDownload {I : Type} (f : option (CacheFile.t I)) : bool :=
  match f with
  | Some c => CacheFile.age c >? day_ms
  | None => true
  end.

(* ===================================================================== *)
(** * Dhan                                                               *)
(* ===================================================================== *)

Module Dhan.

Module Instrument.
Record t : Type := mk {
  tradingSymbol : string;
  securityId : prim;
  exchange : string;
  exchangeToken : prim }.
End Instrument.

Module Order.
Record t : Type := mk {
  orderId : string;
  status : string }.
End Order.

Module Position.
Record t : Type := mk {
  securityId : prim;
  exchange : string;
  quantity : Z;
  product : option string }.
End Position.

(** The argument of [placeOrder] *)
Module Params.
Record t : Type := mk {
  securityId : prim;
  symbolName : prim;
  exchange : option string;
  transactionType : string;
  orderType : string;
  quantity : Z;
  price : option number;
  triggerPrice : option number;
  validity : option string;
  product : option string }.
End Params.

(** The body posted to [/orders]; [price] and [triggerPrice] are [None]
    when the field is not set. *)
Module OrderRequest.
Record t : Type := mk {
  securityId : prim;
  exchange : option string;
  quantity : Z;
  product : value;
  validity : string;
  orderType : value;
  transactionType : string;
  disclosedQuantity : Z;
  source : string;
  price : option number;
  triggerPrice : option number }.
End OrderRequest.

Inductive Request : Type :=
| GET_orders
| GET_positions
| GET_quotes (exchange : string) (securityId : prim)
| POST_orders (body : OrderRequest.t)
| DELETE_orders (orderId : string).

(** What the broker answers; [response.data] of a list endpoint may be
    [null]. *)
Record Broker : Type := {
  orders_response : completion (option (list Order.t));
  positions_response : completion (option (list Position.t));
  quote_response : string -> prim -> completion number;
  place_response : OrderRequest.t -> completion string;
  cancel_response : string -> completion unit }.

Record Client : Type := {
  instrumentsCache : option (list Instrument.t);
  broker : Broker }.

(** The five segment downloads of a catalog refresh *)
Record Segments : Type := {
  nseEquity : completion (list Instrument.t);
  bseEquity : completion (list Instrument.t);
  nfo : completion (list Instrument.t);
  cds : completion (list Instrument.t);
  mcx : completion (list Instrument.t) }.

Definition download (net : Segments) : completion (list Instrument.t) :=
  match nseEquity net, bseEquity net, nfo net, cds net, mcx net with
  | Normal a, Normal b, Normal c, Normal d, Normal e =>
      Normal (a ++ b ++ c ++ d ++ e)%list
  | Throw x, _, _, _, _ => Throw x
  | _, Throw x, _, _, _ => Throw x
  | _, _, Throw x, _, _ => Throw x
  | _, _, _, Throw x, _ => Throw x
  | _, _, _, _, Throw x => Throw x
  end.

(** [_loadInstrumentsCache]: a failed download falls back to the cache
    file when there is one; a file that does not parse throws to the
    outer [catch], which only logs. *)
Definition _loadInstrumentsCache (net : Segments)
    (st : CacheState.t Instrument.t) : CacheState.t Instrument.t :=
  if shouldDownload (CacheState.file st) then
    match download net with
    | Normal allInstruments =>
        CacheState.mk (Some allInstruments)
                      (Some (CacheFile.mk 0 (Some allInstruments)))
    | Throw _ =>
        match CacheState.file st with
        | Some f =>
            match CacheFile.parsed f with
            | Some cached => CacheState.mk (Some cached) (CacheState.file st)
            | None => st
            end
        | None => st
        end
    end
  else
    match CacheState.file st with
    | Some f =>
        match CacheFile.parsed f with
        | Some cached => CacheState.mk (Some cached) (CacheState.file st)
        | None => st
        end
    | None => st
    end.

(** The predicate of [instrumentsCache.find] in [getInstrumentDetails] *)
Definition matches (securityId : prim) (instrument : Instrument.t) : bool :=
  match securityId with
  | PStr key =>
      String.eqb (Instrument.tradingSymbol instrument) key
      || String.eqb (toUpperCase (Instrument.tradingSymbol instrument))
                    (toUpperCase key)
      || strict_eq (Instrument.securityId instrument) securityId
  | PNum _ => strict_eq (Instrument.exchangeToken instrument) securityId
  | PUndef => false
  end.

Definition getInstrumentDetails (cache : option (list Instrument.t))
    (securityId : prim) : completion (option Instrument.t) :=
  match cache with
  | None => Throw "Instruments cache not loaded"
  | Some instruments => Normal (find (matches securityId) instruments)
  end.

Definition productMap : list (string * string) :=
  [ ("INTRADAY", "INTRADAY"); ("DELIVERY", "DELIVERY"); ("MARGIN", "MARGIN");
    ("NORMAL", "NORMAL"); ("MIS", "INTRADAY"); ("CNC", "DELIVERY");
    ("NRML", "NORMAL") ].

Definition _mapProduct (product : string) : value :=
  or_else (get_property productMap product) (VStr "INTRADAY").

Definition orderTypeMap : list (string * string) :=
  [ ("MARKET", "MARKET"); ("LIMIT", "LIMIT"); ("SL", "SL"); ("SL-M", "SLM") ].

Definition _mapOrderType (orderType : string) : value :=
  or_else (get_property orderTypeMap orderType) (VStr "MARKET").

(** The instrument resolution at the head of [placeOrder]: the security
    id and exchange the request will carry. *)
Definition resolveInstrument (c : Client) (params : Params.t)
  : completion (prim * option string) :=
  if negb (Boolean (Params.securityId params)) then
    match getInstrumentDetails (instrumentsCache c) (Params.symbolName params) with
    | Throw e => Throw e
    | Normal None =>
        Throw ("Instrument not found: " ++ to_string (Params.symbolName params))
    | Normal (Some instrument) =>
        Normal (Instrument.securityId instrument,
                Some (Instrument.exchange instrument))
    end
  else Normal (Params.securityId params, Params.exchange params).

Definition orderRequest (params : Params.t) (securityId : prim)
    (exchange : option string) : OrderRequest.t :=
  let orderType := _mapOrderType (Params.orderType params) in
  {| OrderRequest.securityId := securityId;
     OrderRequest.exchange := exchange;
     OrderRequest.quantity := Params.quantity params;
     OrderRequest.product := _mapProduct (or_else (Params.product params) "INTRADAY");
     OrderRequest.validity :=
       or_else (option_map toUpperCase (Params.validity params)) "DAY";
     OrderRequest.orderType := orderType;
     OrderRequest.transactionType := Params.transactionType params;
     OrderRequest.disclosedQuantity := 0;
     OrderRequest.source := "API";
     OrderRequest.price :=
       if (includes ["LIMIT"; "SL"] (Params.orderType params)
           && Boolean (Params.price params))%bool
       then Params.price params else None;
     OrderRequest.triggerPrice :=
       if (includes_value ["SL"; "SLM"] orderType
           && Boolean (Params.triggerPrice params))%bool
       then Params.triggerPrice params else None |}.

(** The [catch] blocks of the client log and rethrow; logging is not
    modelled, so they do not show. *)
Definition placeOrder (c : Client) (params : Params.t)
  : Async Request OrderResult.t :=
  target <- lift (resolveInstrument c params) ;;
  let body := orderRequest params (fst target) (snd target) in
  orderId <- send (POST_orders body) (place_response (broker c) body) ;;
  resolve (OrderResult.mk orderId "success" "Order placed successfully").

Definition cancelOrder (c : Client) (orderId : string)
  : Async Request OrderResult.t :=
  _ <- send (DELETE_orders orderId) (cancel_response (broker c) orderId) ;;
  resolve (OrderResult.mk orderId "success" "Order cancelled successfully").

Definition listOrders (c : Client) : Async Request (list Order.t) :=
  data <- send GET_orders (orders_response (broker c)) ;;
  resolve (match data with Some l => l | None => [] end).

Definition listPositions (c : Client) : Async Request (list Position.t) :=
  data <- send GET_positions (positions_response (broker c)) ;;
  resolve (match data with Some l => l | None => [] end).

Definition openStatuses : list string := ["open"; "pending"; "trigger pending"].

Definition isOpen (order : Order.t) : bool :=
  includes openStatuses (toLowerCase (Order.status order)).

Definition cancelAllOrders (c : Client)
  : Async Request (Report.t OrderResult.t) :=
  orders <- listOrders c ;;
  let openOrders := filter isOpen orders in
  results <- Promise_all
               (map (fun order => cancelOrder c (Order.orderId order)) openOrders) ;;
  resolve (Report.mk true
             ("Cancelled " ++ string_of_nat (List.length results) ++ " orders")
             results).

Definition _getLTP (c : Client) (exchange : string) (securityId : prim)
  : Async Request number :=
  send (GET_quotes exchange securityId)
       (quote_response (broker c) exchange securityId).

Definition oppositeTransactionType (quantity : Z) : string :=
  if quantity >? 0 then "SELL" else "BUY".

(** The object [exitAllPositions] hands to [placeOrder] *)
Definition marketExit (position : Position.t) : Params.t :=
  {| Params.securityId := Position.securityId position;
     Params.symbolName := PUndef;
     Params.exchange := Some (Position.exchange position);
     Params.transactionType := oppositeTransactionType (Position.quantity position);
     Params.orderType := "MARKET";
     Params.quantity := Z.abs (Position.quantity position);
     Params.price := None;
     Params.triggerPrice := None;
     Params.validity := None;
     Params.product := Position.product position |}.

(** The callback of [exitAllPositions] is synchronous: it returns [null]
    for a flat position and the promise of [placeOrder] otherwise. *)
Definition marketCallback (c : Client) (position : Position.t)
  : option (Async Request OrderResult.t) :=
  if Position.quantity position =? 0 then None
  else Some (placeOrder c (marketExit position)).

Definition exitAllPositions (c : Client)
  : Async Request (Report.t OrderResult.t) :=
  positions <- listPositions c ;;
  results <- Promise_all
               (filter_Boolean (map (marketCallback c) positions)) ;;
  resolve (Report.mk true
             ("Exited " ++ string_of_nat (List.length results) ++ " positions")
             results).

(** [Math.round(x * 100) / 100] *)
Definition round2 (x : number) : number :=
  num_div (Math_round (num_mul x (num_of_Z 100))) (num_of_Z 100).

Definition limitPrice (transactionType : string) (ltp priceOffset : number)
  : number :=
  let one := num_of_Z 1 in
  let pct := num_div priceOffset (num_of_Z 100) in
  round2 (if String.eqb transactionType "SELL"
          then num_mul ltp (num_add one pct)
          else num_mul ltp (num_sub one pct)).

Definition limitExit (priceOffset : option number) (position : Position.t)
    (ltp : number) : Params.t :=
  let transactionType := oppositeTransactionType (Position.quantity position) in
  {| Params.securityId := Position.securityId position;
     Params.symbolName := PUndef;
     Params.exchange := Some (Position.exchange position);
     Params.transactionType := transactionType;
     Params.orderType := "LIMIT";
     Params.quantity := Z.abs (Position.quantity position);
     Params.price :=
       Some (limitPrice transactionType ltp (or_else priceOffset (num_of_Z 0)));
     Params.triggerPrice := None;
     Params.validity := None;
     Params.product := Position.product position |}.

(** The callback of the limit and stop-loss variants is [async]: it
    returns a promise for every position, fulfilled with [null] for a
    flat one, and [.filter(Boolean)] is applied to those promises. *)
Definition limitCallback (c : Client) (priceOffset : option number)
    (position : Position.t) : Async Request (option OrderResult.t) :=
  if Position.quantity position =? 0 then resolve None
  else
    ltp <- _getLTP c (Position.exchange position) (Position.securityId position) ;;
    placed <- placeOrder c (limitExit priceOffset position ltp) ;;
    resolve (Some placed).

Definition exitAllPositionsLimit (c : Client) (priceOffset : option number)
  : Async Request (Report.t (option OrderResult.t)) :=
  positions <- listPositions c ;;
  results <- Promise_all
               (filter Boolean (map (limitCallback c priceOffset) positions)) ;;
  resolve (Report.mk true
             ("Exited " ++ string_of_nat (List.length results)
                        ++ " positions with limit orders")
             results).

Definition triggerPrice (transactionType : string) (ltp slPercentage : number)
  : number :=
  let one := num_of_Z 1 in
  let pct := num_div slPercentage (num_of_Z 100) in
  round2 (if String.eqb transactionType "SELL"
          then num_mul ltp (num_sub one pct)
          else num_mul ltp (num_add one pct)).

Definition stopLossExit (slPercentage : option number) (position : Position.t)
    (ltp : number) : Params.t :=
  let transactionType := oppositeTransactionType (Position.quantity position) in
  {| Params.securityId := Position.securityId position;
     Params.symbolName := PUndef;
     Params.exchange := Some (Position.exchange position);
     Params.transactionType := transactionType;
     Params.orderType := "SLM";
     Params.quantity := Z.abs (Position.quantity position);
     Params.price := None;
     Params.triggerPrice :=
       Some (triggerPrice transactionType ltp (or_else slPercentage (num_of_Z 1)));
     Params.validity := None;
     Params.product := Position.product position |}.

Definition stopLossCallback (c : Client) (slPercentage : option number)
    (position : Position.t) : Async Request (option OrderResult.t) :=
  if Position.quantity position =? 0 then resolve None
  else
    ltp <- _getLTP c (Position.exchange position) (Position.securityId position) ;;
    placed <- placeOrder c (stopLossExit slPercentage position ltp) ;;
    resolve (Some placed).

Definition exitAllPositionsAddStopLoss (c : Client) (slPercentage : option number)
  : Async Request (Report.t (option OrderResult.t)) :=
  positions <- listPositions c ;;
  results <- Promise_all
               (filter Boolean (map (stopLossCallback c slPercentage) positions)) ;;
  resolve (Report.mk true
             ("Added stop loss orders for "
                ++ string_of_nat (List.length results) ++ " positions")
             results).

End Dhan.

(* ===================================================================== *)
(** * Upstox                                                             *)
(* ===================================================================== *)

Module Upstox.

Module Instrument.
Record t : Type := mk {
  tradingsymbol : prim;
  instrument_token : prim;
  instrument_key : prim;
  exchange : string }.
End Instrument.

Module Params.
Record t : Type := mk {
  symbolName : prim;
  exchange : option string;
  transactionType : string;
  orderType : string;
  quantity : Z;
  price : option number;
  triggerPrice : option number;
  validity : option string;
  product : option string }.
End Params.

(** The body posted to [/order/place] *)
Module OrderRequest.
Record t : Type := mk {
  instrument_token : prim;
  exchange : string;
  transaction_type : string;
  order_type : string;
  quantity : Z;
  product : string;
  validity : string;
  price : option number;
  trigger_price : option number }.
End OrderRequest.

Inductive Request : Type :=
| POST_order_place (body : OrderRequest.t).

Record Client : Type := {
  instrumentsCache : option (list Instrument.t);
  place_response : OrderRequest.t -> completion string }.

(** [_loadInstrumentsCache]: the download is not guarded by a [try] of
    its own, so its failure leaves through the outer [catch], before the
    file is read.  [bundle] is the answer of the download: the compressed
    bytes, given by what they decode to. *)
Definition _loadInstrumentsCache (bundle : completion (option (list Instrument.t)))
    (st : CacheState.t Instrument.t) : CacheState.t Instrument.t :=
  let load (f : CacheFile.t Instrument.t) :=
    match CacheFile.parsed f with
    | Some instruments => CacheState.mk (Some instruments) (Some f)
    | None => CacheState.mk (CacheState.instrumentsCache st) (Some f)
    end in
  if shouldDownload (CacheState.file st) then
    match bundle with
    | Normal bytes => load (CacheFile.mk 0 bytes)
    | Throw _ => st
    end
  else
    match CacheState.file st with
    | Some f => load f
    | None => st
    end.

Definition matches (securityId : prim) (instrument : Instrument.t) : bool :=
  strict_eq (Instrument.tradingsymbol instrument) securityId
  || strict_eq (Instrument.instrument_token instrument) securityId
  || strict_eq (Instrument.instrument_key instrument) securityId.

Definition getInstrumentDetails (cache : option (list Instrument.t))
    (securityId : prim) : completion (option Instrument.t) :=
  match cache with
  | None => Throw "Instruments cache not loaded"
  | Some instruments => Normal (find (matches securityId) instruments)
  end.

Definition orderRequest (params : Params.t) (instrument : Instrument.t)
  : OrderRequest.t :=
  {| OrderRequest.instrument_token := Instrument.instrument_token instrument;
     OrderRequest.exchange :=
       or_else (Params.exchange params) (Instrument.exchange instrument);
     OrderRequest.transaction_type := Params.transactionType params;
     OrderRequest.order_type := Params.orderType params;
     OrderRequest.quantity := Params.quantity params;
     OrderRequest.product := or_else (Params.product params) "INTRADAY";
     OrderRequest.validity := or_else (Params.validity params) "DAY";
     OrderRequest.price :=
       if (String.eqb (Params.orderType params) "LIMIT"
           && Boolean (Params.price params))%bool
       then Params.price params else None;
     OrderRequest.trigger_price :=
       if (includes ["SL"; "SL-M"] (Params.orderType params)
           && Boolean (Params.triggerPrice params))%bool
       then Params.triggerPrice params else None |}.

Definition resolveInstrument (c : Client) (params : Params.t)
  : completion Instrument.t :=
  match getInstrumentDetails (instrumentsCache c) (Params.symbolName params) with
  | Throw e => Throw e
  | Normal None =>
      Throw ("Instrument not found: " ++ to_string (Params.symbolName params))
  | Normal (Some instrument) => Normal instrument
  end.

(** [placeOrder] returns [response.data] as the broker sent it. *)
Definition placeOrder (c : Client) (params : Params.t) : Async Request string :=
  instrument <- lift (resolveInstrument c params) ;;
  let body := orderRequest params instrument in
  send (POST_order_place body) (place_response c body).

End Upstox.

(* ===================================================================== *)
(** * Zerodha                                                            *)
(* ===================================================================== *)

Module Zerodha.

Module Instrument.
Record t : Type := mk {
  tradingsymbol : prim;
  instrument_token : prim;
  exchange : string }.
End Instrument.

Module Order.
Record t : Type := mk {
  order_id : string;
  status : string }.
End Order.

Module Position.
Record t : Type := mk {
  tradingsymbol : prim;
  exchange : string;
  quantity : Z;
  product : option string }.
End Position.

Module Params.
Record t : Type := mk {
  symbolName : prim;
  exchange : option string;
  transactionType : string;
  orderType : string;
  quantity : Z;
  price : option number;
  triggerPrice : option number;
  validity : option string;
  variety : option string;
  product : option string }.
End Params.

(** The order handed to [kiteConnect.placeOrder] *)
Module OrderRequest.
Record t : Type := mk {
  exchange : option string;
  tradingsymbol : prim;
  transaction_type : string;
  quantity : Z;
  product : value;
  order_type : value;
  validity : string;
  variety : string;
  price : option number;
  trigger_price : option number }.
End OrderRequest.

(** Calls into the Kite SDK *)
Inductive Request : Type :=
| getOrders
| getPositions
| getLTP (instrument : string)
| kite_placeOrder (variety : string) (body : OrderRequest.t)
| kite_cancelOrder (variety : string) (orderId : string).

Record Broker : Type := {
  orders_response : completion (list Order.t);
  positions_net : completion (list Position.t);
  ltp_response : string -> completion number;
  place_response : string -> OrderRequest.t -> completion string;
  cancel_response : string -> string -> completion string }.

Record Client : Type := {
  instrumentsCache : option (list Instrument.t);
  broker : Broker }.

(** [_loadInstrumentsCache]: a failed [getInstruments] leaves through
    the outer [catch]; so does the final log line, which reads
    [this.instrumentsCache.length], when the cache is still [null]. *)
Definition _loadInstrumentsCache (fetched : completion (list Instrument.t))
    (st : CacheState.t Instrument.t) : CacheState.t Instrument.t :=
  if shouldDownload (CacheState.file st) then
    match fetched with
    | Normal instruments =>
        CacheState.mk (Some instruments)
                      (Some (CacheFile.mk 0 (Some instruments)))
    | Throw _ => st
    end
  else
    match CacheState.file st with
    | Some f =>
        match CacheFile.parsed f with
        | Some cached => CacheState.mk (Some cached) (CacheState.file st)
        | None => st
        end
    | None => st
    end.

Definition matches (securityId : prim) (instrument : Instrument.t) : bool :=
  match securityId with
  | PStr _ => strict_eq (Instrument.tradingsymbol instrument) securityId
  | PNum _ => strict_eq (Instrument.instrument_token instrument) securityId
  | PUndef => false
  end.

Definition getInstrumentDetails (cache : option (list Instrument.t))
    (securityId : prim) : completion (option Instrument.t) :=
  match cache with
  | None => Throw "Instruments cache not loaded"
  | Some instruments => Normal (find (matches securityId) instruments)
  end.

Definition productMap : list (string * string) :=
  [ ("INTRADAY", "MIS"); ("DELIVERY", "CNC"); ("NORMAL", "NRML");
    ("MIS", "MIS"); ("CNC", "CNC"); ("NRML", "NRML") ].

Definition _mapProduct (product : string) : value :=
  or_else (get_property productMap product) (VStr "MIS").

Definition orderTypeMap : list (string * string) :=
  [ ("MARKET", "MARKET"); ("LIMIT", "LIMIT"); ("SL", "SL"); ("SL-M", "SL-M") ].

Definition _mapOrderType (orderType : string) : value :=
  or_else (get_property orderTypeMap orderType) (VStr "MARKET").

Definition resolveInstrument (c : Client) (params : Params.t)
  : completion (option string * prim) :=
  if (negb (Boolean (Params.exchange params))
      || negb (Boolean (Params.symbolName params)))%bool then
    match getInstrumentDetails (instrumentsCache c) (Params.symbolName params) with
    | Throw e => Throw e
    | Normal None =>
        Throw ("Instrument not found: " ++ to_string (Params.symbolName params))
    | Normal (Some instrument) =>
        Normal (Some (Instrument.exchange instrument),
                Instrument.tradingsymbol instrument)
    end
  else Normal (Params.exchange params, Params.symbolName params).

Definition orderRequest (params : Params.t) (exchange : option string)
    (tradingSymbol : prim) : OrderRequest.t :=
  {| OrderRequest.exchange := exchange;
     OrderRequest.tradingsymbol := tradingSymbol;
     OrderRequest.transaction_type := Params.transactionType params;
     OrderRequest.quantity := Params.quantity params;
     OrderRequest.product := _mapProduct (or_else (Params.product params) "INTRADAY");
     OrderRequest.order_type := _mapOrderType (Params.orderType params);
     OrderRequest.validity :=
       or_else (option_map toLowerCase (Params.validity params)) "day";
     OrderRequest.variety :=
       or_else (option_map toLowerCase (Params.variety params)) "regular";
     OrderRequest.price :=
       if (includes ["LIMIT"; "SL"] (Params.orderType params)
           && Boolean (Params.price params))%bool
       then Params.price params else None;
     OrderRequest.trigger_price :=
       if (includes ["SL"; "SL-M"] (Params.orderType params)
           && Boolean (Params.triggerPrice params))%bool
       then Params.triggerPrice params else None |}.

Definition placeOrder (c : Client) (params : Params.t)
  : Async Request OrderResult.t :=
  target <- lift (resolveInstrument c params) ;;
  let body := orderRequest params (fst target) (snd target) in
  order_id <- send (kite_placeOrder (OrderRequest.variety body) body)
                   (place_response (broker c) (OrderRequest.variety body) body) ;;
  resolve (OrderResult.mk order_id "success" "Order placed successfully").

Definition cancelOrder (c : Client) (orderId : string)
  : Async Request OrderResult.t :=
  order_id <- send (kite_cancelOrder "regular" orderId)
                   (cancel_response (broker c) "regular" orderId) ;;
  resolve (OrderResult.mk order_id "success" "Order cancelled successfully").

Definition listOrders (c : Client) : Async Request (list Order.t) :=
  send getOrders (orders_response (broker c)).

Definition listPositions (c : Client) : Async Request (list Position.t) :=
  send getPositions (positions_net (broker c)).

Definition openStatuses : list string := ["open"; "pending"; "trigger pending"].

Definition isOpen (order : Order.t) : bool :=
  includes openStatuses (toLowerCase (Order.status order)).

Definition cancelAllOrders (c : Client)
  : Async Request (Report.t OrderResult.t) :=
  orders <- listOrders c ;;
  let openOrders := filter isOpen orders in
  results <- Promise_all
               (map (fun order => cancelOrder c (Order.order_id order)) openOrders) ;;
  resolve (Report.mk true
             ("Cancelled " ++ string_of_nat (List.length results) ++ " orders")
             results).

Definition _getLTP (c : Client) (exchange : string) (tradingSymbol : prim)
  : Async Request number :=
  let instrument := exchange ++ ":" ++ to_string tradingSymbol in
  send (getLTP instrument) (ltp_response (broker c) instrument).

Definition oppositeTransactionType (quantity : Z) : string :=
  if quantity >? 0 then "SELL" else "BUY".

Definition marketExit (position : Position.t) : Params.t :=
  {| Params.symbolName := Position.tradingsymbol position;
     Params.exchange := Some (Position.exchange position);
     Params.transactionType := oppositeTransactionType (Position.quantity position);
     Params.orderType := "MARKET";
     Params.quantity := Z.abs (Position.quantity position);
     Params.price := None;
     Params.triggerPrice := None;
     Params.validity := None;
     Params.variety := None;
     Params.product := Position.product position |}.

Definition marketCallback (c : Client) (position : Position.t)
  : option (Async Request OrderResult.t) :=
  if Position.quantity position =? 0 then None
  else Some (placeOrder c (marketExit position)).

Definition exitAllPositions (c : Client)
  : Async Request (Report.t OrderResult.t) :=
  positions <- listPositions c ;;
  results <- Promise_all
               (filter_Boolean (map (marketCallback c) positions)) ;;
  resolve (Report.mk true
             ("Exited " ++ string_of_nat (List.length results) ++ " positions")
             results).

Definition round2 (x : number) : number :=
  num_div (Math_round (num_mul x (num_of_Z 100))) (num_of_Z 100).

(** Here a sell is priced below the last traded price and a buy above. *)
Definition limitPrice (transactionType : string) (ltp priceOffset : number)
  : number :=
  let one := num_of_Z 1 in
  let pct := num_div priceOffset (num_of_Z 100) in
  round2 (if String.eqb transactionType "SELL"
          then num_mul ltp (num_sub one pct)
          else num_mul ltp (num_add one pct)).

Definition limitExit (priceOffset : option number) (position : Position.t)
    (ltp : number) : Params.t :=
  let transactionType := oppositeTransactionType (Position.quantity position) in
  {| Params.symbolName := Position.tradingsymbol position;
     Params.exchange := Some (Position.exchange position);
     Params.transactionType := transactionType;
     Params.orderType := "LIMIT";
     Params.quantity := Z.abs (Position.quantity position);
     Params.price :=
       Some (limitPrice transactionType ltp (or_else priceOffset (num_of_Z 0)));
     Params.triggerPrice := None;
     Params.validity := None;
     Params.variety := None;
     Params.product := Position.product position |}.

Definition limitCallback (c : Client) (priceOffset : option number)
    (position : Position.t) : Async Request (option OrderResult.t) :=
  if Position.quantity position =? 0 then resolve None
  else
    ltp <- _getLTP c (Position.exchange position) (Position.tradingsymbol position) ;;
    placed <- placeOrder c (limitExit priceOffset position ltp) ;;
    resolve (Some placed).

Definition exitAllPositionsLimit (c : Client) (priceOffset : option number)
  : Async Request (Report.t (option OrderResult.t)) :=
  positions <- listPositions c ;;
  results <- Promise_all
               (filter Boolean (map (limitCallback c priceOffset) positions)) ;;
  resolve (Report.mk true
             ("Exited " ++ string_of_nat (List.length results)
                        ++ " positions with limit orders")
             results).

(** The stop-loss variant: the trigger lies below the last traded price
    for a sell and above it for a buy. *)
Definition triggerPrice (transactionType : string) (ltp slPercentage : number)
  : number :=
  let one := num_of_Z 1 in
  let pct := num_div slPercentage (num_of_Z 100) in
  round2 (if String.eqb transactionType "SELL"
          then num_mul ltp (num_sub one pct)
          else num_mul ltp (num_add one pct)).

Definition stopLossExit (slPercentage : option number) (position : Position.t)
    (ltp : number) : Params.t :=
  let transactionType := oppositeTransactionType (Position.quantity position) in
  {| Params.symbolName := Position.tradingsymbol position;
     Params.exchange := Some (Position.exchange position);
     Params.transactionType := transactionType;
     Params.orderType := "SL-M";
     Params.quantity := Z.abs (Position.quantity position);
     Params.price := None;
     Params.triggerPrice :=
       Some (triggerPrice transactionType ltp (or_else slPercentage (num_of_Z 1)));
     Params.validity := None;
     Params.variety := None;
     Params.product := Position.product position |}.

Definition stopLossCallback (c : Client) (slPercentage : option number)
    (position : Position.t) : Async Request (option OrderResult.t) :=
  if Position.quantity position =? 0 then resolve None
  else
    ltp <- _getLTP c (Position.exchange position) (Position.tradingsymbol position) ;;
    placed <- placeOrder c (stopLossExit slPercentage position ltp) ;;
    resolve (Some placed).

Definition exitAllPositionsAddStopLoss (c : Client) (slPercentage : option number)
  : Async Request (Report.t (option OrderResult.t)) :=
  positions <- listPositions c ;;
  results <- Promise_all
               (filter Boolean (map (stopLossCallback c slPercentage) positions)) ;;
  resolve (Report.mk true
             ("Added stop loss orders for "
                ++ string_of_nat (List.length results) ++ " positions")
             results).

End Zerodha.

(* ===================================================================== *)
(** * Upstox: orders, positions and exits                                *)
(* ===================================================================== *)

(** The rest of the Upstox client.  Its requests go through the axios
    instance that [_authenticate] creates; the client is taken after a
    successful authentication. *)
Module UpstoxBulk.

Module Order.
Record t : Type := mk {
  order_id : string;
  status : string }.
End Order.

Module Position.
Record t : Type := mk {
  tradingsymbol : prim;
  instrument_token : prim;
  exchange : string;
  quantity : Z;
  product : option string }.
End Position.

Inductive Request : Type :=
| GET_orders
| GET_positions
| GET_ltp (instrument_key : prim)
| DELETE_order (orderId : string)
| Placing (request : Upstox.Request).

(** A client after [_authenticate] has succeeded: [this.axiosInstance],
    which every request below goes through, is in place (it is created
    there and nowhere else).  [response.data.data] of a list endpoint
    may be [null]. *)
Record Client : Type := {
  placing : Upstox.Client;
  orders_response : completion (option (list Order.t));
  positions_response : completion (option (list Position.t));
  ltp_response : prim -> completion number;
  cancel_response : string -> completion string }.

Definition placeOrder (c : Client) (params : Upstox.Params.t)
  : Async Request string :=
  let run := Upstox.placeOrder (placing c) params in
  (map Placing (requests run), settled run).

(** [cancelOrder] returns [response.data] as the broker sent it. *)
Definition cancelOrder (c : Client) (orderId : string) : Async Request string :=
  send (DELETE_order orderId) (cancel_response c orderId).

Definition listOrders (c : Client) : Async Request (list Order.t) :=
  data <- send GET_orders (orders_response c) ;;
  resolve (match data with Some l => l | None => [] end).

Definition listPositions (c : Client) : Async Request (list Position.t) :=
  data <- send GET_positions (positions_response c) ;;
  resolve (match data with Some l => l | None => [] end).

Definition openStatuses : list string := ["open"; "pending"; "validation_pending"].

Definition isOpen (order : Order.t) : bool :=
  includes openStatuses (toLowerCase (Order.status order)).

Definition cancelAllOrders (c : Client) : Async Request (Report.t string) :=
  orders <- listOrders c ;;
  let openOrders := filter isOpen orders in
  results <- Promise_all
               (map (fun order => cancelOrder c (Order.order_id order)) openOrders) ;;
  resolve (Report.mk true
             ("Cancelled " ++ string_of_nat (List.length results) ++ " orders")
             results).

Definition _getLTP (c : Client) (instrumentToken : prim) : Async Request number :=
  send (GET_ltp instrumentToken) (ltp_response c instrumentToken).

Definition oppositeTransactionType (quantity : Z) : string :=
  if quantity >? 0 then "SELL" else "BUY".

Definition marketExit (position : Position.t) : Upstox.Params.t :=
  {| Upstox.Params.symbolName := Position.tradingsymbol position;
     Upstox.Params.exchange := Some (Position.exchange position);
     Upstox.Params.transactionType := oppositeTransactionType (Position.quantity position);
     Upstox.Params.orderType := "MARKET";
     Upstox.Params.quantity := Z.abs (Position.quantity position);
     Upstox.Params.price := None;
     Upstox.Params.triggerPrice := None;
     Upstox.Params.validity := None;
     Upstox.Params.product := Position.product position |}.

Definition marketCallback (c : Client) (position : Position.t)
  : option (Async Request string) :=
  if Position.quantity position =? 0 then None
  else Some (placeOrder c (marketExit position)).

Definition exitAllPositions (c : Client) : Async Request (Report.t string) :=
  positions <- listPositions c ;;
  results <- Promise_all (filter_Boolean (map (marketCallback c) positions)) ;;
  resolve (Report.mk true
             ("Exited " ++ string_of_nat (List.length results) ++ " positions")
             results).

Definition round2 (x : number) : number :=
  num_div (Math_round (num_mul x (num_of_Z 100))) (num_of_Z 100).

Definition limitPrice (transactionType : string) (ltp priceOffset : number)
  : number :=
  let one := num_of_Z 1 in
  let pct := num_div priceOffset (num_of_Z 100) in
  round2 (if String.eqb transactionType "SELL"
          then num_mul ltp (num_sub one pct)
          else num_mul ltp (num_add one pct)).

Definition limitExit (priceOffset : option number) (position : Position.t)
    (ltp : number) : Upstox.Params.t :=
  let transactionType := oppositeTransactionType (Position.quantity position) in
  {| Upstox.Params.symbolName := Position.tradingsymbol position;
     Upstox.Params.exchange := Some (Position.exchange position);
     Upstox.Params.transactionType := transactionType;
     Upstox.Params.orderType := "LIMIT";
     Upstox.Params.quantity := Z.abs (Position.quantity position);
     Upstox.Params.price :=
       Some (limitPrice transactionType ltp (or_else priceOffset (num_of_Z 0)));
     Upstox.Params.triggerPrice := None;
     Upstox.Params.validity := None;
     Upstox.Params.product := Position.product position |}.

Definition limitCallback (c : Client) (priceOffset : option number)
    (position : Position.t) : Async Request (option string) :=
  if Position.quantity position =? 0 then resolve None
  else
    ltp <- _getLTP c (Position.instrument_token position) ;;
    placed <- placeOrder c (limitExit priceOffset position ltp) ;;
    resolve (Some placed).

Definition exitAllPositionsLimit (c : Client) (priceOffset : option number)
  : Async Request (Report.t (option string)) :=
  positions <- listPositions c ;;
  results <- Promise_all
               (filter Boolean (map (limitCallback c priceOffset) positions)) ;;
  resolve (Report.mk true
             ("Exited " ++ string_of_nat (List.length results)
                        ++ " positions with limit orders")
             results).

Definition triggerPrice (transactionType : string) (ltp slPercentage : number)
  : number :=
  let one := num_of_Z 1 in
  let pct := num_div slPercentage (num_of_Z 100) in
  round2 (if String.eqb transactionType "SELL"
          then num_mul ltp (num_sub one pct)
          else num_mul ltp (num_add one pct)).

Definition stopLossExit (slPercentage : option number) (position : Position.t)
    (ltp : number) : Upstox.Params.t :=
  let transactionType := oppositeTransactionType (Position.quantity position) in
  {| Upstox.Params.symbolName := Position.tradingsymbol position;
     Upstox.Params.exchange := Some (Position.exchange position);
     Upstox.Params.transactionType := transactionType;
     Upstox.Params.orderType := "SL-M";
     Upstox.Params.quantity := Z.abs (Position.quantity position);
     Upstox.Params.price := None;
     Upstox.Params.triggerPrice :=
       Some (triggerPrice transactionType ltp (or_else slPercentage (num_of_Z 1)));
     Upstox.Params.validity := None;
     Upstox.Params.product := Position.product position |}.

Definition stopLossCallback (c : Client) (slPercentage : option number)
    (position : Position.t) : Async Request (option string) :=
  if Position.quantity position =? 0 then resolve None
  else
    ltp <- _getLTP c (Position.instrument_token position) ;;
    placed <- placeOrder c (stopLossExit slPercentage position ltp) ;;
    resolve (Some placed).

Definition exitAllPositionsAddStopLoss (c : Client) (slPercentage : option number)
  : Async Request (Report.t (option string)) :=
  positions <- listPositions c ;;
  results <- Promise_all
               (filter Boolean (map (stopLossCallback c slPercentage) positions)) ;;
  resolve (Report.mk true
             ("Added stop loss orders for "
                ++ string_of_nat (List.length results) ++ " positions")
             results).

End UpstoxBulk.

(* ===================================================================== *)
(** * OrderProvider                                                      *)
(* ===================================================================== *)

(** [null], [undefined] or a value, where the code tells them apart *)
Inductive nullable (A : Type) : Type :=
| Value (a : A)
| JsUndefined
| JsNull.
Arguments Value {A} a.
Arguments JsUndefined {A}.
Arguments JsNull {A}.

Module OrderProvider.

Section Registry.

(** The provider holds whatever client class the broker module exports.
    [construct name credentials] stands for
    [new (require(`./brokers/${name}Client`))(credentials)]: it throws
    when the module cannot be loaded or its constructor throws. *)
Variable Client Credentials : Type.
Variable construct : string -> Credentials -> completion Client.

(** [this.brokerClients], an object literal used as a map: its own
    properties, latest first. *)
Definition brokerClients : Type := list (string * Client).

Fixpoint own_client (registry : brokerClients) (brokerName : string)
  : option Client :=
  match registry with
  | [] => None
  | (k, c) :: rest =>
      if String.eqb k brokerName then Some c else own_client rest brokerName
  end.

(** What [this.brokerClients[brokerName]] reads: a registered client, a
    member inherited from [Object.prototype], or [undefined]. *)
Inductive slot : Type :=
| Registered (client : Client)
| Inherited (member : string)
| Unset.

Definition read (registry : brokerClients) (brokerName : string) : slot :=
  match own_client registry brokerName with
  | Some c => Registered c
  | None => if includes Object_prototype brokerName then Inherited brokerName
            else Unset
  end.

(** [this.brokerClients[brokerName] = client].  Assigning to [__proto__]
    would set the prototype and leave the own properties as they are;
    the brokers directory holds no module of that name. *)
Definition write (registry : brokerClients) (brokerName : string)
    (client : Client) : brokerClients :=
  if String.eqb brokerName "__proto__" then registry
  else (brokerName, client) :: registry.

(** [registerBroker]: a failure to load or construct the client is
    logged and the registry is left as it was. *)
Definition registerBroker (registry : brokerClients) (brokerName : string)
    (credentials : Credentials) : brokerClients :=
  match construct brokerName credentials with
  | Normal client => write registry brokerName client
  | Throw _ => registry
  end.

(** The constructor registers [config.brokers] in order. *)
Definition OrderProvider (brokers : list (string * Credentials)) : brokerClients :=
  fold_left (fun registry broker => registerBroker registry (fst broker) (snd broker))
            brokers [].

(** [getBrokerClient] throws when the slot is falsy and returns what the
    slot holds otherwise. *)
Definition getBrokerClient (registry : brokerClients) (brokerName : string)
  : completion slot :=
  match read registry brokerName with
  | Unset => Throw ("Broker " ++ brokerName ++ " is not registered")
  | found => Normal found
  end.

(** Every other operation of the provider is
    [const client = this.getBrokerClient(brokerName); return client.method(...)]
    inside an [async] function; calling a method on an inherited member
    is a type error. *)
Definition delegate {Req A : Type} (method : string)
    (call : Client -> Async Req A) (registry : brokerClients)
    (brokerName : string) : Async Req A :=
  match getBrokerClient registry brokerName with
  | Throw e => lift (Throw e)
  | Normal (Registered client) => call client
  | Normal _ => lift (Throw ("client." ++ method ++ " is not a function"))
  end.

End Registry.

Arguments Registered {Client} client.
Arguments Inherited {Client} member.
Arguments Unset {Client}.
Arguments own_client {Client} registry brokerName.
Arguments read {Client} registry brokerName.
Arguments write {Client} registry brokerName client.
Arguments registerBroker {Client Credentials} construct registry brokerName credentials.
Arguments OrderProvider {Client Credentials} construct brokers.
Arguments getBrokerClient {Client} registry brokerName.
Arguments delegate {Client Req A} method call registry brokerName.

(** The provider's own instrument cache, [this.instrumentCache], of
    which only the property [upstox] is ever set, and the Upstox cache
    file it writes (the file the Upstox client reads). *)
Record Cache : Type := {
  upstox : option (list Upstox.Instrument.t);
  file : option (CacheFile.t Upstox.Instrument.t) }.

(** [_updateUpstoxInstrumentCache]: download, write the file, read it
    back, decode, store; any failure returns [false]. *)
Definition _updateUpstoxInstrumentCache
    (bundle : completion (option (list Upstox.Instrument.t)))
    (st : Cache) : Cache * bool :=
  match bundle with
  | Throw _ => (st, false)
  | Normal bytes =>
      let written := Some (CacheFile.mk 0 bytes) in
      match bytes with
      | Some instrumentsData =>
          ({| upstox := Some instrumentsData; file := written |}, true)
      | None => ({| upstox := upstox st; file := written |}, false)
      end
  end.

Definition updateInstrumentCache
    (bundle : completion (option (list Upstox.Instrument.t)))
    (brokerName : string) (st : Cache) : Cache * bool :=
  if String.eqb brokerName "upstox" then _updateUpstoxInstrumentCache bundle st
  else (st, false).

(** [this.instrumentCache[brokerName]] is truthy for [upstox] once it is
    set and for the names of inherited members. *)
Definition cached (st : Cache) (brokerName : string) : bool :=
  if String.eqb brokerName "upstox"
  then match upstox st with Some _ => true | None => false end
  else includes Object_prototype brokerName.

Definition findInstrumentBySecurityId (st : Cache) (brokerName : string)
    (securityId : prim) : nullable Upstox.Instrument.t :=
  if negb (cached st brokerName) then JsNull
  else if String.eqb brokerName "upstox" then
    match upstox st with
    | Some instruments =>
        match find (Upstox.matches securityId) instruments with
        | Some instrument => Value instrument
        | None => JsUndefined
        end
    | None => JsNull
    end
  else JsNull.

End OrderProvider.

(* ===================================================================== *)
(** * The Dhan lookup on catalog entries as they are parsed              *)
(* ===================================================================== *)

(** [toUpperCase] above is JavaScript's on strings of ASCII characters
    (JavaScript also maps letters outside ASCII, some of them onto ASCII
    letters); what is said about letter case is said for those. *)
Fixpoint is_ascii (s : string) : bool :=
  match s with
  | EmptyString => true
  | String c r => (Nat.ltb (nat_of_ascii c) 128 && is_ascii r)%bool
  end.

Definition ascii_key (securityId : prim) : bool :=
  match securityId with
  | PStr key => is_ascii key
  | _ => true
  end.

(** [Dhan.getInstrumentDetails] is the lookup over instruments that have
    their trading symbol.  The catalog is what the instrument endpoints
    and [JSON.parse] deliver: the trading symbol of an entry may be
    missing or not a string, and then
    [instrument.tradingSymbol.toUpperCase()] is a type error, which
    [find] lets through to the caller. *)
Module DhanScan.

Module Entry.
Record t : Type := mk {
  tradingSymbol : prim;
  securityId : prim;
  exchange : string;
  exchangeToken : prim }.
End Entry.

(** An instrument that has its trading symbol, as a catalog entry *)
Definition entry (instrument : Dhan.Instrument.t) : Entry.t :=
  {| Entry.tradingSymbol := PStr (Dhan.Instrument.tradingSymbol instrument);
     Entry.securityId := Dhan.Instrument.securityId instrument;
     Entry.exchange := Dhan.Instrument.exchange instrument;
     Entry.exchangeToken := Dhan.Instrument.exchangeToken instrument |}.

Definition ascii_symbol (instrument : Entry.t) : bool :=
  match Entry.tradingSymbol instrument with
  | PStr symbol => is_ascii symbol
  | _ => true
  end.

(** The predicate of [instrumentsCache.find]: [||] evaluates from the
    left, so the symbol is upper-cased only when it is not the key
    itself. *)
Definition matches (securityId : prim) (instrument : Entry.t) : completion bool :=
  match securityId with
  | PStr key =>
      if strict_eq (Entry.tradingSymbol instrument) securityId then Normal true
      else
        match Entry.tradingSymbol instrument with
        | PStr symbol =>
            Normal (String.eqb (toUpperCase symbol) (toUpperCase key)
                    || strict_eq (Entry.securityId instrument) securityId)
        | PUndef =>
            Throw "Cannot read properties of undefined (reading 'toUpperCase')"
        | PNum _ =>
            Throw "instrument.tradingSymbol.toUpperCase is not a function"
        end
  | PNum _ => Normal (strict_eq (Entry.exchangeToken instrument) securityId)
  | PUndef => Normal false
  end.

(** [Array.prototype.find] with a predicate that may throw: the scan
    stops at the first entry on which the predicate holds or throws. *)
Fixpoint find (securityId : prim) (instruments : list Entry.t)
  : completion (option Entry.t) :=
  match instruments with
  | [] => Normal None
  | instrument :: rest =>
      match matches securityId instrument with
      | Throw e => Throw e
      | Normal true => Normal (Some instrument)
      | Normal false => find securityId rest
      end
  end.

Definition getInstrumentDetails (cache : option (list Entry.t))
    (securityId : prim) : completion (option Entry.t) :=
  match cache with
  | None => Throw "Instruments cache not loaded"
  | Some instruments => find securityId instruments
  end.

End DhanScan.

(* ===================================================================== *)
(** * Sample data and the specification's rounding                       *)
(* ===================================================================== *)

(** Three open orders and two filled ones; the broker refuses to cancel
    the order [reject_cancel]. *)
Definition dhan_orders : list Dhan.Order.t :=
  [ Dhan.Order.mk "1001" "OPEN"; Dhan.Order.mk "1002" "Pending";
    Dhan.Order.mk "1003" "FILLED"; Dhan.Order.mk "1004" "trigger pending";
    Dhan.Order.mk "1005" "traded" ].

Definition dhan_positions : list Dhan.Position.t :=
  [ Dhan.Position.mk (PStr "1333") "NSE" 0 (Some "INTRADAY");
    Dhan.Position.mk (PStr "11536") "NSE" 10 (Some "INTRADAY") ].

Definition dhan_broker (reject_cancel : string) (ltp : number) : Dhan.Broker :=
  {| Dhan.orders_response := Normal (Some dhan_orders);
     Dhan.positions_response := Normal (Some dhan_positions);
     Dhan.quote_response := fun _ _ => Normal ltp;
     Dhan.place_response := fun _ => Normal "7001";
     Dhan.cancel_response := fun id =>
       if String.eqb id reject_cancel
       then Throw "Request failed with status code 400"
       else Normal tt |}.

Definition dhan_client (reject_cancel : string) (ltp : number) : Dhan.Client :=
  {| Dhan.instrumentsCache := None;
     Dhan.broker := dhan_broker reject_cancel ltp |}.

Definition zerodha_positions : list Zerodha.Position.t :=
  [ Zerodha.Position.mk (PStr "SBIN") "NSE" 0 (Some "MIS");
    Zerodha.Position.mk (PStr "INFY") "NSE" 10 (Some "MIS") ].

Definition zerodha_client (ltp : number) : Zerodha.Client :=
  {| Zerodha.instrumentsCache := None;
     Zerodha.broker :=
       {| Zerodha.orders_response := Normal [];
          Zerodha.positions_net := Normal zerodha_positions;
          Zerodha.ltp_response := fun _ => Normal ltp;
          Zerodha.place_response := fun _ _ => Normal "220101000000001";
          Zerodha.cancel_response := fun _ id => Normal id |} |}.

Definition dhan_catalog : list Dhan.Instrument.t :=
  [ Dhan.Instrument.mk "RELIANCE" (PStr "2885") "NSE" (PNum 2885);
    Dhan.Instrument.mk "RELIANCE" (PStr "500325") "BSE" (PNum 500325);
    Dhan.Instrument.mk "Nifty50" (PStr "13") "NSE" (PNum 13) ].

Definition zerodha_catalog : list Zerodha.Instrument.t :=
  [ Zerodha.Instrument.mk (PStr "INFY") (PNum 408065) "NSE";
    Zerodha.Instrument.mk (PStr "Nifty50") (PNum 256265) "NSE" ].

Definition upstox_catalog : list Upstox.Instrument.t :=
  [ Upstox.Instrument.mk (PStr "INFY") (PNum 1594) (PStr "NSE_EQ|INE009A01021") "NSE";
    Upstox.Instrument.mk (PStr "Nifty50") (PNum 26000) (PStr "NSE_INDEX|Nifty 50") "NSE" ].

Definition upstox_client : Upstox.Client :=
  {| Upstox.instrumentsCache := Some upstox_catalog;
     Upstox.place_response := fun _ => Normal "240101000000001" |}.

Definition upstox_order (orderType : string) (price triggerPrice : option number)
  : Upstox.Params.t :=
  {| Upstox.Params.symbolName := PStr "INFY";
     Upstox.Params.exchange := Some "NSE";
     Upstox.Params.transactionType := "SELL";
     Upstox.Params.orderType := orderType;
     Upstox.Params.quantity := 1;
     Upstox.Params.price := price;
     Upstox.Params.triggerPrice := triggerPrice;
     Upstox.Params.validity := None;
     Upstox.Params.product := None |}.

Definition dhan_order (orderType : string) (price triggerPrice : option number)
  : Dhan.Params.t :=
  {| Dhan.Params.securityId := PStr "11536";
     Dhan.Params.symbolName := PUndef;
     Dhan.Params.exchange := Some "NSE";
     Dhan.Params.transactionType := "BUY";
     Dhan.Params.orderType := orderType;
     Dhan.Params.quantity := 1;
     Dhan.Params.price := price;
     Dhan.Params.triggerPrice := triggerPrice;
     Dhan.Params.validity := None;
     Dhan.Params.product := None |}.

(** A short and a long position; the quote of the long one fails. *)
Definition dhan_short_client : Dhan.Client :=
  {| Dhan.instrumentsCache := None;
     Dhan.broker :=
       {| Dhan.orders_response := Normal None;
          Dhan.positions_response :=
            Normal (Some [ Dhan.Position.mk (PStr "1333") "NSE" (-5) (Some "INTRADAY");
                           Dhan.Position.mk (PStr "2885") "NSE" 7 (Some "INTRADAY") ]);
          Dhan.quote_response := fun _ id =>
            if strict_eq id (PStr "2885") then Throw "Request failed with status code 429"
            else Normal (num_of_Z 100);
          Dhan.place_response := fun _ => Normal "7002";
          Dhan.cancel_response := fun _ => Normal tt |} |}.

(** A Dhan client whose catalog is loaded, and an order given by symbol
    alone. *)
Definition dhan_catalog_client : Dhan.Client :=
  {| Dhan.instrumentsCache := Some dhan_catalog;
     Dhan.broker := dhan_broker "" (num_of_Z 100) |}.

Definition dhan_order_by_symbol (symbol : string) (exchange : option string)
  : Dhan.Params.t :=
  {| Dhan.Params.securityId := PUndef;
     Dhan.Params.symbolName := PStr symbol;
     Dhan.Params.exchange := exchange;
     Dhan.Params.transactionType := "BUY";
     Dhan.Params.orderType := "MARKET";
     Dhan.Params.quantity := 1;
     Dhan.Params.price := None;
     Dhan.Params.triggerPrice := None;
     Dhan.Params.validity := None;
     Dhan.Params.product := None |}.

(** An Upstox catalog whose first entry has no instrument key, and an
    order that names no symbol. *)
Definition upstox_partial_catalog : list Upstox.Instrument.t :=
  [ Upstox.Instrument.mk (PStr "SBIN") (PNum 3045) PUndef "NSE";
    Upstox.Instrument.mk (PStr "INFY") (PNum 1594) (PStr "NSE_EQ|INE009A01021") "NSE" ].

Definition upstox_order_without_symbol : Upstox.Params.t :=
  {| Upstox.Params.symbolName := PUndef;
     Upstox.Params.exchange := None;
     Upstox.Params.transactionType := "BUY";
     Upstox.Params.orderType := "MARKET";
     Upstox.Params.quantity := 100;
     Upstox.Params.price := None;
     Upstox.Params.triggerPrice := None;
     Upstox.Params.validity := None;
     Upstox.Params.product := None |}.

(** Segment downloads of which the currency list fails *)
Definition dhan_segments_cds_down : Dhan.Segments :=
  {| Dhan.nseEquity :=
       Normal [Dhan.Instrument.mk "RELIANCE" (PStr "2885") "NSE" (PNum 2885)];
     Dhan.bseEquity :=
       Normal [Dhan.Instrument.mk "RELIANCE" (PStr "500325") "BSE" (PNum 500325)];
     Dhan.nfo := Normal [];
     Dhan.cds := Throw "Request failed with status code 503";
     Dhan.mcx := Normal [] |}.

Definition dhan_segments_up : Dhan.Segments :=
  {| Dhan.nseEquity :=
       Normal [Dhan.Instrument.mk "RELIANCE" (PStr "2885") "NSE" (PNum 2885)];
     Dhan.bseEquity :=
       Normal [Dhan.Instrument.mk "RELIANCE" (PStr "500325") "BSE" (PNum 500325)];
     Dhan.nfo := Normal [];
     Dhan.cds := Normal [];
     Dhan.mcx := Normal [] |}.

(** A brokers directory that holds the Dhan client only, whose
    constructor throws when the credentials are missing. *)
Definition sample_construct (brokerName : string) (credentials : option string)
  : completion Dhan.Client :=
  if String.eqb brokerName "dhan" then
    match credentials with
    | Some _ => Normal (dhan_client "" (num_of_Z 100))
    | None => Throw "Cannot read properties of undefined (reading 'accessToken')"
    end
  else Throw ("Cannot find module './brokers/" ++ brokerName ++ "Client'").

(** An Upstox client with three open orders, of which the broker refuses
    to cancel [reject_cancel], one flat and one short position. *)
Definition upstox_bulk_client (catalog : option (list Upstox.Instrument.t))
    (reject_cancel : string) : UpstoxBulk.Client :=
  {| UpstoxBulk.placing :=
       {| Upstox.instrumentsCache := catalog;
          Upstox.place_response := fun _ => Normal "240101000000001" |};
     UpstoxBulk.orders_response :=
       Normal (Some [ UpstoxBulk.Order.mk "A1" "open";
                      UpstoxBulk.Order.mk "A2" "complete";
                      UpstoxBulk.Order.mk "A3" "Validation_Pending" ]);
     UpstoxBulk.positions_response :=
       Normal (Some [ UpstoxBulk.Position.mk (PStr "SBIN") (PNum 3045) "NSE" 0 None;
                      UpstoxBulk.Position.mk (PStr "INFY") (PNum 1594) "NSE" (-3)
                                             (Some "D") ]);
     UpstoxBulk.ltp_response := fun _ => Normal (num_of_Z 100);
     UpstoxBulk.cancel_response := fun id =>
       if String.eqb id reject_cancel then Throw "Request failed with status code 400"
       else Normal "cancelled" |}.

(** A Dhan client, catalog loaded, with one long position of 10 of the
    given security id and product; and the like for Zerodha. *)
Definition dhan_product_client (securityId : prim) (product : option string)
  : Dhan.Client :=
  {| Dhan.instrumentsCache := Some dhan_catalog;
     Dhan.broker :=
       {| Dhan.orders_response := Normal None;
          Dhan.positions_response :=
            Normal (Some [ Dhan.Position.mk securityId "NSE" 10 product ]);
          Dhan.quote_response := fun _ _ => Normal (num_of_Z 100);
          Dhan.place_response := fun _ => Normal "7003";
          Dhan.cancel_response := fun _ => Normal tt |} |}.

Definition zerodha_product_client (product : option string) : Zerodha.Client :=
  {| Zerodha.instrumentsCache := Some zerodha_catalog;
     Zerodha.broker :=
       {| Zerodha.orders_response := Normal [];
          Zerodha.positions_net :=
            Normal [ Zerodha.Position.mk (PStr "INFY") "NSE" 10 product ];
          Zerodha.ltp_response := fun _ => Normal (num_of_Z 100);
          Zerodha.place_response := fun _ _ => Normal "220101000000002";
          Zerodha.cancel_response := fun _ id => Normal id |} |}.

(** A parsed Dhan catalog whose second entry has no trading symbol. *)
Definition dhan_parsed_catalog : list DhanScan.Entry.t :=
  [ DhanScan.entry (Dhan.Instrument.mk "RELIANCE" (PStr "2885") "NSE" (PNum 2885));
    DhanScan.Entry.mk PUndef (PStr "999") "NSE" (PNum 999);
    DhanScan.entry (Dhan.Instrument.mk "Nifty50" (PStr "13") "NSE" (PNum 13)) ].

(** Following the specification's words, not the code: the decimal price
    [n / d] rounded half-up to a whole number of cents, and the number
    with that many cents. *)
Definition spec_half_up_cents (n d : Z) : Z := round_half_up (100 * n) d.

Definition spec_round2 (n d : Z) : number := decimal (spec_half_up_cents n d) 100.

(* ===================================================================== *)
(** * General facts                                                      *)
(* ===================================================================== *)

Section Lists.
Context {A : Type}.

Lemma find_first (f : A -> bool) (before after : list A) (x : A) :
  (forall y, In y before -> f y = false) ->
  f x = true ->
  find f (before ++ x :: after) = Some x.
Proof.
  induction before as [|y before IH]; intros Hb Hx; simpl.
  - now rewrite Hx.
  - rewrite (Hb y (or_introl eq_refl)). apply IH; [|exact Hx].
    intros z Hz. apply Hb. now right.
Qed.

Lemma find_finds (f : A -> bool) (l : list A) (x : A) :
  In x l -> f x = true -> exists y, find f l = Some y /\ f y = true.
Proof.
  induction l as [|z l IH]; intros Hin Hx; [contradiction|].
  simpl. destruct (f z) eqn:Hz.
  - exists z. now split.
  - destruct Hin as [->|Hin]; [congruence|]. now apply IH.
Qed.

Lemma find_no_match (f : A -> bool) (l : list A) :
  (forall y, In y l -> f y = false) -> find f l = None.
Proof.
  induction l as [|z l IH]; intros H; simpl; [reflexivity|].
  rewrite (H z (or_introl eq_refl)). apply IH. intros y Hy. apply H. now right.
Qed.

End Lists.

Section Promises.
Context {Req A : Type}.

Lemma await_ext {B : Type} (m : Async Req A) (k1 k2 : A -> Async Req B) :
  (forall a, k1 a = k2 a) -> await m k1 = await m k2.
Proof.
  intros H. destruct m as [t [a|e]]; simpl; [now rewrite H | reflexivity].
Qed.

Lemma all_values_map_Normal (vs : list A) :
  all_values (map Normal vs) = Normal vs.
Proof.
  induction vs as [|v vs IH]; simpl; [reflexivity | now rewrite IH].
Qed.

Lemma all_values_Normal (l : list (completion A)) (vs : list A) :
  all_values l = Normal vs -> l = map Normal vs.
Proof.
  revert vs. induction l as [|[a|e] l IH]; simpl; intros vs H.
  - now inversion H.
  - destruct (all_values l) as [ws|e]; [|discriminate].
    inversion H; subst. simpl. f_equal. now apply IH.
  - discriminate.
Qed.

Lemma all_values_Throw (l : list (completion A)) (e : Error) :
  In (Throw e) l -> exists e', all_values l = Throw e'.
Proof.
  induction l as [|[a|e0] l IH]; simpl; intros H.
  - contradiction.
  - destruct H as [H|H]; [discriminate|].
    destruct (IH H) as [e' ->]. now exists e'.
  - now exists e0.
Qed.

Lemma all_values_rejected (l : list (completion A)) (e : Error) :
  all_values l = Throw e -> In (Throw e) l.
Proof.
  induction l as [|[a|e0] l IH]; simpl; intros H.
  - discriminate.
  - destruct (all_values l) as [ws|e1]; [discriminate|].
    right. apply IH. congruence.
  - left. congruence.
Qed.

Lemma Promise_all_requests (ps : list (Async Req A)) :
  requests (Promise_all ps) = List.concat (map requests ps).
Proof. reflexivity. Qed.

Lemma Promise_all_settled (ps : list (Async Req A)) :
  settled (Promise_all ps) = all_values (map settled ps).
Proof. reflexivity. Qed.

(** The requests of a promise in the array are among those of
    [Promise.all]. *)
Lemma Promise_all_issues (ps : list (Async Req A)) (p : Async Req A) (r : Req) :
  In p ps -> In r (requests p) -> In r (requests (Promise_all ps)).
Proof.
  intros Hp Hr. rewrite Promise_all_requests. apply in_concat.
  exists (requests p). split; [now apply in_map | exact Hr].
Qed.

End Promises.

(** [.filter(Boolean)] after a synchronous callback that returns [null]
    or a promise keeps exactly the promises. *)
Lemma filter_Boolean_promises {X Req A : Type} (skip : X -> bool)
    (f : X -> Async Req A) (xs : list X) :
  filter_Boolean (map (fun x => if skip x then None else Some (f x)) xs)
  = map f (filter (fun x => negb (skip x)) xs).
Proof.
  induction xs as [|x xs IH]; [reflexivity|].
  unfold filter_Boolean in *. cbn [map flat_map filter].
  destruct (skip x); cbn [negb app]; rewrite IH; reflexivity.
Qed.

(** [.filter(Boolean)] on an array of promises keeps all of them. *)
Lemma filter_Boolean_all {Req A : Type} (ps : list (Async Req A)) :
  filter Boolean ps = ps.
Proof.
  induction ps as [|p ps IH]; [reflexivity|].
  cbn [filter]. change (Boolean p) with true. now rewrite IH.
Qed.

Lemma upper_ascii_idempotent (c : ascii) :
  upper_ascii (upper_ascii c) = upper_ascii c.
Proof.
  destruct c as [[] [] [] [] [] [] [] []]; reflexivity.
Qed.

Lemma toUpperCase_idempotent (s : string) :
  toUpperCase (toUpperCase s) = toUpperCase s.
Proof.
  induction s as [|c s IH]; simpl; [reflexivity|].
  now rewrite upper_ascii_idempotent, IH.
Qed.

Lemma strict_eq_refl (v : prim) : strict_eq v v = true.
Proof.
  destruct v; simpl; [reflexivity | apply String.eqb_refl | apply Z.eqb_refl].
Qed.

Lemma strict_eq_eq (a b : prim) : strict_eq a b = true -> a = b.
Proof.
  destruct a, b; simpl; try discriminate; intros H.
  - reflexivity.
  - apply String.eqb_eq in H. now subst.
  - apply Z.eqb_eq in H. now subst.
Qed.

(* ===================================================================== *)
(** * Bulk cancellation                                                  *)
(* ===================================================================== *)

Lemma requests_await {Req A B : Type} (m : Async Req A) (k : A -> Async Req B) :
  requests (await m k)
  = match settled m with
    | Normal a => (requests m ++ requests (k a))%list
    | Throw _ => requests m
    end.
Proof.
  destruct m as [t [a|e]]; simpl; [now destruct (k a) | reflexivity].
Qed.

Lemma settled_await {Req A B : Type} (m : Async Req A) (k : A -> Async Req B) :
  settled (await m k)
  = match settled m with
    | Normal a => settled (k a)
    | Throw e => Throw e
    end.
Proof.
  destruct m as [t [a|e]]; simpl; [now destruct (k a) | reflexivity].
Qed.

Module DhanFacts.
Import Dhan.

Lemma dhan_listOrders_requests (c : Client) : requests (listOrders c) = [GET_orders].
Proof.
  unfold listOrders, send. now destruct (orders_response (broker c)).
Qed.

Lemma dhan_listPositions_requests (c : Client) :
  requests (listPositions c) = [GET_positions].
Proof.
  unfold listPositions, send. now destruct (positions_response (broker c)).
Qed.

Lemma dhan_cancelOrder_requests (c : Client) (id : string) :
  requests (cancelOrder c id) = [DELETE_orders id].
Proof.
  unfold cancelOrder, send. now destruct (cancel_response (broker c) id).
Qed.

Lemma dhan_cancelOrder_settled (c : Client) (id : string) :
  settled (cancelOrder c id)
  = match cancel_response (broker c) id with
    | Normal _ => Normal (OrderResult.mk id "success" "Order cancelled successfully")
    | Throw e => Throw e
    end.
Proof.
  unfold cancelOrder, send. now destruct (cancel_response (broker c) id).
Qed.

Lemma dhan_cancel_fanout_requests (c : Client) (l : list Order.t) :
  List.concat (map requests (map (fun o => cancelOrder c (Order.orderId o)) l))
  = map (fun o => DELETE_orders (Order.orderId o)) l.
Proof.
  induction l as [|o l IH]; [reflexivity|].
  cbn [map List.concat]. now rewrite dhan_cancelOrder_requests, IH.
Qed.

Lemma dhan_cancel_fanout_fulfilled (c : Client) (l : list Order.t) :
  (forall o, In o l -> cancel_response (broker c) (Order.orderId o) = Normal tt) ->
  map settled (map (fun o => cancelOrder c (Order.orderId o)) l)
  = map Normal
      (map (fun o => OrderResult.mk (Order.orderId o) "success"
                                    "Order cancelled successfully") l).
Proof.
  induction l as [|o l IH]; intros H; [reflexivity|].
  cbn [map]. rewrite dhan_cancelOrder_settled, (H o (or_introl eq_refl)).
  f_equal. apply IH. intros o' Ho'. apply H. now right.
Qed.

Lemma dhan_cancelAllOrders_requests (c : Client) (orders : list Order.t) :
  settled (listOrders c) = Normal orders ->
  requests (cancelAllOrders c)
  = GET_orders :: map (fun o => DELETE_orders (Order.orderId o)) (filter isOpen orders).
Proof.
  intros H. unfold cancelAllOrders.
  rewrite requests_await, H, dhan_listOrders_requests, requests_await.
  rewrite Promise_all_requests, dhan_cancel_fanout_requests.
  destruct (settled (Promise_all _)); cbn [requests resolve fst app];
    now rewrite ?app_nil_r.
Qed.

Lemma dhan_cancelAllOrders_fulfilled (c : Client) (orders : list Order.t) :
  settled (listOrders c) = Normal orders ->
  (forall o, In o (filter isOpen orders) ->
             cancel_response (broker c) (Order.orderId o) = Normal tt) ->
  settled (cancelAllOrders c)
  = Normal (Report.mk true
              ("Cancelled " ++ string_of_nat (List.length (filter isOpen orders))
                            ++ " orders")
              (map (fun o => OrderResult.mk (Order.orderId o) "success"
                                            "Order cancelled successfully")
                   (filter isOpen orders))).
Proof.
  intros H Hok. unfold cancelAllOrders.
  rewrite settled_await, H, settled_await, Promise_all_settled.
  rewrite (dhan_cancel_fanout_fulfilled c _ Hok), all_values_map_Normal.
  cbn [settled resolve snd]. now rewrite length_map.
Qed.

Lemma dhan_cancelAllOrders_rejected (c : Client) (orders : list Order.t)
    (o : Order.t) (e : Error) :
  settled (listOrders c) = Normal orders ->
  In o (filter isOpen orders) ->
  cancel_response (broker c) (Order.orderId o) = Throw e ->
  exists o' e', In o' (filter isOpen orders)
                /\ cancel_response (broker c) (Order.orderId o') = Throw e'
                /\ settled (cancelAllOrders c) = Throw e'.
Proof.
  intros H Hin He. unfold cancelAllOrders.
  rewrite settled_await, H, settled_await, Promise_all_settled.
  destruct (all_values_Throw
              (map settled (map (fun o => cancelOrder c (Order.orderId o))
                                (filter isOpen orders))) e) as [e' He'].
  - rewrite map_map. apply in_map_iff. exists o. split; [|exact Hin].
    now rewrite dhan_cancelOrder_settled, He.
  - rewrite He'. apply all_values_rejected in He'.
    rewrite map_map in He'. apply in_map_iff in He'.
    destruct He' as [o' [Ho' Hin']]. exists o', e'.
    rewrite dhan_cancelOrder_settled in Ho'.
    destruct (cancel_response (broker c) (Order.orderId o')) as [u|e''];
      [discriminate|].
    repeat split; [exact Hin' | congruence].
Qed.

End DhanFacts.

Module ZerodhaFacts.
Import Zerodha.

Lemma zerodha_listOrders_requests (c : Client) : requests (listOrders c) = [getOrders].
Proof. reflexivity. Qed.

Lemma zerodha_listPositions_requests (c : Client) :
  requests (listPositions c) = [getPositions].
Proof. reflexivity. Qed.

Lemma zerodha_cancelOrder_requests (c : Client) (id : string) :
  requests (cancelOrder c id) = [kite_cancelOrder "regular" id].
Proof.
  unfold cancelOrder, send. now destruct (cancel_response (broker c) "regular" id).
Qed.

Lemma zerodha_cancelOrder_settled (c : Client) (id : string) :
  settled (cancelOrder c id)
  = match cancel_response (broker c) "regular" id with
    | Normal order_id =>
        Normal (OrderResult.mk order_id "success" "Order cancelled successfully")
    | Throw e => Throw e
    end.
Proof.
  unfold cancelOrder, send. now destruct (cancel_response (broker c) "regular" id).
Qed.

Lemma zerodha_cancel_fanout_requests (c : Client) (l : list Order.t) :
  List.concat (map requests (map (fun o => cancelOrder c (Order.order_id o)) l))
  = map (fun o => kite_cancelOrder "regular" (Order.order_id o)) l.
Proof.
  induction l as [|o l IH]; [reflexivity|].
  cbn [map List.concat]. now rewrite zerodha_cancelOrder_requests, IH.
Qed.

Lemma zerodha_cancel_fanout_fulfilled (c : Client) (answer : string -> string)
    (l : list Order.t) :
  (forall o, In o l -> cancel_response (broker c) "regular" (Order.order_id o)
                       = Normal (answer (Order.order_id o))) ->
  map settled (map (fun o => cancelOrder c (Order.order_id o)) l)
  = map Normal
      (map (fun o => OrderResult.mk (answer (Order.order_id o)) "success"
                                    "Order cancelled successfully") l).
Proof.
  induction l as [|o l IH]; intros H; [reflexivity|].
  cbn [map]. rewrite zerodha_cancelOrder_settled, (H o (or_introl eq_refl)).
  f_equal. apply IH. intros o' Ho'. apply H. now right.
Qed.

Lemma zerodha_cancelAllOrders_requests (c : Client) (orders : list Order.t) :
  settled (listOrders c) = Normal orders ->
  requests (cancelAllOrders c)
  = getOrders :: map (fun o => kite_cancelOrder "regular" (Order.order_id o))
                     (filter isOpen orders).
Proof.
  intros H. unfold cancelAllOrders.
  rewrite requests_await, H, zerodha_listOrders_requests, requests_await.
  rewrite Promise_all_requests, zerodha_cancel_fanout_requests.
  destruct (settled (Promise_all _)); cbn [requests resolve fst app];
    now rewrite ?app_nil_r.
Qed.

Lemma zerodha_cancelAllOrders_fulfilled (c : Client) (answer : string -> string)
    (orders : list Order.t) :
  settled (listOrders c) = Normal orders ->
  (forall o, In o (filter isOpen orders) ->
             cancel_response (broker c) "regular" (Order.order_id o)
             = Normal (answer (Order.order_id o))) ->
  settled (cancelAllOrders c)
  = Normal (Report.mk true
              ("Cancelled " ++ string_of_nat (List.length (filter isOpen orders))
                            ++ " orders")
              (map (fun o => OrderResult.mk (answer (Order.order_id o)) "success"
                                            "Order cancelled successfully")
                   (filter isOpen orders))).
Proof.
  intros H Hok. unfold cancelAllOrders.
  rewrite settled_await, H, settled_await, Promise_all_settled.
  rewrite (zerodha_cancel_fanout_fulfilled c answer _ Hok), all_values_map_Normal.
  cbn [settled resolve snd]. now rewrite length_map.
Qed.

Lemma zerodha_cancelAllOrders_rejected (c : Client) (orders : list Order.t)
    (o : Order.t) (e : Error) :
  settled (listOrders c) = Normal orders ->
  In o (filter isOpen orders) ->
  cancel_response (broker c) "regular" (Order.order_id o) = Throw e ->
  exists o' e', In o' (filter isOpen orders)
                /\ cancel_response (broker c) "regular" (Order.order_id o') = Throw e'
                /\ settled (cancelAllOrders c) = Throw e'.
Proof.
  intros H Hin He. unfold cancelAllOrders.
  rewrite settled_await, H, settled_await, Promise_all_settled.
  destruct (all_values_Throw
              (map settled (map (fun o => cancelOrder c (Order.order_id o))
                                (filter isOpen orders))) e) as [e' He'].
  - rewrite map_map. apply in_map_iff. exists o. split; [|exact Hin].
    now rewrite zerodha_cancelOrder_settled, He.
  - rewrite He'. apply all_values_rejected in He'.
    rewrite map_map in He'. apply in_map_iff in He'.
    destruct He' as [o' [Ho' Hin']]. exists o', e'.
    rewrite zerodha_cancelOrder_settled in Ho'.
    destruct (cancel_response (broker c) "regular" (Order.order_id o')) as [u|e''];
      [discriminate|].
    repeat split; [exact Hin' | congruence].
Qed.

End ZerodhaFacts.

(** C1, as stated, fails: with three open orders of which one cannot be
    cancelled, all three cancel requests go out, but [cancelAllOrders]
    is rejected with that order's error and returns no aggregate at
    all, so no per-order result reaches the caller. *)
Lemma cancelAllOrders_one_failure_loses_report :
  let run := Dhan.cancelAllOrders (dhan_client "1002" (num_of_Z 100)) in
  requests run
  = [ Dhan.GET_orders; Dhan.DELETE_orders "1001"; Dhan.DELETE_orders "1002";
      Dhan.DELETE_orders "1004" ]
  /\ settled run = Throw "Request failed with status code 400"
  /\ ~ (exists report, settled run = Normal report
                       /\ List.length (Report.details report) = 3%nat).
Proof.
  cbv zeta. split; [reflexivity|]. split; [reflexivity|].
  intros [report [H _]]. vm_compute in H. discriminate.
Qed.

(** C1, amended: [cancelAllOrders] sends one cancel request for each
    order whose status is open, pending or trigger pending (in any
    letter case), whatever happens to the other cancellations.  When
    every cancellation succeeds, the aggregate holds exactly one success
    result per such order, in order, and its message counts them.  When
    any cancellation fails, the call as a whole is rejected with the
    error of a failed cancellation and no aggregate is returned.  This
    holds for the Dhan and the Zerodha client. *)
Theorem cancelAllOrders_all_or_nothing :
  (forall (c : Dhan.Client) (orders : list Dhan.Order.t),
      settled (Dhan.listOrders c) = Normal orders ->
      let live := filter Dhan.isOpen orders in
      requests (Dhan.cancelAllOrders c)
      = Dhan.GET_orders
          :: map (fun o => Dhan.DELETE_orders (Dhan.Order.orderId o)) live
      /\ ((forall o, In o live ->
             Dhan.cancel_response (Dhan.broker c) (Dhan.Order.orderId o) = Normal tt) ->
          settled (Dhan.cancelAllOrders c)
          = Normal (Report.mk true
                      ("Cancelled " ++ string_of_nat (List.length live) ++ " orders")
                      (map (fun o => OrderResult.mk (Dhan.Order.orderId o) "success"
                                       "Order cancelled successfully") live)))
      /\ (forall o e, In o live ->
             Dhan.cancel_response (Dhan.broker c) (Dhan.Order.orderId o) = Throw e ->
             exists o' e',
               In o' live
               /\ Dhan.cancel_response (Dhan.broker c) (Dhan.Order.orderId o') = Throw e'
               /\ settled (Dhan.cancelAllOrders c) = Throw e'))
  /\
  (forall (c : Zerodha.Client) (orders : list Zerodha.Order.t),
      settled (Zerodha.listOrders c) = Normal orders ->
      let live := filter Zerodha.isOpen orders in
      requests (Zerodha.cancelAllOrders c)
      = Zerodha.getOrders
          :: map (fun o => Zerodha.kite_cancelOrder "regular" (Zerodha.Order.order_id o))
                 live
      /\ (forall answer : string -> string,
          (forall o, In o live ->
             Zerodha.cancel_response (Zerodha.broker c) "regular"
                                     (Zerodha.Order.order_id o)
             = Normal (answer (Zerodha.Order.order_id o))) ->
          settled (Zerodha.cancelAllOrders c)
          = Normal (Report.mk true
                      ("Cancelled " ++ string_of_nat (List.length live) ++ " orders")
                      (map (fun o => OrderResult.mk
                                       (answer (Zerodha.Order.order_id o)) "success"
                                       "Order cancelled successfully") live)))
      /\ (forall o e, In o live ->
             Zerodha.cancel_response (Zerodha.broker c) "regular"
                                     (Zerodha.Order.order_id o) = Throw e ->
             exists o' e',
               In o' live
               /\ Zerodha.cancel_response (Zerodha.broker c) "regular"
                                          (Zerodha.Order.order_id o') = Throw e'
               /\ settled (Zerodha.cancelAllOrders c) = Throw e')).
Proof.
  split; intros c orders H live; subst live.
  - split; [now apply DhanFacts.dhan_cancelAllOrders_requests|]. split.
    + now apply DhanFacts.dhan_cancelAllOrders_fulfilled.
    + intros o e. now apply DhanFacts.dhan_cancelAllOrders_rejected.
  - split; [now apply ZerodhaFacts.zerodha_cancelAllOrders_requests|]. split.
    + intros answer. now apply ZerodhaFacts.zerodha_cancelAllOrders_fulfilled.
    + intros o e. now apply ZerodhaFacts.zerodha_cancelAllOrders_rejected.
Qed.

(* ===================================================================== *)
(** * Exit orders                                                        *)
(* ===================================================================== *)

Module DhanExit.
Import Dhan.

(** With a security id at hand [placeOrder] posts at once, without a
    catalog lookup. *)
Lemma dhan_placeOrder_direct (c : Client) (params : Params.t) :
  Boolean (Params.securityId params) = true ->
  let body := orderRequest params (Params.securityId params) (Params.exchange params) in
  requests (placeOrder c params) = [POST_orders body]
  /\ settled (placeOrder c params)
     = match place_response (broker c) body with
       | Normal orderId =>
           Normal (OrderResult.mk orderId "success" "Order placed successfully")
       | Throw e => Throw e
       end.
Proof.
  intros H body. unfold placeOrder, resolveInstrument. rewrite H.
  cbn [negb lift await fst snd app send]. fold body.
  now destruct (place_response (broker c) body).
Qed.

Lemma dhan_limitCallback_flat (c : Client) (off : option number) (p : Position.t) :
  Position.quantity p = 0 -> limitCallback c off p = resolve None.
Proof. intros H. unfold limitCallback. now rewrite H. Qed.

Lemma dhan_stopLossCallback_flat (c : Client) (sl : option number) (p : Position.t) :
  Position.quantity p = 0 -> stopLossCallback c sl p = resolve None.
Proof. intros H. unfold stopLossCallback. now rewrite H. Qed.

Lemma dhan_limitCallback_requests (c : Client) (off : option number)
    (p : Position.t) (ltp : number) :
  Position.quantity p <> 0 ->
  Boolean (Position.securityId p) = true ->
  quote_response (broker c) (Position.exchange p) (Position.securityId p) = Normal ltp ->
  requests (limitCallback c off p)
  = [ GET_quotes (Position.exchange p) (Position.securityId p);
      POST_orders (orderRequest (limitExit off p ltp) (Position.securityId p)
                                (Some (Position.exchange p))) ].
Proof.
  intros Hq Hid Hltp. unfold limitCallback.
  apply Z.eqb_neq in Hq. rewrite Hq.
  rewrite requests_await. unfold _getLTP at 1 2 3, send. cbn [settled snd requests fst].
  rewrite Hltp. rewrite requests_await.
  destruct (dhan_placeOrder_direct c (limitExit off p ltp) Hid) as [Hr Hs].
  rewrite Hr. cbn [app]. now destruct (settled (placeOrder c _)).
Qed.

Lemma dhan_exitAllPositionsLimit_issues (c : Client) (off : option number)
    (positions : list Position.t) (p : Position.t) (r : Request) :
  settled (listPositions c) = Normal positions ->
  In p positions ->
  In r (requests (limitCallback c off p)) ->
  In r (requests (exitAllPositionsLimit c off)).
Proof.
  intros H Hin Hr. unfold exitAllPositionsLimit.
  rewrite requests_await, H. apply in_or_app. right.
  rewrite requests_await, filter_Boolean_all.
  assert (In r (requests (Promise_all (map (limitCallback c off) positions)))) as Hall.
  { apply (Promise_all_issues _ (limitCallback c off p)); [now apply in_map | exact Hr]. }
  destruct (settled (Promise_all _)); [apply in_or_app; now left | exact Hall].
Qed.

End DhanExit.

Module ZerodhaExit.
Import Zerodha.

Lemma zerodha_placeOrder_direct (c : Client) (params : Params.t) :
  Boolean (Params.exchange params) = true ->
  Boolean (Params.symbolName params) = true ->
  let body := orderRequest params (Params.exchange params) (Params.symbolName params) in
  requests (placeOrder c params) = [kite_placeOrder (OrderRequest.variety body) body]
  /\ settled (placeOrder c params)
     = match place_response (broker c) (OrderRequest.variety body) body with
       | Normal order_id =>
           Normal (OrderResult.mk order_id "success" "Order placed successfully")
       | Throw e => Throw e
       end.
Proof.
  intros He Hs body. unfold placeOrder, resolveInstrument. rewrite He, Hs.
  cbn [negb orb lift await fst snd app send]. fold body.
  now destruct (place_response (broker c) (OrderRequest.variety body) body).
Qed.

Lemma zerodha_limitCallback_requests (c : Client) (off : option number)
    (p : Position.t) (ltp : number) :
  Position.quantity p <> 0 ->
  Boolean (Position.exchange p) = true ->
  Boolean (Position.tradingsymbol p) = true ->
  ltp_response (broker c)
    (Position.exchange p ++ ":" ++ to_string (Position.tradingsymbol p)) = Normal ltp ->
  requests (limitCallback c off p)
  = [ getLTP (Position.exchange p ++ ":" ++ to_string (Position.tradingsymbol p));
      kite_placeOrder "regular"
        (orderRequest (limitExit off p ltp) (Some (Position.exchange p))
                      (Position.tradingsymbol p)) ].
Proof.
  intros Hq Hex Hsym Hltp. unfold limitCallback.
  apply Z.eqb_neq in Hq. rewrite Hq.
  rewrite requests_await. unfold _getLTP at 1 2 3, send. cbn [settled snd requests fst].
  rewrite Hltp. rewrite requests_await.
  destruct (zerodha_placeOrder_direct c (limitExit off p ltp) Hex Hsym) as [Hr Hs].
  rewrite Hr. cbn [app]. now destruct (settled (placeOrder c _)).
Qed.

Lemma zerodha_exitAllPositionsLimit_issues (c : Client) (off : option number)
    (positions : list Position.t) (p : Position.t) (r : Request) :
  settled (listPositions c) = Normal positions ->
  In p positions ->
  In r (requests (limitCallback c off p)) ->
  In r (requests (exitAllPositionsLimit c off)).
Proof.
  intros H Hin Hr. unfold exitAllPositionsLimit.
  rewrite requests_await, H. apply in_or_app. right.
  rewrite requests_await, filter_Boolean_all.
  assert (In r (requests (Promise_all (map (limitCallback c off) positions)))) as Hall.
  { apply (Promise_all_issues _ (limitCallback c off p)); [now apply in_map | exact Hr]. }
  destruct (settled (Promise_all _)); [apply in_or_app; now left | exact Hall].
Qed.

End ZerodhaExit.

(** C2, as stated, fails on the Zerodha client: with a last traded price
    of 100 and an offset of 0.5, the sell order that exits a long
    position of 10 is priced at 99.50 = round (100 * (1 - 0.5/100)), not
    at 100.50. *)
Lemma zerodha_sell_limit_is_below_ltp :
  let run := Zerodha.exitAllPositionsLimit (zerodha_client (num_of_Z 100))
                                           (Some (decimal 5 10)) in
  (exists body,
      requests run
      = [ Zerodha.getPositions; Zerodha.getLTP "NSE:INFY";
          Zerodha.kite_placeOrder "regular" body ]
      /\ Zerodha.OrderRequest.transaction_type body = "SELL"
      /\ Zerodha.OrderRequest.order_type body = VStr "LIMIT"
      /\ Zerodha.OrderRequest.price body = Some (decimal 995 10))
  /\ decimal 995 10 <> decimal 1005 10
  /\ Zerodha.limitPrice "SELL" (num_of_Z 100) (decimal 5 10)
     <> Zerodha.round2
          (num_mul (num_of_Z 100)
                   (num_add (num_of_Z 1) (num_div (decimal 5 10) (num_of_Z 100)))).
Proof.
  cbv zeta. split; [|split].
  - eexists. split; [vm_compute; reflexivity|]. repeat split; reflexivity.
  - vm_compute. discriminate.
  - vm_compute. discriminate.
Qed.

(** C2, amended: for a position with quantity > 0 the limit variant
    places a SELL LIMIT order for that quantity whose price is the last
    traded price times (1 + priceOffset/100) on the Dhan client and
    times (1 - priceOffset/100) on the Zerodha client, each passed
    through [Math.round(x * 100) / 100]; a missing offset counts as 0,
    and a price that comes out as 0 or NaN is left off the request.
    With a last traded price of 100 and an offset of 0.5 the price is
    100.50 on Dhan and 99.50 on Zerodha. *)
Theorem exitAllPositionsLimit_sell_price :
  (forall (c : Dhan.Client) (priceOffset : option number)
          (positions : list Dhan.Position.t) (p : Dhan.Position.t) (ltp : number),
      settled (Dhan.listPositions c) = Normal positions ->
      In p positions ->
      0 < Dhan.Position.quantity p ->
      Boolean (Dhan.Position.securityId p) = true ->
      Dhan.quote_response (Dhan.broker c) (Dhan.Position.exchange p)
                          (Dhan.Position.securityId p) = Normal ltp ->
      let price :=
        Dhan.round2
          (num_mul ltp
             (num_add (num_of_Z 1)
                (num_div (or_else priceOffset (num_of_Z 0)) (num_of_Z 100)))) in
      exists body,
        In (Dhan.POST_orders body) (requests (Dhan.exitAllPositionsLimit c priceOffset))
        /\ Dhan.OrderRequest.securityId body = Dhan.Position.securityId p
        /\ Dhan.OrderRequest.transactionType body = "SELL"
        /\ Dhan.OrderRequest.orderType body = VStr "LIMIT"
        /\ Dhan.OrderRequest.quantity body = Dhan.Position.quantity p
        /\ Dhan.OrderRequest.price body = (if Boolean price then Some price else None))
  /\
  (forall (c : Zerodha.Client) (priceOffset : option number)
          (positions : list Zerodha.Position.t) (p : Zerodha.Position.t) (ltp : number),
      settled (Zerodha.listPositions c) = Normal positions ->
      In p positions ->
      0 < Zerodha.Position.quantity p ->
      Boolean (Zerodha.Position.exchange p) = true ->
      Boolean (Zerodha.Position.tradingsymbol p) = true ->
      Zerodha.ltp_response (Zerodha.broker c)
        (Zerodha.Position.exchange p ++ ":"
           ++ to_string (Zerodha.Position.tradingsymbol p)) = Normal ltp ->
      let price :=
        Zerodha.round2
          (num_mul ltp
             (num_sub (num_of_Z 1)
                (num_div (or_else priceOffset (num_of_Z 0)) (num_of_Z 100)))) in
      exists body,
        In (Zerodha.kite_placeOrder "regular" body)
           (requests (Zerodha.exitAllPositionsLimit c priceOffset))
        /\ Zerodha.OrderRequest.tradingsymbol body = Zerodha.Position.tradingsymbol p
        /\ Zerodha.OrderRequest.transaction_type body = "SELL"
        /\ Zerodha.OrderRequest.order_type body = VStr "LIMIT"
        /\ Zerodha.OrderRequest.quantity body = Zerodha.Position.quantity p
        /\ Zerodha.OrderRequest.price body = (if Boolean price then Some price else None))
  /\ Dhan.limitPrice "SELL" (num_of_Z 100) (decimal 5 10) = decimal 10050 100
  /\ Zerodha.limitPrice "SELL" (num_of_Z 100) (decimal 5 10) = decimal 9950 100.
Proof.
  split; [|split; [|split; vm_compute; reflexivity]].
  - intros c off positions p ltp H Hin Hq Hid Hltp price.
    eexists. split.
    + apply (DhanExit.dhan_exitAllPositionsLimit_issues c off positions p _ H Hin).
      rewrite (DhanExit.dhan_limitCallback_requests c off p ltp); [|lia|exact Hid|exact Hltp].
      right. left. reflexivity.
    + assert (Dhan.oppositeTransactionType (Dhan.Position.quantity p) = "SELL") as Hsell.
      { unfold Dhan.oppositeTransactionType.
        now destruct (Z.gtb_spec (Dhan.Position.quantity p) 0); [|lia]. }
      unfold Dhan.orderRequest, Dhan.limitExit. cbn [Dhan.OrderRequest.securityId
        Dhan.OrderRequest.transactionType Dhan.OrderRequest.orderType
        Dhan.OrderRequest.quantity Dhan.OrderRequest.price
        Dhan.Params.transactionType Dhan.Params.orderType Dhan.Params.quantity
        Dhan.Params.price].
      rewrite Hsell. repeat split. apply Z.abs_eq. lia.
  - intros c off positions p ltp H Hin Hq Hex Hsym Hltp price.
    eexists. split.
    + apply (ZerodhaExit.zerodha_exitAllPositionsLimit_issues c off positions p _ H Hin).
      rewrite (ZerodhaExit.zerodha_limitCallback_requests c off p ltp);
        [|lia|exact Hex|exact Hsym|exact Hltp].
      right. left. reflexivity.
    + assert (Zerodha.oppositeTransactionType (Zerodha.Position.quantity p) = "SELL")
        as Hsell.
      { unfold Zerodha.oppositeTransactionType.
        now destruct (Z.gtb_spec (Zerodha.Position.quantity p) 0); [|lia]. }
      unfold Zerodha.orderRequest, Zerodha.limitExit. cbn [Zerodha.OrderRequest.tradingsymbol
        Zerodha.OrderRequest.transaction_type Zerodha.OrderRequest.order_type
        Zerodha.OrderRequest.quantity Zerodha.OrderRequest.price
        Zerodha.Params.transactionType Zerodha.Params.orderType Zerodha.Params.quantity
        Zerodha.Params.price].
      rewrite Hsell. repeat split. apply Z.abs_eq. lia.
Qed.

(* ===================================================================== *)
(** * Flat positions in the limit and stop-loss variants                 *)
(* ===================================================================== *)

Lemma nth_error_map_Normal {A : Type} (vs : list A) (i : nat) (v : A) :
  nth_error (map (@Normal A) vs) i = Some (Normal v) -> nth_error vs i = Some v.
Proof.
  rewrite nth_error_map. destruct (nth_error vs i); simpl; congruence.
Qed.

Section AsyncFanout.
Context {Req X R : Type}.
Variable callback : X -> Async Req (option R).
Variable flat : X -> bool.
Hypothesis callback_flat : forall x, flat x = true -> callback x = resolve None.

(** What [Promise.all] yields when the array holds one promise per
    element, the flat ones fulfilled with [null]. *)
Lemma fanout_keeps_flat (xs : list X) (results : list (option R)) :
  settled (Promise_all (filter Boolean (map callback xs))) = Normal results ->
  List.length results = List.length xs
  /\ forall i x, nth_error xs i = Some x -> flat x = true ->
                 nth_error results i = Some None.
Proof.
  rewrite filter_Boolean_all, Promise_all_settled. intros H.
  apply all_values_Normal in H. split.
  - apply (f_equal (@List.length _)) in H. now rewrite !length_map in H.
  - intros i x Hx Hflat. apply nth_error_map_Normal. rewrite <- H.
    rewrite map_map, nth_error_map, Hx. cbn [option_map].
    now rewrite (callback_flat x Hflat).
Qed.

End AsyncFanout.

(** The stop-loss variant of the Dhan client hands [placeOrder] the
    order type [SLM], which is not a key of [orderTypeMap]: the request
    goes out as a MARKET order and the trigger price is left off. *)
Lemma dhan_stop_loss_exit_is_sent_as_market (slPercentage : option number)
    (p : Dhan.Position.t) (ltp : number) (id : prim) (ex : option string) :
  let body := Dhan.orderRequest (Dhan.stopLossExit slPercentage p ltp) id ex in
  Dhan.OrderRequest.orderType body = VStr "MARKET"
  /\ Dhan.OrderRequest.triggerPrice body = None
  /\ Dhan.OrderRequest.price body = None.
Proof. repeat split. Qed.

(** C3 fails on the code: the limit and the stop-loss variant of the
    Dhan client place no order for a flat position, but their callback
    is [async], so [.filter(Boolean)] sees promises and removes nothing:
    whenever a report is returned, its details hold one entry for every
    position, the entry of each zero-quantity position is [null], and
    the count in the message is the number of all positions. *)
Theorem exit_variants_report_flat_positions
    (c : Dhan.Client) (positions : list Dhan.Position.t) :
  settled (Dhan.listPositions c) = Normal positions ->
  (forall priceOffset report,
      settled (Dhan.exitAllPositionsLimit c priceOffset) = Normal report ->
      List.length (Report.details report) = List.length positions
      /\ Report.message report
         = "Exited " ++ string_of_nat (List.length positions)
                     ++ " positions with limit orders"
      /\ forall i p, nth_error positions i = Some p ->
                     Dhan.Position.quantity p = 0 ->
                     nth_error (Report.details report) i = Some None)
  /\
  (forall slPercentage report,
      settled (Dhan.exitAllPositionsAddStopLoss c slPercentage) = Normal report ->
      List.length (Report.details report) = List.length positions
      /\ Report.message report
         = "Added stop loss orders for " ++ string_of_nat (List.length positions)
                                         ++ " positions"
      /\ forall i p, nth_error positions i = Some p ->
                     Dhan.Position.quantity p = 0 ->
                     nth_error (Report.details report) i = Some None)
  /\
  (forall x p, In p positions -> Dhan.Position.quantity p = 0 ->
               requests (Dhan.limitCallback c x p) = []
               /\ requests (Dhan.stopLossCallback c x p) = []).
Proof.
  intros H. split; [|split].
  - intros off report Hr. unfold Dhan.exitAllPositionsLimit in Hr.
    rewrite settled_await, H, settled_await in Hr.
    destruct (settled (Promise_all _)) as [results|e] eqn:Hall; [|discriminate].
    cbn [settled resolve snd] in Hr. injection Hr as <-.
    cbn [Report.details Report.message].
    destruct (fanout_keeps_flat (Dhan.limitCallback c off)
                (fun p => Dhan.Position.quantity p =? 0)
                (fun p Hp => DhanExit.dhan_limitCallback_flat c off p (proj1 (Z.eqb_eq _ _) Hp))
                positions results Hall) as [Hlen Hflat].
    rewrite Hlen. repeat split.
    intros i p Hp Hq. apply (Hflat i p Hp). now apply Z.eqb_eq.
  - intros sl report Hr. unfold Dhan.exitAllPositionsAddStopLoss in Hr.
    rewrite settled_await, H, settled_await in Hr.
    destruct (settled (Promise_all _)) as [results|e] eqn:Hall; [|discriminate].
    cbn [settled resolve snd] in Hr. injection Hr as <-.
    cbn [Report.details Report.message].
    destruct (fanout_keeps_flat (Dhan.stopLossCallback c sl)
                (fun p => Dhan.Position.quantity p =? 0)
                (fun p Hp => DhanExit.dhan_stopLossCallback_flat c sl p (proj1 (Z.eqb_eq _ _) Hp))
                positions results Hall) as [Hlen Hflat].
    rewrite Hlen. repeat split.
    intros i p Hp Hq. apply (Hflat i p Hp). now apply Z.eqb_eq.
  - intros x p _ Hq.
    now rewrite DhanExit.dhan_limitCallback_flat, DhanExit.dhan_stopLossCallback_flat.
Qed.

(** C3 at one flat and one long position of 10: one order goes out, and
    both variants report two positions, the first detail being [null]. *)
Lemma exit_variants_report_flat_positions_run :
  let c := dhan_client "" (num_of_Z 100) in
  settled (Dhan.listPositions c) = Normal dhan_positions
  /\ settled (Dhan.exitAllPositionsLimit c None)
     = Normal (Report.mk true "Exited 2 positions with limit orders"
                 [ None;
                   Some (OrderResult.mk "7001" "success" "Order placed successfully") ])
  /\ settled (Dhan.exitAllPositionsAddStopLoss c None)
     = Normal (Report.mk true "Added stop loss orders for 2 positions"
                 [ None;
                   Some (OrderResult.mk "7001" "success" "Order placed successfully") ])
  /\ List.length (filter (fun p => negb (Dhan.Position.quantity p =? 0)) dhan_positions)
     = 1%nat
  /\ nth_error
       (Report.details
          (Report.mk true "Exited 2 positions with limit orders"
             [ None;
               Some (OrderResult.mk "7001" "success" "Order placed successfully") ]))
       0 = Some None.
Proof.
  cbv zeta.
  assert (settled (Dhan.listPositions (dhan_client "" (num_of_Z 100)))
          = Normal dhan_positions) as H by reflexivity.
  split; [exact H|]. split; [reflexivity|]. split; [reflexivity|].
  split; [reflexivity|].
  refine (proj2 (proj2 (proj1 (exit_variants_report_flat_positions _ _ H) None _ _))
            0%nat (Dhan.Position.mk (PStr "1333") "NSE" 0 (Some "INTRADAY")) _ _);
    reflexivity.
Defined.

(* ===================================================================== *)
(** * Market exits                                                       *)
(* ===================================================================== *)

Lemma dhan_exit_calls (c : Dhan.Client) :
  Dhan.exitAllPositions c
  = (positions <- Dhan.listPositions c ;;
     results <- Promise_all
                  (map (fun p => Dhan.placeOrder c (Dhan.marketExit p))
                       (filter (fun p => negb (Dhan.Position.quantity p =? 0))
                               positions)) ;;
     resolve (Report.mk true
                ("Exited " ++ string_of_nat (List.length results) ++ " positions")
                results)).
Proof.
  unfold Dhan.exitAllPositions. apply await_ext. intros positions.
  unfold Dhan.marketCallback.
  now rewrite (filter_Boolean_promises
                 (fun p => Dhan.Position.quantity p =? 0)
                 (fun p => Dhan.placeOrder c (Dhan.marketExit p))).
Qed.

Lemma zerodha_exit_calls (c : Zerodha.Client) :
  Zerodha.exitAllPositions c
  = (positions <- Zerodha.listPositions c ;;
     results <- Promise_all
                  (map (fun p => Zerodha.placeOrder c (Zerodha.marketExit p))
                       (filter (fun p => negb (Zerodha.Position.quantity p =? 0))
                               positions)) ;;
     resolve (Report.mk true
                ("Exited " ++ string_of_nat (List.length results) ++ " positions")
                results)).
Proof.
  unfold Zerodha.exitAllPositions. apply await_ext. intros positions.
  unfold Zerodha.marketCallback.
  now rewrite (filter_Boolean_promises
                 (fun p => Zerodha.Position.quantity p =? 0)
                 (fun p => Zerodha.placeOrder c (Zerodha.marketExit p))).
Qed.

Lemma dhan_exit_requests (c : Dhan.Client) (positions : list Dhan.Position.t) :
  settled (Dhan.listPositions c) = Normal positions ->
  (forall p, In p positions -> Dhan.Position.quantity p <> 0 ->
             Boolean (Dhan.Position.securityId p) = true) ->
  requests (Dhan.exitAllPositions c)
  = Dhan.GET_positions
      :: map (fun p => Dhan.POST_orders
                         (Dhan.orderRequest (Dhan.marketExit p)
                            (Dhan.Position.securityId p)
                            (Some (Dhan.Position.exchange p))))
             (filter (fun p => negb (Dhan.Position.quantity p =? 0)) positions).
Proof.
  intros H Hid. rewrite dhan_exit_calls.
  rewrite requests_await, H, DhanFacts.dhan_listPositions_requests, requests_await.
  rewrite Promise_all_requests.
  assert (List.concat
            (map requests
               (map (fun p => Dhan.placeOrder c (Dhan.marketExit p))
                    (filter (fun p => negb (Dhan.Position.quantity p =? 0)) positions)))
          = map (fun p => Dhan.POST_orders
                            (Dhan.orderRequest (Dhan.marketExit p)
                               (Dhan.Position.securityId p)
                               (Some (Dhan.Position.exchange p))))
                (filter (fun p => negb (Dhan.Position.quantity p =? 0)) positions)) as ->.
  { clear H. induction positions as [|p l IH]; [reflexivity|].
    cbn [filter]. destruct (Dhan.Position.quantity p =? 0) eqn:Hq; cbn [negb].
    - apply IH. intros q Hin. apply Hid. now right.
    - cbn [map List.concat].
      apply Z.eqb_neq in Hq.
      destruct (DhanExit.dhan_placeOrder_direct c (Dhan.marketExit p)
                  (Hid p (or_introl eq_refl) Hq)) as [-> _].
      cbn [app]. f_equal. apply IH. intros q Hin. apply Hid. now right. }
  destruct (settled (Promise_all _)); cbn [requests resolve fst app];
    now rewrite ?app_nil_r.
Qed.

Lemma zerodha_exit_requests (c : Zerodha.Client) (positions : list Zerodha.Position.t) :
  settled (Zerodha.listPositions c) = Normal positions ->
  (forall p, In p positions -> Zerodha.Position.quantity p <> 0 ->
             Boolean (Zerodha.Position.exchange p) = true
             /\ Boolean (Zerodha.Position.tradingsymbol p) = true) ->
  requests (Zerodha.exitAllPositions c)
  = Zerodha.getPositions
      :: map (fun p => Zerodha.kite_placeOrder "regular"
                         (Zerodha.orderRequest (Zerodha.marketExit p)
                            (Some (Zerodha.Position.exchange p))
                            (Zerodha.Position.tradingsymbol p)))
             (filter (fun p => negb (Zerodha.Position.quantity p =? 0)) positions).
Proof.
  intros H Hid. rewrite zerodha_exit_calls.
  rewrite requests_await, H, ZerodhaFacts.zerodha_listPositions_requests, requests_await.
  rewrite Promise_all_requests.
  assert (List.concat
            (map requests
               (map (fun p => Zerodha.placeOrder c (Zerodha.marketExit p))
                    (filter (fun p => negb (Zerodha.Position.quantity p =? 0)) positions)))
          = map (fun p => Zerodha.kite_placeOrder "regular"
                            (Zerodha.orderRequest (Zerodha.marketExit p)
                               (Some (Zerodha.Position.exchange p))
                               (Zerodha.Position.tradingsymbol p)))
                (filter (fun p => negb (Zerodha.Position.quantity p =? 0)) positions)) as ->.
  { clear H. induction positions as [|p l IH]; [reflexivity|].
    cbn [filter]. destruct (Zerodha.Position.quantity p =? 0) eqn:Hq; cbn [negb].
    - apply IH. intros q Hin. apply Hid. now right.
    - cbn [map List.concat].
      apply Z.eqb_neq in Hq.
      destruct (Hid p (or_introl eq_refl) Hq) as [Hex Hsym].
      destruct (ZerodhaExit.zerodha_placeOrder_direct c (Zerodha.marketExit p) Hex Hsym)
        as [-> _].
      cbn [app]. f_equal. apply IH. intros q Hin. apply Hid. now right. }
  destruct (settled (Promise_all _)); cbn [requests resolve fst app];
    now rewrite ?app_nil_r.
Qed.

(** The product a request carries for a position's product: the
    position's own product exactly when that is already a product name
    of the broker, and a translation or the default otherwise. *)
Ltac by_product_row s :=
  repeat match goal with
         | |- context [String.eqb ?k s] =>
             destruct (String.eqb_spec k s) as [<-|?];
             [ split; intros H; first
                 [ reflexivity | discriminate | (cbn; tauto)
                 | (cbn in H; decompose [or] H; try discriminate; contradiction) ] | ]
         end.

Lemma dhan_product_unchanged (s : string) :
  Dhan._mapProduct (or_else (Some s) "INTRADAY") = VStr s
  <-> In s ["INTRADAY"; "DELIVERY"; "MARGIN"; "NORMAL"].
Proof.
  unfold or_else, Boolean, Truthy_string.
  destruct (String.eqb_spec s "") as [->|Hne]; cbn [negb].
  { split; [discriminate|]. cbn. intros H. decompose [or] H; try discriminate.
    contradiction. }
  unfold Dhan._mapProduct, get_property, Dhan.productMap. cbn [own_property].
  by_product_row s.
  destruct (includes Object_prototype s); split; intros H; try discriminate;
    cbn in H; decompose [or] H; first [contradiction | congruence].
Qed.

Lemma zerodha_product_unchanged (s : string) :
  Zerodha._mapProduct (or_else (Some s) "INTRADAY") = VStr s
  <-> In s ["MIS"; "CNC"; "NRML"].
Proof.
  unfold or_else, Boolean, Truthy_string.
  destruct (String.eqb_spec s "") as [->|Hne]; cbn [negb].
  { split; [discriminate|]. cbn. intros H. decompose [or] H; try discriminate.
    contradiction. }
  unfold Zerodha._mapProduct, get_property, Zerodha.productMap. cbn [own_property].
  by_product_row s.
  destruct (includes Object_prototype s); split; intros H; try discriminate;
    cbn in H; decompose [or] H; first [contradiction | congruence].
Qed.

Lemma product_defaulted (table : list (string * string)) (fallback s : string) :
  own_property table s = None ->
  includes Object_prototype s = false ->
  or_else (get_property table s) (VStr fallback) = VStr fallback.
Proof.
  intros Ho Hp. unfold get_property. now rewrite Ho, Hp.
Qed.

(** C4, as stated, fails.  The order that goes out does not carry the
    position's product but its translation by the client's product
    table: a long position of 10 with product BO is exited with product
    INTRADAY on the Dhan client and MIS on the Zerodha client.  And not
    every position list yields one order per open position: [placeOrder]
    resolves an instrument first, so an open Dhan position that carries
    no security id is not exited at all, and the call is rejected. *)
Lemma exit_order_product_is_not_the_positions :
  (exists body,
      settled (Dhan.listPositions (dhan_product_client (PStr "11536") (Some "BO")))
      = Normal [ Dhan.Position.mk (PStr "11536") "NSE" 10 (Some "BO") ]
      /\ requests (Dhan.exitAllPositions (dhan_product_client (PStr "11536") (Some "BO")))
         = [Dhan.GET_positions; Dhan.POST_orders body]
      /\ Dhan.OrderRequest.orderType body = VStr "MARKET"
      /\ Dhan.OrderRequest.product body = VStr "INTRADAY"
      /\ Dhan.OrderRequest.product body <> VStr "BO")
  /\ (exists body,
         settled (Zerodha.listPositions (zerodha_product_client (Some "BO")))
         = Normal [ Zerodha.Position.mk (PStr "INFY") "NSE" 10 (Some "BO") ]
         /\ requests (Zerodha.exitAllPositions (zerodha_product_client (Some "BO")))
            = [Zerodha.getPositions; Zerodha.kite_placeOrder "regular" body]
         /\ Zerodha.OrderRequest.order_type body = VStr "MARKET"
         /\ Zerodha.OrderRequest.product body = VStr "MIS"
         /\ Zerodha.OrderRequest.product body <> VStr "BO")
  /\ settled (Dhan.listPositions (dhan_product_client PUndef (Some "INTRADAY")))
     = Normal [ Dhan.Position.mk PUndef "NSE" 10 (Some "INTRADAY") ]
  /\ requests (Dhan.exitAllPositions (dhan_product_client PUndef (Some "INTRADAY")))
     = [Dhan.GET_positions]
  /\ settled (Dhan.exitAllPositions (dhan_product_client PUndef (Some "INTRADAY")))
     = Throw "Instrument not found: undefined".
Proof.
  split; [|split].
  - eexists. split; [reflexivity|]. split; [reflexivity|].
    split; [reflexivity|]. split; [reflexivity | discriminate].
  - eexists. split; [reflexivity|]. split; [reflexivity|].
    split; [reflexivity|]. split; [reflexivity | discriminate].
  - repeat split.
Qed.

(** C4, amended: [exitAllPositions] submits exactly one order for each
    position whose quantity is not zero, in order, and none for a flat
    one, provided the open positions carry their instrument identity (a
    security id on the Dhan client, an exchange and a symbol on the
    Zerodha client).  The order is a MARKET order for the position's
    instrument, SELL when the quantity is positive and BUY otherwise,
    for the absolute quantity, with neither price nor trigger price.
    Its product is the position's product put through the client's
    product table: the position's own product exactly when that is
    INTRADAY, DELIVERY, MARGIN or NORMAL on the Dhan client and MIS, CNC
    or NRML on the Zerodha client; MIS, CNC and NRML become INTRADAY,
    DELIVERY and NORMAL on Dhan, and INTRADAY, DELIVERY and NORMAL become
    MIS, CNC and NRML on Zerodha; a missing product and any other name
    that is not a member of [Object.prototype] become INTRADAY on Dhan
    and MIS on Zerodha.  One flat and one long position of 10 yield
    exactly one MARKET SELL order for 10. *)
Theorem exitAllPositions_market_orders :
  (forall (c : Dhan.Client) (positions : list Dhan.Position.t),
      settled (Dhan.listPositions c) = Normal positions ->
      (forall p, In p positions -> Dhan.Position.quantity p <> 0 ->
                 Boolean (Dhan.Position.securityId p) = true) ->
      requests (Dhan.exitAllPositions c)
      = Dhan.GET_positions
          :: map (fun p =>
                    Dhan.POST_orders
                      {| Dhan.OrderRequest.securityId := Dhan.Position.securityId p;
                         Dhan.OrderRequest.exchange := Some (Dhan.Position.exchange p);
                         Dhan.OrderRequest.quantity := Z.abs (Dhan.Position.quantity p);
                         Dhan.OrderRequest.product :=
                           Dhan._mapProduct (or_else (Dhan.Position.product p) "INTRADAY");
                         Dhan.OrderRequest.validity := "DAY";
                         Dhan.OrderRequest.orderType := VStr "MARKET";
                         Dhan.OrderRequest.transactionType :=
                           if Dhan.Position.quantity p >? 0 then "SELL" else "BUY";
                         Dhan.OrderRequest.disclosedQuantity := 0;
                         Dhan.OrderRequest.source := "API";
                         Dhan.OrderRequest.price := None;
                         Dhan.OrderRequest.triggerPrice := None |})
                 (filter (fun p => negb (Dhan.Position.quantity p =? 0)) positions))
  /\ ((forall s, Dhan._mapProduct (or_else (Some s) "INTRADAY") = VStr s
                 <-> In s ["INTRADAY"; "DELIVERY"; "MARGIN"; "NORMAL"])
      /\ Dhan._mapProduct (or_else (Some "MIS") "INTRADAY") = VStr "INTRADAY"
      /\ Dhan._mapProduct (or_else (Some "CNC") "INTRADAY") = VStr "DELIVERY"
      /\ Dhan._mapProduct (or_else (Some "NRML") "INTRADAY") = VStr "NORMAL"
      /\ Dhan._mapProduct (or_else None "INTRADAY") = VStr "INTRADAY"
      /\ (forall s, own_property Dhan.productMap s = None ->
                    includes Object_prototype s = false ->
                    Dhan._mapProduct (or_else (Some s) "INTRADAY") = VStr "INTRADAY"))
  /\ (forall (c : Zerodha.Client) (positions : list Zerodha.Position.t),
         settled (Zerodha.listPositions c) = Normal positions ->
         (forall p, In p positions -> Zerodha.Position.quantity p <> 0 ->
                    Boolean (Zerodha.Position.exchange p) = true
                    /\ Boolean (Zerodha.Position.tradingsymbol p) = true) ->
         requests (Zerodha.exitAllPositions c)
         = Zerodha.getPositions
             :: map (fun p =>
                       Zerodha.kite_placeOrder "regular"
                         {| Zerodha.OrderRequest.exchange :=
                              Some (Zerodha.Position.exchange p);
                            Zerodha.OrderRequest.tradingsymbol :=
                              Zerodha.Position.tradingsymbol p;
                            Zerodha.OrderRequest.transaction_type :=
                              if Zerodha.Position.quantity p >? 0 then "SELL" else "BUY";
                            Zerodha.OrderRequest.quantity :=
                              Z.abs (Zerodha.Position.quantity p);
                            Zerodha.OrderRequest.product :=
                              Zerodha._mapProduct
                                (or_else (Zerodha.Position.product p) "INTRADAY");
                            Zerodha.OrderRequest.order_type := VStr "MARKET";
                            Zerodha.OrderRequest.validity := "day";
                            Zerodha.OrderRequest.variety := "regular";
                            Zerodha.OrderRequest.price := None;
                            Zerodha.OrderRequest.trigger_price := None |})
                    (filter (fun p => negb (Zerodha.Position.quantity p =? 0)) positions))
  /\ ((forall s, Zerodha._mapProduct (or_else (Some s) "INTRADAY") = VStr s
                 <-> In s ["MIS"; "CNC"; "NRML"])
      /\ Zerodha._mapProduct (or_else (Some "INTRADAY") "INTRADAY") = VStr "MIS"
      /\ Zerodha._mapProduct (or_else (Some "DELIVERY") "INTRADAY") = VStr "CNC"
      /\ Zerodha._mapProduct (or_else (Some "NORMAL") "INTRADAY") = VStr "NRML"
      /\ Zerodha._mapProduct (or_else None "INTRADAY") = VStr "MIS"
      /\ (forall s, own_property Zerodha.productMap s = None ->
                    includes Object_prototype s = false ->
                    Zerodha._mapProduct (or_else (Some s) "INTRADAY") = VStr "MIS"))
  /\ (exists body,
         requests (Dhan.exitAllPositions (dhan_client "" (num_of_Z 100)))
         = [Dhan.GET_positions; Dhan.POST_orders body]
         /\ Dhan.OrderRequest.orderType body = VStr "MARKET"
         /\ Dhan.OrderRequest.transactionType body = "SELL"
         /\ Dhan.OrderRequest.quantity body = 10)
  /\ (exists body,
         requests (Zerodha.exitAllPositions (zerodha_client (num_of_Z 100)))
         = [Zerodha.getPositions; Zerodha.kite_placeOrder "regular" body]
         /\ Zerodha.OrderRequest.order_type body = VStr "MARKET"
         /\ Zerodha.OrderRequest.transaction_type body = "SELL"
         /\ Zerodha.OrderRequest.quantity body = 10).
Proof.
  split; [|split; [|split; [|split; [|split]]]].
  - intros c positions H Hid. rewrite (dhan_exit_requests c positions H Hid).
    f_equal.
  - split; [exact dhan_product_unchanged|]. repeat (split; [reflexivity|]).
    intros s Ho Hp. unfold or_else, Boolean, Truthy_string.
    destruct (String.eqb_spec s "") as [->|_]; [reflexivity|]. cbn [negb].
    now apply product_defaulted.
  - intros c positions H Hid. rewrite (zerodha_exit_requests c positions H Hid).
    f_equal.
  - split; [exact zerodha_product_unchanged|]. repeat (split; [reflexivity|]).
    intros s Ho Hp. unfold or_else, Boolean, Truthy_string.
    destruct (String.eqb_spec s "") as [->|_]; [reflexivity|]. cbn [negb].
    now apply product_defaulted.
  - eexists. split; [vm_compute; reflexivity | repeat split].
  - eexists. split; [vm_compute; reflexivity | repeat split].
Qed.

(* ===================================================================== *)
(** * Instrument lookup                                                  *)
(* ===================================================================== *)

(** C5, as stated, fails.  On the Zerodha and the Upstox client a lookup
    by the upper-cased symbol finds nothing when the symbol has small
    letters; and on every client the scan returns the first match, so an
    instrument that shares its symbol with an earlier entry (the same
    share on a second exchange) is never returned. *)
Lemma lookup_misses_instrument :
  (In (Zerodha.Instrument.mk (PStr "Nifty50") (PNum 256265) "NSE") zerodha_catalog
   /\ toUpperCase "Nifty50" = "NIFTY50"
   /\ Zerodha.getInstrumentDetails (Some zerodha_catalog) (PStr "NIFTY50")
      = Normal None)
  /\ (In (Upstox.Instrument.mk (PStr "Nifty50") (PNum 26000)
                               (PStr "NSE_INDEX|Nifty 50") "NSE") upstox_catalog
      /\ Upstox.getInstrumentDetails (Some upstox_catalog) (PStr "NIFTY50")
         = Normal None)
  /\ (In (Dhan.Instrument.mk "RELIANCE" (PStr "500325") "BSE" (PNum 500325)) dhan_catalog
      /\ Dhan.getInstrumentDetails (Some dhan_catalog) (PStr "RELIANCE")
         = Normal (Some (Dhan.Instrument.mk "RELIANCE" (PStr "2885") "NSE" (PNum 2885)))
      /\ Dhan.getInstrumentDetails (Some dhan_catalog) (PStr "RELIANCE")
         <> Normal (Some (Dhan.Instrument.mk "RELIANCE" (PStr "500325") "BSE"
                                             (PNum 500325)))).
Proof.
  split; [|split].
  - split; [right; left; reflexivity|]. split; reflexivity.
  - split; [right; left; reflexivity|]. reflexivity.
  - split; [right; left; reflexivity|]. split; [reflexivity|].
    vm_compute. discriminate.
Qed.

Lemma dhan_matches_symbol (i : Dhan.Instrument.t) (key : string) :
  toUpperCase key = toUpperCase (Dhan.Instrument.tradingSymbol i) ->
  Dhan.matches (PStr key) i = true.
Proof.
  intros H. unfold Dhan.matches. rewrite H, String.eqb_refl.
  now rewrite orb_true_r.
Qed.

Lemma dhan_matches_id (i : Dhan.Instrument.t) (id : string) :
  Dhan.Instrument.securityId i = PStr id -> Dhan.matches (PStr id) i = true.
Proof.
  intros H. unfold Dhan.matches. rewrite H, strict_eq_refl.
  now rewrite orb_true_r.
Qed.

(** The Zerodha and the Upstox predicate compare with [===] and nothing
    else. *)
Lemma zerodha_matches_exact (i : Zerodha.Instrument.t) (key : string) :
  Zerodha.matches (PStr key) i = true <-> Zerodha.Instrument.tradingsymbol i = PStr key.
Proof.
  unfold Zerodha.matches. split.
  - apply strict_eq_eq.
  - intros ->. apply strict_eq_refl.
Qed.

Lemma upstox_matches_exact (i : Upstox.Instrument.t) (key : prim) :
  Upstox.matches key i = true
  <-> (Upstox.Instrument.tradingsymbol i = key
       \/ Upstox.Instrument.instrument_token i = key
       \/ Upstox.Instrument.instrument_key i = key).
Proof.
  unfold Upstox.matches. rewrite !orb_true_iff. split.
  - intros [[H|H]|H]; apply strict_eq_eq in H; auto.
  - intros [<-|[<-|<-]]; rewrite strict_eq_refl; auto.
Qed.

(** C5, amended: every client scans the catalog and returns the first
    entry that matches the key; hence a lookup by a key that matches an
    instrument of the catalog finds a matching entry, and finds that
    very instrument when no earlier entry matches.  On the Dhan client a
    string key matches an instrument by its exact symbol, by its symbol
    in any letter case (so also by the upper-cased symbol), and by its
    security id when that is a string.  On the Zerodha client a string
    key matches by the exact symbol and a numeric key by the instrument
    token; on the Upstox client a key matches by exact symbol,
    instrument token or instrument key. *)
Theorem lookup_returns_first_match :
  (* Dhan *)
  ((forall i : Dhan.Instrument.t,
       Dhan.matches (PStr (Dhan.Instrument.tradingSymbol i)) i = true
       /\ Dhan.matches (PStr (toUpperCase (Dhan.Instrument.tradingSymbol i))) i = true
       /\ (forall key, toUpperCase key = toUpperCase (Dhan.Instrument.tradingSymbol i) ->
                       Dhan.matches (PStr key) i = true)
       /\ (forall id, Dhan.Instrument.securityId i = PStr id ->
                      Dhan.matches (PStr id) i = true))
   /\ (forall cache i key,
          In i cache -> Dhan.matches key i = true ->
          exists found, Dhan.getInstrumentDetails (Some cache) key = Normal (Some found)
                        /\ Dhan.matches key found = true)
   /\ (forall before after i key,
          (forall y, In y before -> Dhan.matches key y = false) ->
          Dhan.matches key i = true ->
          Dhan.getInstrumentDetails (Some (before ++ i :: after)%list) key
          = Normal (Some i)))
  /\
  (* Zerodha *)
  ((forall (i : Zerodha.Instrument.t) (key : string),
       Zerodha.Instrument.tradingsymbol i = PStr key ->
       Zerodha.matches (PStr key) i = true)
   /\ (forall (i : Zerodha.Instrument.t) (token : Z),
          Zerodha.Instrument.instrument_token i = PNum token ->
          Zerodha.matches (PNum token) i = true)
   /\ (forall cache i key,
          In i cache -> Zerodha.matches key i = true ->
          exists found, Zerodha.getInstrumentDetails (Some cache) key = Normal (Some found)
                        /\ Zerodha.matches key found = true)
   /\ (forall before after i key,
          (forall y, In y before -> Zerodha.matches key y = false) ->
          Zerodha.matches key i = true ->
          Zerodha.getInstrumentDetails (Some (before ++ i :: after)%list) key
          = Normal (Some i)))
  /\
  (* Upstox *)
  ((forall (i : Upstox.Instrument.t) (key : prim),
       Upstox.Instrument.tradingsymbol i = key
       \/ Upstox.Instrument.instrument_token i = key
       \/ Upstox.Instrument.instrument_key i = key ->
       Upstox.matches key i = true)
   /\ (forall cache i key,
          In i cache -> Upstox.matches key i = true ->
          exists found, Upstox.getInstrumentDetails (Some cache) key = Normal (Some found)
                        /\ Upstox.matches key found = true)
   /\ (forall before after i key,
          (forall y, In y before -> Upstox.matches key y = false) ->
          Upstox.matches key i = true ->
          Upstox.getInstrumentDetails (Some (before ++ i :: after)%list) key
          = Normal (Some i))).
Proof.
  split; [|split].
  - split; [|split].
    + intros i. split; [|split; [|split]].
      * now apply dhan_matches_symbol.
      * apply dhan_matches_symbol. apply toUpperCase_idempotent.
      * intros key. apply dhan_matches_symbol.
      * intros id. apply dhan_matches_id.
    + intros cache i key Hin Hm. unfold Dhan.getInstrumentDetails.
      destruct (find_finds (Dhan.matches key) cache i Hin Hm) as [y [-> Hy]].
      now exists y.
    + intros before after i key Hb Hm. unfold Dhan.getInstrumentDetails.
      now rewrite (find_first (Dhan.matches key) before after i Hb Hm).
  - split; [intros i key; apply zerodha_matches_exact|]. split; [|split].
    + intros i token H. unfold Zerodha.matches. rewrite H. apply strict_eq_refl.
    + intros cache i key Hin Hm. unfold Zerodha.getInstrumentDetails.
      destruct (find_finds (Zerodha.matches key) cache i Hin Hm) as [y [-> Hy]].
      now exists y.
    + intros before after i key Hb Hm. unfold Zerodha.getInstrumentDetails.
      now rewrite (find_first (Zerodha.matches key) before after i Hb Hm).
  - split; [intros i key; apply upstox_matches_exact|]. split.
    + intros cache i key Hin Hm. unfold Upstox.getInstrumentDetails.
      destruct (find_finds (Upstox.matches key) cache i Hin Hm) as [y [-> Hy]].
      now exists y.
    + intros before after i key Hb Hm. unfold Upstox.getInstrumentDetails.
      now rewrite (find_first (Upstox.matches key) before after i Hb Hm).
Qed.

(* ===================================================================== *)
(** * Catalog refresh                                                    *)
(* ===================================================================== *)

(** The fallback as the Dhan client has it: a failed download loads the
    stale file. *)
Lemma dhan_falls_back_to_stale_file (net : Dhan.Segments) (e : Error)
    (f : CacheFile.t Dhan.Instrument.t) (instruments : list Dhan.Instrument.t)
    (cache : option (list Dhan.Instrument.t)) :
  Dhan.download net = Throw e ->
  CacheFile.age f > day_ms ->
  CacheFile.parsed f = Some instruments ->
  Dhan._loadInstrumentsCache net (CacheState.mk cache (Some f))
  = CacheState.mk (Some instruments) (Some f).
Proof.
  intros Hd Hage Hp. unfold Dhan._loadInstrumentsCache, shouldDownload.
  cbn [CacheState.file]. apply Z.gtb_gt in Hage. now rewrite Hage, Hd, Hp.
Qed.

(** C6 fails on the code: when the cache file is stale and the download
    fails, the Upstox and the Zerodha client leave [_loadInstrumentsCache]
    through its outer [catch] without reading the file, so a client that
    starts with no catalog still has none and every lookup throws, while
    the Dhan client loads the stale file in the same situation. *)
Theorem stale_file_not_used_after_failed_download :
  (forall (f : CacheFile.t Upstox.Instrument.t) (instruments : list Upstox.Instrument.t)
          (e : Error) (key : prim),
      CacheFile.age f > day_ms ->
      CacheFile.parsed f = Some instruments ->
      let st := Upstox._loadInstrumentsCache (Throw e) (CacheState.mk None (Some f)) in
      CacheState.instrumentsCache st = None
      /\ Upstox.getInstrumentDetails (CacheState.instrumentsCache st) key
         = Throw "Instruments cache not loaded")
  /\
  (forall (f : CacheFile.t Zerodha.Instrument.t) (instruments : list Zerodha.Instrument.t)
          (e : Error) (key : prim),
      CacheFile.age f > day_ms ->
      CacheFile.parsed f = Some instruments ->
      let st := Zerodha._loadInstrumentsCache (Throw e) (CacheState.mk None (Some f)) in
      CacheState.instrumentsCache st = None
      /\ Zerodha.getInstrumentDetails (CacheState.instrumentsCache st) key
         = Throw "Instruments cache not loaded")
  /\
  (forall (f : CacheFile.t Dhan.Instrument.t) (instruments : list Dhan.Instrument.t)
          (net : Dhan.Segments) (e : Error) (key : prim),
      CacheFile.age f > day_ms ->
      CacheFile.parsed f = Some instruments ->
      Dhan.download net = Throw e ->
      let st := Dhan._loadInstrumentsCache net (CacheState.mk None (Some f)) in
      CacheState.instrumentsCache st = Some instruments
      /\ Dhan.getInstrumentDetails (CacheState.instrumentsCache st) key
         = Normal (find (Dhan.matches key) instruments)).
Proof.
  split; [|split].
  - intros f instruments e key Hage Hp st. subst st.
    unfold Upstox._loadInstrumentsCache, shouldDownload. cbn [CacheState.file].
    apply Z.gtb_gt in Hage. rewrite Hage. now split.
  - intros f instruments e key Hage Hp st. subst st.
    unfold Zerodha._loadInstrumentsCache, shouldDownload. cbn [CacheState.file].
    apply Z.gtb_gt in Hage. rewrite Hage. now split.
  - intros f instruments net e key Hage Hp Hd st. subst st.
    rewrite (dhan_falls_back_to_stale_file net e f instruments None Hd Hage Hp).
    now split.
Qed.

(** C6 at a two-day-old Upstox file that holds a catalog, the download
    failing: the catalog stays [null] and the lookup of a symbol of the
    file throws. *)
Lemma stale_file_not_used_after_failed_download_run :
  let f := CacheFile.mk (2 * day_ms) (Some upstox_catalog) in
  CacheFile.age f > day_ms
  /\ CacheFile.parsed f = Some upstox_catalog
  /\ CacheState.instrumentsCache
       (Upstox._loadInstrumentsCache (Throw "getaddrinfo ENOTFOUND assets.upstox.com")
          (CacheState.mk None (Some f))) = None
  /\ Upstox.getInstrumentDetails
       (CacheState.instrumentsCache
          (Upstox._loadInstrumentsCache (Throw "getaddrinfo ENOTFOUND assets.upstox.com")
             (CacheState.mk None (Some f)))) (PStr "INFY")
     = Throw "Instruments cache not loaded".
Proof.
  cbv zeta. split; [reflexivity|]. split; [reflexivity|].
  exact (proj1 stale_file_not_used_after_failed_download
           (CacheFile.mk (2 * day_ms) (Some upstox_catalog)) upstox_catalog
           "getaddrinfo ENOTFOUND assets.upstox.com" (PStr "INFY")
           eq_refl eq_refl).
Defined.

(* ===================================================================== *)
(** * Price and trigger price of an order request                        *)
(* ===================================================================== *)

Lemma includes_In (arr : list string) (x : string) :
  includes arr x = true <-> In x arr.
Proof.
  unfold includes. rewrite existsb_exists. split.
  - intros [y [Hy Heq]]. apply String.eqb_eq in Heq. now subst.
  - intros H. exists x. split; [exact H | apply String.eqb_refl].
Qed.

Lemma includes_two (a b x : string) :
  includes [a; b] x = true <-> x = a \/ x = b.
Proof.
  rewrite includes_In. cbn [In]. intuition congruence.
Qed.

(** The Dhan client tests the mapped order type against SL and SLM; that
    is the same as testing the given one against SL and SL-M. *)
Lemma dhan_stop_order_types (orderType : string) :
  includes_value ["SL"; "SLM"] (Dhan._mapOrderType orderType)
  = includes ["SL"; "SL-M"] orderType.
Proof.
  unfold Dhan._mapOrderType, get_property, Dhan.orderTypeMap.
  cbn [own_property].
  destruct (String.eqb_spec "MARKET" orderType) as [<-|H1]; [reflexivity|].
  destruct (String.eqb_spec "LIMIT" orderType) as [<-|H2]; [reflexivity|].
  destruct (String.eqb_spec "SL" orderType) as [<-|H3]; [reflexivity|].
  destruct (String.eqb_spec "SL-M" orderType) as [<-|H4]; [reflexivity|].
  assert (includes ["SL"; "SL-M"] orderType = false) as ->.
  { apply not_true_is_false. rewrite includes_two. intuition congruence. }
  now destruct (includes Object_prototype orderType).
Qed.

Lemma dhan_placeOrder_body (c : Dhan.Client) (params : Dhan.Params.t)
    (body : Dhan.OrderRequest.t) :
  In (Dhan.POST_orders body) (requests (Dhan.placeOrder c params)) ->
  exists id ex, body = Dhan.orderRequest params id ex.
Proof.
  unfold Dhan.placeOrder. rewrite requests_await.
  destruct (Dhan.resolveInstrument c params) as [[id ex]|e];
    cbn [lift settled requests fst snd app]; [|contradiction].
  rewrite requests_await. cbn [send settled requests fst snd].
  intros H. exists id, ex.
  destruct (Dhan.place_response _ _); cbn [resolve fst app In] in H;
    destruct H as [H|H]; try contradiction; congruence.
Qed.

Lemma zerodha_placeOrder_body (c : Zerodha.Client) (params : Zerodha.Params.t)
    (variety : string) (body : Zerodha.OrderRequest.t) :
  In (Zerodha.kite_placeOrder variety body) (requests (Zerodha.placeOrder c params)) ->
  exists ex sym, body = Zerodha.orderRequest params ex sym.
Proof.
  unfold Zerodha.placeOrder. rewrite requests_await.
  destruct (Zerodha.resolveInstrument c params) as [[ex sym]|e];
    cbn [lift settled requests fst snd app]; [|contradiction].
  rewrite requests_await. cbn [send settled requests fst snd].
  intros H. exists ex, sym.
  destruct (Zerodha.place_response _ _ _); cbn [resolve fst app In] in H;
    destruct H as [H|H]; try contradiction; congruence.
Qed.

Lemma upstox_placeOrder_body (c : Upstox.Client) (params : Upstox.Params.t)
    (body : Upstox.OrderRequest.t) :
  In (Upstox.POST_order_place body) (requests (Upstox.placeOrder c params)) ->
  exists instrument, body = Upstox.orderRequest params instrument.
Proof.
  unfold Upstox.placeOrder. rewrite requests_await.
  destruct (Upstox.resolveInstrument c params) as [instrument|e];
    cbn [lift settled requests fst snd app send In]; [|contradiction].
  intros [H|H]; [|contradiction]. exists instrument. congruence.
Qed.

(** A guarded optional field: set to the supplied value when the guard
    holds and the value is truthy, and left off otherwise. *)
Lemma guarded_field (guard : bool) (supplied : option number) :
  let field := if (guard && Boolean supplied)%bool then supplied else None in
  (field <> None <-> guard = true /\ Boolean supplied = true)
  /\ (field <> None -> field = supplied).
Proof.
  destruct guard, supplied as [x|]; cbn; [destruct (Boolean x) | | |];
    intuition congruence.
Qed.

Lemma falsy_field (guard : bool) (supplied : option number) :
  Boolean supplied = false ->
  (if (guard && Boolean supplied)%bool then supplied else None) = None.
Proof. intros ->. now rewrite andb_false_r. Qed.

(** On the Upstox client the price guard names LIMIT alone. *)
Lemma upstox_price_only_for_limit (params : Upstox.Params.t) (i : Upstox.Instrument.t) :
  Upstox.OrderRequest.price (Upstox.orderRequest params i) <> None
  <-> Upstox.Params.orderType params = "LIMIT"
      /\ Boolean (Upstox.Params.price params) = true.
Proof.
  cbn [Upstox.orderRequest Upstox.OrderRequest.price].
  rewrite (proj1 (guarded_field _ _)). now rewrite String.eqb_eq.
Qed.

(** C7, as stated, fails: the Upstox client sends an SL order whose
    price was supplied without a price field, and the Dhan client (like
    the other two) sends a LIMIT order whose supplied price is 0 without
    a price field. *)
Lemma price_field_missing_although_supplied :
  (exists body,
      requests (Upstox.placeOrder upstox_client
                  (upstox_order "SL" (Some (num_of_Z 1500)) (Some (num_of_Z 1470))))
      = [Upstox.POST_order_place body]
      /\ Upstox.OrderRequest.order_type body = "SL"
      /\ Upstox.OrderRequest.price body = None
      /\ Upstox.OrderRequest.trigger_price body = Some (num_of_Z 1470))
  /\
  (exists body,
      requests (Dhan.placeOrder (dhan_client "" (num_of_Z 100))
                  (dhan_order "LIMIT" (Some (num_of_Z 0)) None))
      = [Dhan.POST_orders body]
      /\ Dhan.OrderRequest.orderType body = VStr "LIMIT"
      /\ Dhan.OrderRequest.price body = None).
Proof.
  split; eexists; (split; [vm_compute; reflexivity | repeat split]).
Qed.

(** C7, amended: a price or trigger price counts as supplied when it is
    truthy, that is present, not 0 and not NaN.  In every request the
    Dhan and the Zerodha client send, the price field is set if and only
    if the order type is LIMIT or SL and the price is truthy, and in
    every request any of the three clients sends, the trigger-price
    field is set if and only if the order type is SL or SL-M and the
    trigger price is truthy; a field that is set carries the supplied
    value.  On the Upstox client the price field is set for a LIMIT
    order with a truthy price, and never unless the order type is LIMIT
    or SL and the price is truthy. *)
Theorem price_fields_follow_order_type :
  (forall (c : Dhan.Client) (params : Dhan.Params.t) (body : Dhan.OrderRequest.t),
      In (Dhan.POST_orders body) (requests (Dhan.placeOrder c params)) ->
      (Dhan.OrderRequest.price body <> None
       <-> (Dhan.Params.orderType params = "LIMIT" \/ Dhan.Params.orderType params = "SL")
           /\ Boolean (Dhan.Params.price params) = true)
      /\ (Dhan.OrderRequest.price body <> None ->
          Dhan.OrderRequest.price body = Dhan.Params.price params)
      /\ (Dhan.OrderRequest.triggerPrice body <> None
          <-> (Dhan.Params.orderType params = "SL"
               \/ Dhan.Params.orderType params = "SL-M")
              /\ Boolean (Dhan.Params.triggerPrice params) = true)
      /\ (Dhan.OrderRequest.triggerPrice body <> None ->
          Dhan.OrderRequest.triggerPrice body = Dhan.Params.triggerPrice params))
  /\
  (forall (c : Zerodha.Client) (params : Zerodha.Params.t) (variety : string)
          (body : Zerodha.OrderRequest.t),
      In (Zerodha.kite_placeOrder variety body) (requests (Zerodha.placeOrder c params)) ->
      (Zerodha.OrderRequest.price body <> None
       <-> (Zerodha.Params.orderType params = "LIMIT"
            \/ Zerodha.Params.orderType params = "SL")
           /\ Boolean (Zerodha.Params.price params) = true)
      /\ (Zerodha.OrderRequest.price body <> None ->
          Zerodha.OrderRequest.price body = Zerodha.Params.price params)
      /\ (Zerodha.OrderRequest.trigger_price body <> None
          <-> (Zerodha.Params.orderType params = "SL"
               \/ Zerodha.Params.orderType params = "SL-M")
              /\ Boolean (Zerodha.Params.triggerPrice params) = true)
      /\ (Zerodha.OrderRequest.trigger_price body <> None ->
          Zerodha.OrderRequest.trigger_price body = Zerodha.Params.triggerPrice params))
  /\
  (forall (c : Upstox.Client) (params : Upstox.Params.t) (body : Upstox.OrderRequest.t),
      In (Upstox.POST_order_place body) (requests (Upstox.placeOrder c params)) ->
      (Upstox.OrderRequest.price body <> None ->
       (Upstox.Params.orderType params = "LIMIT"
        \/ Upstox.Params.orderType params = "SL")
       /\ Boolean (Upstox.Params.price params) = true)
      /\ (Upstox.Params.orderType params = "LIMIT" ->
          Boolean (Upstox.Params.price params) = true ->
          Upstox.OrderRequest.price body <> None)
      /\ (Upstox.OrderRequest.price body <> None ->
          Upstox.OrderRequest.price body = Upstox.Params.price params)
      /\ (Upstox.OrderRequest.trigger_price body <> None
          <-> (Upstox.Params.orderType params = "SL"
               \/ Upstox.Params.orderType params = "SL-M")
              /\ Boolean (Upstox.Params.triggerPrice params) = true)
      /\ (Upstox.OrderRequest.trigger_price body <> None ->
          Upstox.OrderRequest.trigger_price body = Upstox.Params.triggerPrice params)).
Proof.
  split; [|split].
  - intros c params body H.
    destruct (dhan_placeOrder_body c params body H) as [id [ex ->]].
    cbn [Dhan.orderRequest Dhan.OrderRequest.price Dhan.OrderRequest.triggerPrice].
    rewrite dhan_stop_order_types.
    destruct (guarded_field (includes ["LIMIT"; "SL"] (Dhan.Params.orderType params))
                (Dhan.Params.price params)) as [Hp1 Hp2].
    destruct (guarded_field (includes ["SL"; "SL-M"] (Dhan.Params.orderType params))
                (Dhan.Params.triggerPrice params)) as [Ht1 Ht2].
    cbv zeta in Hp1, Hp2, Ht1, Ht2. rewrite includes_two in Hp1, Ht1.
    repeat split; try tauto.
  - intros c params variety body H.
    destruct (zerodha_placeOrder_body c params variety body H) as [ex [sym ->]].
    cbn [Zerodha.orderRequest Zerodha.OrderRequest.price
         Zerodha.OrderRequest.trigger_price].
    destruct (guarded_field (includes ["LIMIT"; "SL"] (Zerodha.Params.orderType params))
                (Zerodha.Params.price params)) as [Hp1 Hp2].
    destruct (guarded_field (includes ["SL"; "SL-M"] (Zerodha.Params.orderType params))
                (Zerodha.Params.triggerPrice params)) as [Ht1 Ht2].
    cbv zeta in Hp1, Hp2, Ht1, Ht2. rewrite includes_two in Hp1, Ht1.
    repeat split; try tauto.
  - intros c params body H.
    destruct (upstox_placeOrder_body c params body H) as [instrument ->].
    pose proof (upstox_price_only_for_limit params instrument) as Hlimit.
    cbn [Upstox.orderRequest Upstox.OrderRequest.price
         Upstox.OrderRequest.trigger_price] in *.
    destruct (guarded_field (String.eqb (Upstox.Params.orderType params) "LIMIT")
                (Upstox.Params.price params)) as [_ Hp2].
    destruct (guarded_field (includes ["SL"; "SL-M"] (Upstox.Params.orderType params))
                (Upstox.Params.triggerPrice params)) as [Ht1 Ht2].
    cbv zeta in Hp2, Ht1, Ht2. rewrite includes_two in Ht1.
    repeat split; try tauto.
Qed.

(** C7 at a Dhan SL order with price 1500 and trigger price 1470: both
    fields are set. *)
Lemma price_fields_follow_order_type_run :
  let params := dhan_order "SL" (Some (num_of_Z 1500)) (Some (num_of_Z 1470)) in
  let body := Dhan.orderRequest params (PStr "11536") (Some "NSE") in
  In (Dhan.POST_orders body)
     (requests (Dhan.placeOrder (dhan_client "" (num_of_Z 100)) params))
  /\ Dhan.OrderRequest.price body = Dhan.Params.price params
  /\ Dhan.OrderRequest.triggerPrice body = Dhan.Params.triggerPrice params.
Proof.
  cbv zeta.
  assert (In (Dhan.POST_orders
                (Dhan.orderRequest
                   (dhan_order "SL" (Some (num_of_Z 1500)) (Some (num_of_Z 1470)))
                   (PStr "11536") (Some "NSE")))
             (requests (Dhan.placeOrder (dhan_client "" (num_of_Z 100))
                          (dhan_order "SL" (Some (num_of_Z 1500))
                                      (Some (num_of_Z 1470)))))) as H
    by (left; reflexivity).
  split; [exact H|].
  destruct (proj1 price_fields_follow_order_type _ _ _ H) as [_ [Hp [_ Ht]]].
  split; [apply Hp | apply Ht]; vm_compute; discriminate.
Defined.

(** C10: in every request a client sends, a supplied price of 0 (of
    either sign) leaves the request without a price field and a supplied
    trigger price of 0 leaves it without a trigger-price field, whatever
    the order type, LIMIT, SL and SL-M included: the guards test the
    truthiness of the value, and 0 is falsy.  This holds for the Dhan,
    the Zerodha and the Upstox client. *)
Theorem zero_price_is_treated_as_absent :
  (forall (c : Dhan.Client) (params : Dhan.Params.t) (body : Dhan.OrderRequest.t),
      In (Dhan.POST_orders body) (requests (Dhan.placeOrder c params)) ->
      (forall s, Dhan.Params.price params = Some (S754_zero s) ->
                 Dhan.OrderRequest.price body = None)
      /\ (forall s, Dhan.Params.triggerPrice params = Some (S754_zero s) ->
                    Dhan.OrderRequest.triggerPrice body = None))
  /\
  (forall (c : Zerodha.Client) (params : Zerodha.Params.t) (variety : string)
          (body : Zerodha.OrderRequest.t),
      In (Zerodha.kite_placeOrder variety body) (requests (Zerodha.placeOrder c params)) ->
      (forall s, Zerodha.Params.price params = Some (S754_zero s) ->
                 Zerodha.OrderRequest.price body = None)
      /\ (forall s, Zerodha.Params.triggerPrice params = Some (S754_zero s) ->
                    Zerodha.OrderRequest.trigger_price body = None))
  /\
  (forall (c : Upstox.Client) (params : Upstox.Params.t) (body : Upstox.OrderRequest.t),
      In (Upstox.POST_order_place body) (requests (Upstox.placeOrder c params)) ->
      (forall s, Upstox.Params.price params = Some (S754_zero s) ->
                 Upstox.OrderRequest.price body = None)
      /\ (forall s, Upstox.Params.triggerPrice params = Some (S754_zero s) ->
                    Upstox.OrderRequest.trigger_price body = None)).
Proof.
  split; [|split].
  - intros c params body H.
    destruct (dhan_placeOrder_body c params body H) as [id [ex ->]].
    cbn [Dhan.orderRequest Dhan.OrderRequest.price Dhan.OrderRequest.triggerPrice].
    split; intros s Hs; apply falsy_field; now rewrite Hs.
  - intros c params variety body H.
    destruct (zerodha_placeOrder_body c params variety body H) as [ex [sym ->]].
    cbn [Zerodha.orderRequest Zerodha.OrderRequest.price
         Zerodha.OrderRequest.trigger_price].
    split; intros s Hs; apply falsy_field; now rewrite Hs.
  - intros c params body H.
    destruct (upstox_placeOrder_body c params body H) as [instrument ->].
    cbn [Upstox.orderRequest Upstox.OrderRequest.price
         Upstox.OrderRequest.trigger_price].
    split; intros s Hs; apply falsy_field; now rewrite Hs.
Qed.

(** C10 at a Dhan SL order with price 0 and trigger price 0: the request
    goes out as an SL order with neither field. *)
Lemma zero_price_is_treated_as_absent_run :
  let params := dhan_order "SL" (Some (num_of_Z 0)) (Some (num_of_Z 0)) in
  let body := Dhan.orderRequest params (PStr "11536") (Some "NSE") in
  In (Dhan.POST_orders body)
     (requests (Dhan.placeOrder (dhan_client "" (num_of_Z 100)) params))
  /\ Dhan.Params.price params = Some (S754_zero false)
  /\ Dhan.OrderRequest.orderType body = VStr "SL"
  /\ Dhan.OrderRequest.price body = None
  /\ Dhan.OrderRequest.triggerPrice body = None.
Proof.
  cbv zeta.
  assert (In (Dhan.POST_orders
                (Dhan.orderRequest
                   (dhan_order "SL" (Some (num_of_Z 0)) (Some (num_of_Z 0)))
                   (PStr "11536") (Some "NSE")))
             (requests (Dhan.placeOrder (dhan_client "" (num_of_Z 100))
                          (dhan_order "SL" (Some (num_of_Z 0)) (Some (num_of_Z 0))))))
    as H by (left; reflexivity).
  split; [exact H|]. split; [reflexivity|]. split; [reflexivity|].
  destruct (proj1 zero_price_is_treated_as_absent _ _ _ H) as [Hp Ht].
  split; [apply (Hp false) | apply (Ht false)]; reflexivity.
Defined.

(* ===================================================================== *)
(** * Product and order-type mapping                                     *)
(* ===================================================================== *)

Ltac by_table_key key :=
  repeat match goal with
         | |- context [String.eqb ?k key] =>
             destruct (String.eqb_spec k key) as [<-|?]; [reflexivity|]
         end.

Lemma mapping_of_inherited (table : list (string * string)) (key fallback : string) :
  includes Object_prototype key = true ->
  own_property table key = None ->
  or_else (get_property table key) (VStr fallback) = VInherited key.
Proof.
  intros Hp Ho. unfold get_property. now rewrite Ho, Hp.
Qed.

Lemma prototype_member_not_own (key : string) :
  includes Object_prototype key = true ->
  own_property Dhan.productMap key = None
  /\ own_property Dhan.orderTypeMap key = None
  /\ own_property Zerodha.productMap key = None
  /\ own_property Zerodha.orderTypeMap key = None.
Proof.
  rewrite includes_In. unfold Object_prototype. cbn [In].
  intros H. repeat (destruct H as [<-|H]; [repeat split|]). contradiction.
Qed.

(** C8 fails on the code: the tables are object literals, so a key that
    names a member of [Object.prototype], such as [constructor] or
    [toString], is found on the prototype chain; the lookup is truthy,
    the [||] default is not taken, and the mapping returns the inherited
    member, not a broker value.  For every other string the mapping is
    the table entry, and the default (INTRADAY or MIS for the product,
    MARKET for the order type) when the table has none. *)
Theorem mapping_returns_inherited_members (key : string) :
  (includes Object_prototype key = true ->
   Dhan._mapProduct key = VInherited key
   /\ Dhan._mapOrderType key = VInherited key
   /\ Zerodha._mapProduct key = VInherited key
   /\ Zerodha._mapOrderType key = VInherited key)
  /\
  (includes Object_prototype key = false ->
   Dhan._mapProduct key
   = VStr (match own_property Dhan.productMap key with
           | Some v => v | None => "INTRADAY" end)
   /\ Dhan._mapOrderType key
      = VStr (match own_property Dhan.orderTypeMap key with
              | Some v => v | None => "MARKET" end)
   /\ Zerodha._mapProduct key
      = VStr (match own_property Zerodha.productMap key with
              | Some v => v | None => "MIS" end)
   /\ Zerodha._mapOrderType key
      = VStr (match own_property Zerodha.orderTypeMap key with
              | Some v => v | None => "MARKET" end)).
Proof.
  split; intros H.
  - destruct (prototype_member_not_own key H) as [H1 [H2 [H3 H4]]].
    unfold Dhan._mapProduct, Dhan._mapOrderType, Zerodha._mapProduct,
      Zerodha._mapOrderType.
    repeat split; now apply mapping_of_inherited.
  - unfold Dhan._mapProduct, Dhan._mapOrderType, Zerodha._mapProduct,
      Zerodha._mapOrderType, get_property.
    rewrite H. repeat split.
    + unfold Dhan.productMap. cbn [own_property]. by_table_key key. reflexivity.
    + unfold Dhan.orderTypeMap. cbn [own_property]. by_table_key key. reflexivity.
    + unfold Zerodha.productMap. cbn [own_property]. by_table_key key. reflexivity.
    + unfold Zerodha.orderTypeMap. cbn [own_property]. by_table_key key. reflexivity.
Qed.

(** C8 at the product [constructor] and the order type [toString]: no
    default is applied, and an order placed with them carries the
    inherited members. *)
Lemma mapping_returns_inherited_members_run :
  includes Object_prototype "constructor" = true
  /\ Dhan._mapProduct "constructor" = VInherited "constructor"
  /\ Dhan._mapProduct "constructor" <> VStr "INTRADAY"
  /\ Zerodha._mapOrderType "constructor" = VInherited "constructor"
  /\ Zerodha._mapOrderType "constructor" <> VStr "MARKET"
  /\ Dhan._mapProduct "MIS" = VStr "INTRADAY"
  /\ Dhan._mapProduct "intraday" = VStr "INTRADAY".
Proof.
  assert (includes Object_prototype "constructor" = true) as H by reflexivity.
  destruct (proj1 (mapping_returns_inherited_members "constructor") H)
    as [H1 [_ [_ H4]]].
  split; [exact H|]. split; [exact H1|]. split; [rewrite H1; discriminate|].
  split; [exact H4|]. split; [rewrite H4; discriminate|].
  split; [exact (proj1 (proj2 (mapping_returns_inherited_members "MIS") eq_refl))
         |exact (proj1 (proj2 (mapping_returns_inherited_members "intraday") eq_refl))].
Defined.

(* ===================================================================== *)
(** * Rounding to cents                                                  *)
(* ===================================================================== *)

Lemma round_half_up_nearest (num den : Z) :
  0 < den ->
  let k := round_half_up num den in
  (2 * k - 1) * den <= 2 * num < (2 * k + 1) * den.
Proof.
  intros Hd k. subst k. unfold round_half_up.
  pose proof (Z.div_mod (2 * num + den) (2 * den) ltac:(lia)) as Hdm.
  pose proof (Z.mod_pos_bound (2 * num + den) (2 * den) ltac:(lia)) as Hm.
  nia.
Qed.

Lemma exact_den_pos (e : Z) : 0 < exact_den e.
Proof. unfold exact_den. apply Z.pow_pos_nonneg; lia. Qed.

(** C9, as stated, fails: the last traded price 1.005 with no offset
    gives the limit price 1.00, where rounding 1.005 half-up to cents
    gives 1.01.  The product 1.005 * 100 is 100.49999999999999 in
    binary64, and [Math.round] rounds that down. *)
Lemma round2_is_not_half_up :
  spec_half_up_cents 1005 1000 = 101
  /\ Dhan.round2 (decimal 1005 1000) = decimal 100 100
  /\ Dhan.round2 (decimal 1005 1000) <> spec_round2 1005 1000
  /\ Dhan.limitPrice "SELL" (decimal 1005 1000) (num_of_Z 0) = num_of_Z 1
  /\ Dhan.triggerPrice "BUY" (decimal 1005 1000) (num_of_Z 0) = num_of_Z 1.
Proof.
  repeat split; try (vm_compute; reflexivity). vm_compute. discriminate.
Qed.

(** C9, amended: every limit price and every stop-loss trigger price the
    exit variants compute is [Math.round(x * 100) / 100] in binary64
    arithmetic, where [x] is the price before rounding: the product
    [x * 100] is rounded to a binary64 number first, [Math.round] then
    takes the integer nearest to that product, the upper one when the
    product lies exactly halfway, and the division by 100 gives the
    binary64 number nearest to that many cents.  The result is 100.01
    for 100.005, but it is not always the half-up rounding of the
    decimal price: 1.005 gives 1.00. *)
Theorem prices_are_rounded_by_Math_round :
  (forall (s : bool) (m : positive) (e : Z),
      e < 0 ->
      let k := round_half_up (exact_num s m e) (exact_den e) in
      (2 * k - 1) * exact_den e <= 2 * exact_num s m e < (2 * k + 1) * exact_den e
      /\ Math_round (S754_finite s m e) = (if k =? 0 then S754_zero s else num_of_Z k))
  /\ (forall priceOffset p ltp,
         Dhan.Params.price (Dhan.limitExit priceOffset p ltp)
         = Some (Dhan.limitPrice (Dhan.oppositeTransactionType (Dhan.Position.quantity p))
                                 ltp (or_else priceOffset (num_of_Z 0))))
  /\ (forall slPercentage p ltp,
         Dhan.Params.triggerPrice (Dhan.stopLossExit slPercentage p ltp)
         = Some (Dhan.triggerPrice (Dhan.oppositeTransactionType (Dhan.Position.quantity p))
                                   ltp (or_else slPercentage (num_of_Z 1))))
  /\ (forall ltp pct,
         let up := num_mul ltp (num_add (num_of_Z 1) (num_div pct (num_of_Z 100))) in
         let down := num_mul ltp (num_sub (num_of_Z 1) (num_div pct (num_of_Z 100))) in
         Dhan.limitPrice "SELL" ltp pct = Dhan.round2 up
         /\ Dhan.limitPrice "BUY" ltp pct = Dhan.round2 down
         /\ Dhan.triggerPrice "SELL" ltp pct = Dhan.round2 down
         /\ Dhan.triggerPrice "BUY" ltp pct = Dhan.round2 up)
  /\ (forall x,
         Dhan.round2 x = num_div (Math_round (num_mul x (num_of_Z 100))) (num_of_Z 100))
  /\ Dhan.round2 (decimal 100005 1000) = decimal 10001 100
  /\ Dhan.round2 (decimal 1005 1000) = decimal 100 100.
Proof.
  split; [|split; [|split; [|split; [|split; [|split]]]]].
  - intros s m e He k. split.
    + apply round_half_up_nearest. apply exact_den_pos.
    + subst k. unfold Math_round.
      now destruct (Z.leb_spec 0 e); [lia|].
  - reflexivity.
  - reflexivity.
  - intros ltp pct up down. repeat split.
  - reflexivity.
  - vm_compute. reflexivity.
  - vm_compute. reflexivity.
Qed.

(** C9 at the product 1.005 * 100 = 100.49999999999999, which is
    7072058789855231 * 2^-46: the nearest integer is 100. *)
Lemma prices_are_rounded_by_Math_round_run :
  (-46 < 0)
  /\ num_mul (decimal 1005 1000) (num_of_Z 100)
     = S754_finite false 7072058789855231 (-46)
  /\ round_half_up (exact_num false 7072058789855231 (-46)) (exact_den (-46)) = 100
  /\ Math_round (S754_finite false 7072058789855231 (-46)) = num_of_Z 100.
Proof.
  split; [reflexivity|]. split; [vm_compute; reflexivity|].
  split; [vm_compute; reflexivity|].
  exact (proj2 (proj1 prices_are_rounded_by_Math_round false 7072058789855231%positive
                  (-46) eq_refl)).
Defined.

(* ===================================================================== *)
(** * Runs on sample data                                                *)
(* ===================================================================== *)

(** C1 at three open and two filled orders, every cancellation
    succeeding: three cancel requests and three results. *)
Lemma cancelAllOrders_all_or_nothing_run :
  let c := dhan_client "" (num_of_Z 100) in
  settled (Dhan.listOrders c) = Normal dhan_orders
  /\ requests (Dhan.cancelAllOrders c)
     = [ Dhan.GET_orders; Dhan.DELETE_orders "1001"; Dhan.DELETE_orders "1002";
         Dhan.DELETE_orders "1004" ]
  /\ settled (Dhan.cancelAllOrders c)
     = Normal (Report.mk true "Cancelled 3 orders"
                 [ OrderResult.mk "1001" "success" "Order cancelled successfully";
                   OrderResult.mk "1002" "success" "Order cancelled successfully";
                   OrderResult.mk "1004" "success" "Order cancelled successfully" ]).
Proof.
  cbv zeta.
  assert (settled (Dhan.listOrders (dhan_client "" (num_of_Z 100)))
          = Normal dhan_orders) as H by reflexivity.
  destruct (proj1 cancelAllOrders_all_or_nothing _ _ H) as [Hreq [Hok _]].
  split; [exact H|]. split; [exact Hreq|].
  apply Hok. intros o Ho. cbn in Ho.
  destruct Ho as [<-|[<-|[<-|[]]]]; reflexivity.
Defined.

(** C2 at a long position of 10 on the Dhan client, last traded price
    100 and offset 0.5: the sell order is priced at 100.50. *)
Lemma exitAllPositionsLimit_sell_price_run :
  let c := dhan_client "" (num_of_Z 100) in
  let p := Dhan.Position.mk (PStr "11536") "NSE" 10 (Some "INTRADAY") in
  settled (Dhan.listPositions c) = Normal dhan_positions
  /\ In p dhan_positions
  /\ 0 < Dhan.Position.quantity p
  /\ exists body,
       In (Dhan.POST_orders body)
          (requests (Dhan.exitAllPositionsLimit c (Some (decimal 5 10))))
       /\ Dhan.OrderRequest.transactionType body = "SELL"
       /\ Dhan.OrderRequest.price body = Some (decimal 10050 100).
Proof.
  cbv zeta.
  assert (settled (Dhan.listPositions (dhan_client "" (num_of_Z 100)))
          = Normal dhan_positions) as H by reflexivity.
  assert (In (Dhan.Position.mk (PStr "11536") "NSE" 10 (Some "INTRADAY"))
             dhan_positions) as Hin by (right; left; reflexivity).
  split; [exact H|]. split; [exact Hin|]. split; [reflexivity|].
  destruct (proj1 exitAllPositionsLimit_sell_price
              (dhan_client "" (num_of_Z 100)) (Some (decimal 5 10)) dhan_positions
              (Dhan.Position.mk (PStr "11536") "NSE" 10 (Some "INTRADAY"))
              (num_of_Z 100) H Hin eq_refl eq_refl eq_refl)
    as [body [Hpost [_ [Hside [_ [_ Hprice]]]]]].
  exists body. split; [exact Hpost|]. split; [exact Hside|].
  rewrite Hprice. vm_compute. reflexivity.
Defined.

(** C4 at one flat and one long position of 10 on the Dhan client. *)
Lemma exitAllPositions_market_orders_run :
  let c := dhan_client "" (num_of_Z 100) in
  settled (Dhan.listPositions c) = Normal dhan_positions
  /\ (forall p, In p dhan_positions -> Dhan.Position.quantity p <> 0 ->
                Boolean (Dhan.Position.securityId p) = true)
  /\ requests (Dhan.exitAllPositions c)
     = [ Dhan.GET_positions;
         Dhan.POST_orders
           {| Dhan.OrderRequest.securityId := PStr "11536";
              Dhan.OrderRequest.exchange := Some "NSE";
              Dhan.OrderRequest.quantity := 10;
              Dhan.OrderRequest.product := VStr "INTRADAY";
              Dhan.OrderRequest.validity := "DAY";
              Dhan.OrderRequest.orderType := VStr "MARKET";
              Dhan.OrderRequest.transactionType := "SELL";
              Dhan.OrderRequest.disclosedQuantity := 0;
              Dhan.OrderRequest.source := "API";
              Dhan.OrderRequest.price := None;
              Dhan.OrderRequest.triggerPrice := None |} ].
Proof.
  cbv zeta.
  assert (settled (Dhan.listPositions (dhan_client "" (num_of_Z 100)))
          = Normal dhan_positions) as H by reflexivity.
  assert (forall p, In p dhan_positions -> Dhan.Position.quantity p <> 0 ->
                    Boolean (Dhan.Position.securityId p) = true) as Hid.
  { intros p Hp _. cbn in Hp. destruct Hp as [<-|[<-|[]]]; reflexivity. }
  split; [exact H|]. split; [exact Hid|].
  rewrite (proj1 exitAllPositions_market_orders _ _ H Hid). reflexivity.
Defined.

(** C5 at the sample catalogs: the Dhan lookup of [NIFTY50] returns the
    instrument whose symbol is [Nifty50], the first entry that
    matches. *)
Lemma lookup_returns_first_match_run :
  let i := Dhan.Instrument.mk "Nifty50" (PStr "13") "NSE" (PNum 13) in
  let before := [ Dhan.Instrument.mk "RELIANCE" (PStr "2885") "NSE" (PNum 2885);
                  Dhan.Instrument.mk "RELIANCE" (PStr "500325") "BSE" (PNum 500325) ] in
  (forall y, In y before -> Dhan.matches (PStr "NIFTY50") y = false)
  /\ Dhan.matches (PStr "NIFTY50") i = true
  /\ Dhan.getInstrumentDetails (Some dhan_catalog) (PStr "NIFTY50") = Normal (Some i).
Proof.
  cbv zeta.
  assert (forall y,
             In y [ Dhan.Instrument.mk "RELIANCE" (PStr "2885") "NSE" (PNum 2885);
                    Dhan.Instrument.mk "RELIANCE" (PStr "500325") "BSE" (PNum 500325) ] ->
             Dhan.matches (PStr "NIFTY50") y = false) as Hb.
  { intros y Hy. cbn in Hy. destruct Hy as [<-|[<-|[]]]; reflexivity. }
  split; [exact Hb|]. split; [reflexivity|].
  exact (proj2 (proj2 (proj1 lookup_returns_first_match)) _ []
           (Dhan.Instrument.mk "Nifty50" (PStr "13") "NSE" (PNum 13)) _ Hb eq_refl).
Defined.

(* ===================================================================== *)
(** * Which requests a call can issue                                    *)
(* ===================================================================== *)

Lemma In_requests_await {Req A B : Type} (m : Async Req A) (k : A -> Async Req B)
    (r : Req) :
  In r (requests (await m k)) ->
  In r (requests m) \/ exists a, settled m = Normal a /\ In r (requests (k a)).
Proof.
  rewrite requests_await. destruct (settled m) as [a|e] eqn:H.
  - intros Hin. apply in_app_or in Hin. destruct Hin as [Hin|Hin]; [now left|].
    right. now exists a.
  - now left.
Qed.

Lemma In_requests_Promise_all {Req A : Type} (ps : list (Async Req A)) (r : Req) :
  In r (requests (Promise_all ps)) -> exists p, In p ps /\ In r (requests p).
Proof.
  rewrite Promise_all_requests. intros H. apply in_concat in H.
  destruct H as [t [Ht Hr]]. apply in_map_iff in Ht.
  destruct Ht as [p [<- Hp]]. now exists p.
Qed.

Lemma requests_resolve {Req A : Type} (a : A) (r : Req) :
  ~ In r (requests (@resolve Req A a)).
Proof. intros []. Qed.

(** A request of the stop-loss variant of the Dhan client is the
    position list, a quote, or the order [placeOrder] posts for the
    stop-loss exit of some position. *)
Lemma dhan_stop_loss_requests (c : Dhan.Client) (sl : option number)
    (body : Dhan.OrderRequest.t) :
  In (Dhan.POST_orders body) (requests (Dhan.exitAllPositionsAddStopLoss c sl)) ->
  exists p ltp id ex,
    Dhan.Position.quantity p <> 0
    /\ body = Dhan.orderRequest (Dhan.stopLossExit sl p ltp) id ex.
Proof.
  unfold Dhan.exitAllPositionsAddStopLoss. intros H.
  apply In_requests_await in H. destruct H as [H|[positions [_ H]]].
  { rewrite DhanFacts.dhan_listPositions_requests in H. destruct H as [H|[]]. discriminate. }
  apply In_requests_await in H. destruct H as [H|[results [_ H]]];
    [|now apply requests_resolve in H].
  rewrite filter_Boolean_all in H. apply In_requests_Promise_all in H.
  destruct H as [run [Hrun H]]. apply in_map_iff in Hrun.
  destruct Hrun as [p [<- _]]. unfold Dhan.stopLossCallback in H.
  destruct (Dhan.Position.quantity p =? 0) eqn:Hq;
    [now apply requests_resolve in H|].
  apply In_requests_await in H. destruct H as [H|[ltp [_ H]]].
  { destruct H as [H|[]]. discriminate. }
  apply In_requests_await in H. destruct H as [H|[placed [_ H]]];
    [|now apply requests_resolve in H].
  destruct (dhan_placeOrder_body c _ body H) as [id [ex ->]].
  exists p, ltp, id, ex. split; [now apply Z.eqb_neq | reflexivity].
Qed.

Lemma dhan_stopLossCallback_requests (c : Dhan.Client) (sl : option number)
    (p : Dhan.Position.t) (ltp : number) :
  Dhan.Position.quantity p <> 0 ->
  Boolean (Dhan.Position.securityId p) = true ->
  Dhan.quote_response (Dhan.broker c) (Dhan.Position.exchange p)
                      (Dhan.Position.securityId p) = Normal ltp ->
  requests (Dhan.stopLossCallback c sl p)
  = [ Dhan.GET_quotes (Dhan.Position.exchange p) (Dhan.Position.securityId p);
      Dhan.POST_orders (Dhan.orderRequest (Dhan.stopLossExit sl p ltp)
                          (Dhan.Position.securityId p)
                          (Some (Dhan.Position.exchange p))) ].
Proof.
  intros Hq Hid Hltp. unfold Dhan.stopLossCallback.
  apply Z.eqb_neq in Hq. rewrite Hq.
  rewrite requests_await. unfold Dhan._getLTP at 1 2 3, send.
  cbn [settled snd requests fst].
  rewrite Hltp. rewrite requests_await.
  destruct (DhanExit.dhan_placeOrder_direct c (Dhan.stopLossExit sl p ltp) Hid)
    as [Hr Hs].
  rewrite Hr. cbn [app]. now destruct (settled (Dhan.placeOrder c _)).
Qed.

Lemma dhan_exitAllPositionsAddStopLoss_issues (c : Dhan.Client) (sl : option number)
    (positions : list Dhan.Position.t) (p : Dhan.Position.t) (r : Dhan.Request) :
  settled (Dhan.listPositions c) = Normal positions ->
  In p positions ->
  In r (requests (Dhan.stopLossCallback c sl p)) ->
  In r (requests (Dhan.exitAllPositionsAddStopLoss c sl)).
Proof.
  intros H Hin Hr. unfold Dhan.exitAllPositionsAddStopLoss.
  rewrite requests_await, H. apply in_or_app. right.
  rewrite requests_await, filter_Boolean_all.
  assert (In r (requests (Promise_all (map (Dhan.stopLossCallback c sl) positions))))
    as Hall.
  { apply (Promise_all_issues _ (Dhan.stopLossCallback c sl p));
      [now apply in_map | exact Hr]. }
  destruct (settled (Promise_all _)); [apply in_or_app; now left | exact Hall].
Qed.

(** X1.  The stop-loss variant of the Dhan client never places a
    stop-loss order: it hands [placeOrder] the order type [SLM], which
    [_mapOrderType] does not know, so every order it posts is a MARKET
    order with neither trigger price nor price; and it does post one for
    each open position it can quote. *)
Theorem dhan_stop_loss_exit_places_market_orders
    (c : Dhan.Client) (slPercentage : option number) :
  (forall body,
      In (Dhan.POST_orders body)
         (requests (Dhan.exitAllPositionsAddStopLoss c slPercentage)) ->
      Dhan.OrderRequest.orderType body = VStr "MARKET"
      /\ Dhan.OrderRequest.triggerPrice body = None
      /\ Dhan.OrderRequest.price body = None)
  /\
  (forall positions p ltp,
      settled (Dhan.listPositions c) = Normal positions ->
      In p positions ->
      Dhan.Position.quantity p <> 0 ->
      Boolean (Dhan.Position.securityId p) = true ->
      Dhan.quote_response (Dhan.broker c) (Dhan.Position.exchange p)
                          (Dhan.Position.securityId p) = Normal ltp ->
      exists body,
        In (Dhan.POST_orders body)
           (requests (Dhan.exitAllPositionsAddStopLoss c slPercentage))
        /\ Dhan.OrderRequest.securityId body = Dhan.Position.securityId p
        /\ Dhan.OrderRequest.quantity body = Z.abs (Dhan.Position.quantity p)
        /\ Dhan.OrderRequest.transactionType body
           = (if Dhan.Position.quantity p >? 0 then "SELL" else "BUY")).
Proof.
  split.
  - intros body H.
    destruct (dhan_stop_loss_requests c slPercentage body H)
      as [p [ltp [id [ex [_ ->]]]]].
    apply dhan_stop_loss_exit_is_sent_as_market.
  - intros positions p ltp H Hin Hq Hid Hltp. eexists. split.
    + apply (dhan_exitAllPositionsAddStopLoss_issues c slPercentage positions p _ H Hin).
      rewrite (dhan_stopLossCallback_requests c slPercentage p ltp Hq Hid Hltp).
      right. left. reflexivity.
    + repeat split.
Qed.

Lemma dhan_stop_loss_exit_places_market_orders_run :
  let c := dhan_client "" (num_of_Z 100) in
  let p := Dhan.Position.mk (PStr "11536") "NSE" 10 (Some "INTRADAY") in
  settled (Dhan.listPositions c) = Normal dhan_positions
  /\ In p dhan_positions
  /\ exists body,
       In (Dhan.POST_orders body) (requests (Dhan.exitAllPositionsAddStopLoss c None))
       /\ Dhan.OrderRequest.transactionType body = "SELL"
       /\ Dhan.OrderRequest.orderType body = VStr "MARKET"
       /\ Dhan.OrderRequest.triggerPrice body = None.
Proof.
  cbv zeta.
  assert (settled (Dhan.listPositions (dhan_client "" (num_of_Z 100)))
          = Normal dhan_positions) as H by reflexivity.
  assert (In (Dhan.Position.mk (PStr "11536") "NSE" 10 (Some "INTRADAY"))
             dhan_positions) as Hin by (right; left; reflexivity).
  split; [exact H|]. split; [exact Hin|].
  destruct (proj2 (dhan_stop_loss_exit_places_market_orders
                     (dhan_client "" (num_of_Z 100)) None)
              dhan_positions _ (num_of_Z 100) H Hin ltac:(discriminate)
              eq_refl eq_refl) as [body [Hpost [_ [_ Hside]]]].
  exists body. split; [exact Hpost|]. split; [exact Hside|].
  destruct (proj1 (dhan_stop_loss_exit_places_market_orders
                     (dhan_client "" (num_of_Z 100)) None) body Hpost)
    as [Ht [Htr _]].
  split; assumption.
Defined.

(* ===================================================================== *)
(** * Stop-loss exits on the Zerodha client                              *)
(* ===================================================================== *)

Lemma zerodha_placeOrder_request (c : Zerodha.Client) (params : Zerodha.Params.t)
    (r : Zerodha.Request) :
  In r (requests (Zerodha.placeOrder c params)) ->
  exists ex sym,
    r = Zerodha.kite_placeOrder
          (Zerodha.OrderRequest.variety (Zerodha.orderRequest params ex sym))
          (Zerodha.orderRequest params ex sym).
Proof.
  unfold Zerodha.placeOrder. rewrite requests_await.
  destruct (Zerodha.resolveInstrument c params) as [[ex sym]|e];
    cbn [lift settled requests fst snd app]; [|contradiction].
  rewrite requests_await. cbn [send settled requests fst snd].
  intros H. exists ex, sym.
  destruct (Zerodha.place_response _ _ _); cbn [resolve fst app In] in H;
    destruct H as [H|H]; try contradiction; congruence.
Qed.

Lemma zerodha_stop_loss_requests (c : Zerodha.Client) (sl : option number)
    (variety : string) (body : Zerodha.OrderRequest.t) :
  In (Zerodha.kite_placeOrder variety body)
     (requests (Zerodha.exitAllPositionsAddStopLoss c sl)) ->
  exists p ltp ex sym,
    Zerodha.Position.quantity p <> 0
    /\ body = Zerodha.orderRequest (Zerodha.stopLossExit sl p ltp) ex sym
    /\ variety = "regular".
Proof.
  unfold Zerodha.exitAllPositionsAddStopLoss. intros H.
  apply In_requests_await in H. destruct H as [H|[positions [_ H]]].
  { destruct H as [H|[]]. discriminate. }
  apply In_requests_await in H. destruct H as [H|[results [_ H]]];
    [|now apply requests_resolve in H].
  rewrite filter_Boolean_all in H. apply In_requests_Promise_all in H.
  destruct H as [run [Hrun H]]. apply in_map_iff in Hrun.
  destruct Hrun as [p [<- _]]. unfold Zerodha.stopLossCallback in H.
  destruct (Zerodha.Position.quantity p =? 0) eqn:Hq;
    [now apply requests_resolve in H|].
  apply In_requests_await in H. destruct H as [H|[ltp [_ H]]].
  { destruct H as [H|[]]. discriminate. }
  apply In_requests_await in H. destruct H as [H|[placed [_ H]]];
    [|now apply requests_resolve in H].
  destruct (zerodha_placeOrder_request c _ _ H) as [ex [sym Heq]].
  injection Heq as -> ->.
  exists p, ltp, ex, sym. split; [now apply Z.eqb_neq|]. split; reflexivity.
Qed.

Lemma zerodha_stopLossCallback_requests (c : Zerodha.Client) (sl : option number)
    (p : Zerodha.Position.t) (ltp : number) :
  Zerodha.Position.quantity p <> 0 ->
  Boolean (Zerodha.Position.exchange p) = true ->
  Boolean (Zerodha.Position.tradingsymbol p) = true ->
  Zerodha.ltp_response (Zerodha.broker c)
    (Zerodha.Position.exchange p ++ ":"
       ++ to_string (Zerodha.Position.tradingsymbol p)) = Normal ltp ->
  requests (Zerodha.stopLossCallback c sl p)
  = [ Zerodha.getLTP (Zerodha.Position.exchange p ++ ":"
                        ++ to_string (Zerodha.Position.tradingsymbol p));
      Zerodha.kite_placeOrder "regular"
        (Zerodha.orderRequest (Zerodha.stopLossExit sl p ltp)
           (Some (Zerodha.Position.exchange p)) (Zerodha.Position.tradingsymbol p)) ].
Proof.
  intros Hq Hex Hsym Hltp. unfold Zerodha.stopLossCallback.
  apply Z.eqb_neq in Hq. rewrite Hq.
  rewrite requests_await. unfold Zerodha._getLTP at 1 2 3, send.
  cbn [settled snd requests fst].
  rewrite Hltp. rewrite requests_await.
  destruct (ZerodhaExit.zerodha_placeOrder_direct c (Zerodha.stopLossExit sl p ltp)
              Hex Hsym) as [Hr Hs].
  rewrite Hr. cbn [app]. now destruct (settled (Zerodha.placeOrder c _)).
Qed.

Lemma zerodha_exitAllPositionsAddStopLoss_issues (c : Zerodha.Client)
    (sl : option number) (positions : list Zerodha.Position.t)
    (p : Zerodha.Position.t) (r : Zerodha.Request) :
  settled (Zerodha.listPositions c) = Normal positions ->
  In p positions ->
  In r (requests (Zerodha.stopLossCallback c sl p)) ->
  In r (requests (Zerodha.exitAllPositionsAddStopLoss c sl)).
Proof.
  intros H Hin Hr. unfold Zerodha.exitAllPositionsAddStopLoss.
  rewrite requests_await, H. apply in_or_app. right.
  rewrite requests_await, filter_Boolean_all.
  assert (In r (requests (Promise_all (map (Zerodha.stopLossCallback c sl) positions))))
    as Hall.
  { apply (Promise_all_issues _ (Zerodha.stopLossCallback c sl p));
      [now apply in_map | exact Hr]. }
  destruct (settled (Promise_all _)); [apply in_or_app; now left | exact Hall].
Qed.

(** X2.  The stop-loss variant of the Zerodha client places real
    stop-loss orders: every order it sends is an SL-M order of variety
    regular without a price; for an open position it can quote, the
    order closes the position (SELL for a long one, BUY for a short one,
    for the absolute quantity) and its trigger price is
    [Math.round(x * 100) / 100] with x = LTP * (1 - sl/100) for the sell
    and LTP * (1 + sl/100) for the buy, where a missing or zero
    percentage counts as 1.  With a last traded price of 100 and no
    percentage the triggers are 99 and 101. *)
Theorem zerodha_stop_loss_exit_orders (c : Zerodha.Client) (slPercentage : option number) :
  (forall variety body,
      In (Zerodha.kite_placeOrder variety body)
         (requests (Zerodha.exitAllPositionsAddStopLoss c slPercentage)) ->
      variety = "regular"
      /\ Zerodha.OrderRequest.order_type body = VStr "SL-M"
      /\ Zerodha.OrderRequest.price body = None)
  /\
  (forall positions p ltp,
      settled (Zerodha.listPositions c) = Normal positions ->
      In p positions ->
      Zerodha.Position.quantity p <> 0 ->
      Boolean (Zerodha.Position.exchange p) = true ->
      Boolean (Zerodha.Position.tradingsymbol p) = true ->
      Zerodha.ltp_response (Zerodha.broker c)
        (Zerodha.Position.exchange p ++ ":"
           ++ to_string (Zerodha.Position.tradingsymbol p)) = Normal ltp ->
      let pct := num_div (or_else slPercentage (num_of_Z 1)) (num_of_Z 100) in
      let trigger :=
        Zerodha.round2
          (if Zerodha.Position.quantity p >? 0
           then num_mul ltp (num_sub (num_of_Z 1) pct)
           else num_mul ltp (num_add (num_of_Z 1) pct)) in
      exists body,
        In (Zerodha.kite_placeOrder "regular" body)
           (requests (Zerodha.exitAllPositionsAddStopLoss c slPercentage))
        /\ Zerodha.OrderRequest.tradingsymbol body = Zerodha.Position.tradingsymbol p
        /\ Zerodha.OrderRequest.transaction_type body
           = (if Zerodha.Position.quantity p >? 0 then "SELL" else "BUY")
        /\ Zerodha.OrderRequest.quantity body = Z.abs (Zerodha.Position.quantity p)
        /\ Zerodha.OrderRequest.trigger_price body
           = (if Boolean trigger then Some trigger else None))
  /\ or_else (Some (num_of_Z 0)) (num_of_Z 1) = num_of_Z 1
  /\ Zerodha.triggerPrice "SELL" (num_of_Z 100) (num_of_Z 1) = num_of_Z 99
  /\ Zerodha.triggerPrice "BUY" (num_of_Z 100) (num_of_Z 1) = num_of_Z 101.
Proof.
  split; [|split; [|split; [|split]]];
    [ | | vm_compute; reflexivity | vm_compute; reflexivity | vm_compute; reflexivity ].
  - intros variety body H.
    destruct (zerodha_stop_loss_requests c slPercentage variety body H)
      as [p [ltp [ex [sym [_ [-> ->]]]]]].
    repeat split.
  - intros positions p ltp H Hin Hq Hex Hsym Hltp pct trigger. eexists. split.
    + apply (zerodha_exitAllPositionsAddStopLoss_issues c slPercentage positions p _ H Hin).
      rewrite (zerodha_stopLossCallback_requests c slPercentage p ltp Hq Hex Hsym Hltp).
      right. left. reflexivity.
    + subst trigger pct.
      unfold Zerodha.orderRequest, Zerodha.stopLossExit, Zerodha.triggerPrice,
        Zerodha.oppositeTransactionType.
      cbn [Zerodha.OrderRequest.tradingsymbol Zerodha.OrderRequest.transaction_type
           Zerodha.OrderRequest.quantity Zerodha.OrderRequest.trigger_price
           Zerodha.Params.transactionType Zerodha.Params.orderType
           Zerodha.Params.quantity Zerodha.Params.triggerPrice].
      destruct (Zerodha.Position.quantity p >? 0); repeat split.
Qed.

Lemma zerodha_stop_loss_exit_orders_run :
  let c := zerodha_client (num_of_Z 100) in
  let p := Zerodha.Position.mk (PStr "INFY") "NSE" 10 (Some "MIS") in
  settled (Zerodha.listPositions c) = Normal zerodha_positions
  /\ In p zerodha_positions
  /\ exists body,
       In (Zerodha.kite_placeOrder "regular" body)
          (requests (Zerodha.exitAllPositionsAddStopLoss c None))
       /\ Zerodha.OrderRequest.transaction_type body = "SELL"
       /\ Zerodha.OrderRequest.order_type body = VStr "SL-M"
       /\ Zerodha.OrderRequest.trigger_price body = Some (num_of_Z 99).
Proof.
  cbv zeta.
  assert (settled (Zerodha.listPositions (zerodha_client (num_of_Z 100)))
          = Normal zerodha_positions) as H by reflexivity.
  assert (In (Zerodha.Position.mk (PStr "INFY") "NSE" 10 (Some "MIS"))
             zerodha_positions) as Hin by (right; left; reflexivity).
  split; [exact H|]. split; [exact Hin|].
  destruct (proj1 (proj2 (zerodha_stop_loss_exit_orders
                            (zerodha_client (num_of_Z 100)) None))
              zerodha_positions _ (num_of_Z 100) H Hin ltac:(discriminate)
              eq_refl eq_refl eq_refl) as [body [Hpost [_ [Hside [_ Htrig]]]]].
  exists body. split; [exact Hpost|]. split; [exact Hside|].
  destruct (proj1 (zerodha_stop_loss_exit_orders (zerodha_client (num_of_Z 100)) None)
              "regular" body Hpost) as [_ [Ht _]].
  split; [exact Ht|]. rewrite Htrig. vm_compute. reflexivity.
Defined.

(* ===================================================================== *)
(** * Limit exits: short positions and failed quotes                     *)
(* ===================================================================== *)

(** X3.  For a short position (quantity < 0) the limit variant places a
    BUY LIMIT order for the absolute quantity, priced at
    [Math.round(x * 100) / 100] with x = LTP * (1 - priceOffset/100) on
    the Dhan client and x = LTP * (1 + priceOffset/100) on the Zerodha
    client; with a last traded price of 100 and an offset of 0.5 that is
    99.50 on Dhan and 100.50 on Zerodha. *)
Theorem exitAllPositionsLimit_buy_price :
  (forall (c : Dhan.Client) (priceOffset : option number)
          (positions : list Dhan.Position.t) (p : Dhan.Position.t) (ltp : number),
      settled (Dhan.listPositions c) = Normal positions ->
      In p positions ->
      Dhan.Position.quantity p < 0 ->
      Boolean (Dhan.Position.securityId p) = true ->
      Dhan.quote_response (Dhan.broker c) (Dhan.Position.exchange p)
                          (Dhan.Position.securityId p) = Normal ltp ->
      let price :=
        Dhan.round2
          (num_mul ltp
             (num_sub (num_of_Z 1)
                (num_div (or_else priceOffset (num_of_Z 0)) (num_of_Z 100)))) in
      exists body,
        In (Dhan.POST_orders body) (requests (Dhan.exitAllPositionsLimit c priceOffset))
        /\ Dhan.OrderRequest.securityId body = Dhan.Position.securityId p
        /\ Dhan.OrderRequest.transactionType body = "BUY"
        /\ Dhan.OrderRequest.orderType body = VStr "LIMIT"
        /\ Dhan.OrderRequest.quantity body = - Dhan.Position.quantity p
        /\ Dhan.OrderRequest.price body = (if Boolean price then Some price else None))
  /\
  (forall (c : Zerodha.Client) (priceOffset : option number)
          (positions : list Zerodha.Position.t) (p : Zerodha.Position.t) (ltp : number),
      settled (Zerodha.listPositions c) = Normal positions ->
      In p positions ->
      Zerodha.Position.quantity p < 0 ->
      Boolean (Zerodha.Position.exchange p) = true ->
      Boolean (Zerodha.Position.tradingsymbol p) = true ->
      Zerodha.ltp_response (Zerodha.broker c)
        (Zerodha.Position.exchange p ++ ":"
           ++ to_string (Zerodha.Position.tradingsymbol p)) = Normal ltp ->
      let price :=
        Zerodha.round2
          (num_mul ltp
             (num_add (num_of_Z 1)
                (num_div (or_else priceOffset (num_of_Z 0)) (num_of_Z 100)))) in
      exists body,
        In (Zerodha.kite_placeOrder "regular" body)
           (requests (Zerodha.exitAllPositionsLimit c priceOffset))
        /\ Zerodha.OrderRequest.tradingsymbol body = Zerodha.Position.tradingsymbol p
        /\ Zerodha.OrderRequest.transaction_type body = "BUY"
        /\ Zerodha.OrderRequest.order_type body = VStr "LIMIT"
        /\ Zerodha.OrderRequest.quantity body = - Zerodha.Position.quantity p
        /\ Zerodha.OrderRequest.price body = (if Boolean price then Some price else None))
  /\ Dhan.limitPrice "BUY" (num_of_Z 100) (decimal 5 10) = decimal 9950 100
  /\ Zerodha.limitPrice "BUY" (num_of_Z 100) (decimal 5 10) = decimal 10050 100.
Proof.
  split; [|split; [|split; vm_compute; reflexivity]].
  - intros c off positions p ltp H Hin Hq Hid Hltp price.
    eexists. split.
    + apply (DhanExit.dhan_exitAllPositionsLimit_issues c off positions p _ H Hin).
      rewrite (DhanExit.dhan_limitCallback_requests c off p ltp);
        [|lia|exact Hid|exact Hltp].
      right. left. reflexivity.
    + assert (Dhan.oppositeTransactionType (Dhan.Position.quantity p) = "BUY") as Hbuy.
      { unfold Dhan.oppositeTransactionType.
        now destruct (Z.gtb_spec (Dhan.Position.quantity p) 0); [lia|]. }
      unfold Dhan.orderRequest, Dhan.limitExit. cbn [Dhan.OrderRequest.securityId
        Dhan.OrderRequest.transactionType Dhan.OrderRequest.orderType
        Dhan.OrderRequest.quantity Dhan.OrderRequest.price
        Dhan.Params.transactionType Dhan.Params.orderType Dhan.Params.quantity
        Dhan.Params.price].
      rewrite Hbuy. repeat split. apply Z.abs_neq. lia.
  - intros c off positions p ltp H Hin Hq Hex Hsym Hltp price.
    eexists. split.
    + apply (ZerodhaExit.zerodha_exitAllPositionsLimit_issues c off positions p _ H Hin).
      rewrite (ZerodhaExit.zerodha_limitCallback_requests c off p ltp);
        [|lia|exact Hex|exact Hsym|exact Hltp].
      right. left. reflexivity.
    + assert (Zerodha.oppositeTransactionType (Zerodha.Position.quantity p) = "BUY")
        as Hbuy.
      { unfold Zerodha.oppositeTransactionType.
        now destruct (Z.gtb_spec (Zerodha.Position.quantity p) 0); [lia|]. }
      unfold Zerodha.orderRequest, Zerodha.limitExit.
      cbn [Zerodha.OrderRequest.tradingsymbol
        Zerodha.OrderRequest.transaction_type Zerodha.OrderRequest.order_type
        Zerodha.OrderRequest.quantity Zerodha.OrderRequest.price
        Zerodha.Params.transactionType Zerodha.Params.orderType Zerodha.Params.quantity
        Zerodha.Params.price].
      rewrite Hbuy. repeat split. apply Z.abs_neq. lia.
Qed.

Lemma exitAllPositionsLimit_buy_price_run :
  let p := Dhan.Position.mk (PStr "1333") "NSE" (-5) (Some "INTRADAY") in
  Dhan.Position.quantity p < 0
  /\ exists body,
       In (Dhan.POST_orders body)
          (requests (Dhan.exitAllPositionsLimit dhan_short_client (Some (decimal 5 10))))
       /\ Dhan.OrderRequest.transactionType body = "BUY"
       /\ Dhan.OrderRequest.quantity body = 5
       /\ Dhan.OrderRequest.price body = Some (decimal 9950 100).
Proof.
  cbv zeta. split; [reflexivity|].
  destruct (proj1 exitAllPositionsLimit_buy_price dhan_short_client
              (Some (decimal 5 10)) _
              (Dhan.Position.mk (PStr "1333") "NSE" (-5) (Some "INTRADAY"))
              (num_of_Z 100) eq_refl (or_introl eq_refl) eq_refl eq_refl eq_refl)
    as [body [Hpost [_ [Hside [_ [Hq Hprice]]]]]].
  exists body. split; [exact Hpost|]. split; [exact Hside|]. split; [exact Hq|].
  rewrite Hprice. vm_compute. reflexivity.
Defined.

Lemma dhan_limitCallback_quote_fails (c : Dhan.Client) (off : option number)
    (p : Dhan.Position.t) (e : Error) :
  Dhan.Position.quantity p <> 0 ->
  Dhan.quote_response (Dhan.broker c) (Dhan.Position.exchange p)
                      (Dhan.Position.securityId p) = Throw e ->
  Dhan.limitCallback c off p
  = ([Dhan.GET_quotes (Dhan.Position.exchange p) (Dhan.Position.securityId p)],
     Throw e).
Proof.
  intros Hq He. unfold Dhan.limitCallback, Dhan._getLTP, send.
  apply Z.eqb_neq in Hq. now rewrite Hq, He.
Qed.

(** X4.  When the quote of one open position fails, the limit variant
    of the Dhan client places no order for that position and the whole
    call is rejected, so no report is returned; the orders of the
    positions whose quote arrives are placed all the same. *)
Theorem exitAllPositionsLimit_failed_quote
    (c : Dhan.Client) (priceOffset : option number)
    (positions : list Dhan.Position.t) (p : Dhan.Position.t) (e : Error) :
  settled (Dhan.listPositions c) = Normal positions ->
  In p positions ->
  Dhan.Position.quantity p <> 0 ->
  Dhan.quote_response (Dhan.broker c) (Dhan.Position.exchange p)
                      (Dhan.Position.securityId p) = Throw e ->
  requests (Dhan.limitCallback c priceOffset p)
  = [Dhan.GET_quotes (Dhan.Position.exchange p) (Dhan.Position.securityId p)]
  /\ (exists e', settled (Dhan.exitAllPositionsLimit c priceOffset) = Throw e')
  /\ (forall q ltp,
         In q positions ->
         Dhan.Position.quantity q <> 0 ->
         Boolean (Dhan.Position.securityId q) = true ->
         Dhan.quote_response (Dhan.broker c) (Dhan.Position.exchange q)
                             (Dhan.Position.securityId q) = Normal ltp ->
         In (Dhan.POST_orders
               (Dhan.orderRequest (Dhan.limitExit priceOffset q ltp)
                  (Dhan.Position.securityId q) (Some (Dhan.Position.exchange q))))
            (requests (Dhan.exitAllPositionsLimit c priceOffset))).
Proof.
  intros H Hin Hq He. split; [|split].
  - now rewrite (dhan_limitCallback_quote_fails c priceOffset p e Hq He).
  - unfold Dhan.exitAllPositionsLimit.
    rewrite settled_await, H, settled_await, Promise_all_settled, filter_Boolean_all.
    destruct (all_values_Throw
                (map settled (map (Dhan.limitCallback c priceOffset) positions)) e)
      as [e' ->]; [|now exists e'].
    rewrite map_map. apply in_map_iff. exists p. split; [|exact Hin].
    now rewrite (dhan_limitCallback_quote_fails c priceOffset p e Hq He).
  - intros q ltp Hinq Hqq Hid Hltp.
    apply (DhanExit.dhan_exitAllPositionsLimit_issues c priceOffset positions q _ H Hinq).
    rewrite (DhanExit.dhan_limitCallback_requests c priceOffset q ltp Hqq Hid Hltp).
    right. left. reflexivity.
Qed.

Lemma exitAllPositionsLimit_failed_quote_run :
  let failing := Dhan.Position.mk (PStr "2885") "NSE" 7 (Some "INTRADAY") in
  let quoted := Dhan.Position.mk (PStr "1333") "NSE" (-5) (Some "INTRADAY") in
  requests (Dhan.limitCallback dhan_short_client None failing)
  = [Dhan.GET_quotes "NSE" (PStr "2885")]
  /\ (exists e', settled (Dhan.exitAllPositionsLimit dhan_short_client None) = Throw e')
  /\ In (Dhan.POST_orders
           (Dhan.orderRequest (Dhan.limitExit None quoted (num_of_Z 100))
              (PStr "1333") (Some "NSE")))
        (requests (Dhan.exitAllPositionsLimit dhan_short_client None)).
Proof.
  cbv zeta.
  destruct (exitAllPositionsLimit_failed_quote dhan_short_client None _
              (Dhan.Position.mk (PStr "2885") "NSE" 7 (Some "INTRADAY"))
              "Request failed with status code 429"
              eq_refl (or_intror (or_introl eq_refl)) ltac:(discriminate) eq_refl)
    as [Hreq [Hrej Hothers]].
  split; [exact Hreq|]. split; [exact Hrej|].
  apply (Hothers (Dhan.Position.mk (PStr "1333") "NSE" (-5) (Some "INTRADAY"))
                 (num_of_Z 100) (or_introl eq_refl));
    [discriminate | reflexivity | reflexivity].
Defined.

(* ===================================================================== *)
(** * Instrument resolution in placeOrder                                *)
(* ===================================================================== *)

(** X5.  An order whose instrument cannot be resolved is never sent.
    The Dhan client resolves when no security id is given, the Zerodha
    client when the exchange or the symbol is missing, the Upstox client
    always.  With the catalog not loaded the call is rejected with
    "Instruments cache not loaded", and with no catalog entry matching
    the symbol with "Instrument not found: <symbol>"; in both cases no
    request goes out. *)
Theorem placeOrder_unresolved_sends_nothing :
  (forall (c : Dhan.Client) (params : Dhan.Params.t),
      Boolean (Dhan.Params.securityId params) = false ->
      (Dhan.instrumentsCache c = None ->
       Dhan.placeOrder c params = ([], Throw "Instruments cache not loaded"))
      /\ (forall catalog,
             Dhan.instrumentsCache c = Some catalog ->
             (forall i, In i catalog ->
                        Dhan.matches (Dhan.Params.symbolName params) i = false) ->
             Dhan.placeOrder c params
             = ([], Throw ("Instrument not found: "
                             ++ to_string (Dhan.Params.symbolName params)))))
  /\
  (forall (c : Zerodha.Client) (params : Zerodha.Params.t),
      Boolean (Zerodha.Params.exchange params) = false
      \/ Boolean (Zerodha.Params.symbolName params) = false ->
      (Zerodha.instrumentsCache c = None ->
       Zerodha.placeOrder c params = ([], Throw "Instruments cache not loaded"))
      /\ (forall catalog,
             Zerodha.instrumentsCache c = Some catalog ->
             (forall i, In i catalog ->
                        Zerodha.matches (Zerodha.Params.symbolName params) i = false) ->
             Zerodha.placeOrder c params
             = ([], Throw ("Instrument not found: "
                             ++ to_string (Zerodha.Params.symbolName params)))))
  /\
  (forall (c : Upstox.Client) (params : Upstox.Params.t),
      (Upstox.instrumentsCache c = None ->
       Upstox.placeOrder c params = ([], Throw "Instruments cache not loaded"))
      /\ (forall catalog,
             Upstox.instrumentsCache c = Some catalog ->
             (forall i, In i catalog ->
                        Upstox.matches (Upstox.Params.symbolName params) i = false) ->
             Upstox.placeOrder c params
             = ([], Throw ("Instrument not found: "
                             ++ to_string (Upstox.Params.symbolName params))))).
Proof.
  split; [|split].
  - intros c params Hid. split.
    + intros Hc. unfold Dhan.placeOrder, Dhan.resolveInstrument.
      now rewrite Hid, Hc.
    + intros catalog Hc Hnone. unfold Dhan.placeOrder, Dhan.resolveInstrument.
      rewrite Hid, Hc. cbn [negb Dhan.getInstrumentDetails].
      now rewrite (find_no_match _ _ Hnone).
  - intros c params Hmiss.
    assert ((negb (Boolean (Zerodha.Params.exchange params))
             || negb (Boolean (Zerodha.Params.symbolName params)))%bool = true) as Hif.
    { destruct Hmiss as [-> | ->]; [reflexivity | apply orb_true_r]. }
    split.
    + intros Hc. unfold Zerodha.placeOrder, Zerodha.resolveInstrument.
      now rewrite Hif, Hc.
    + intros catalog Hc Hnone. unfold Zerodha.placeOrder, Zerodha.resolveInstrument.
      rewrite Hif, Hc. cbn [Zerodha.getInstrumentDetails].
      now rewrite (find_no_match _ _ Hnone).
  - intros c params. split.
    + intros Hc. unfold Upstox.placeOrder, Upstox.resolveInstrument.
      now rewrite Hc.
    + intros catalog Hc Hnone. unfold Upstox.placeOrder, Upstox.resolveInstrument.
      rewrite Hc. cbn [Upstox.getInstrumentDetails].
      now rewrite (find_no_match _ _ Hnone).
Qed.

Lemma placeOrder_unresolved_sends_nothing_run :
  let params := upstox_order "MARKET" None None in
  let c := {| Upstox.instrumentsCache := None;
              Upstox.place_response := fun _ => Normal "240101000000001" |} in
  Upstox.instrumentsCache c = None
  /\ Upstox.placeOrder c params = ([], Throw "Instruments cache not loaded").
Proof.
  cbv zeta. split; [reflexivity|].
  exact (proj1 (proj2 (proj2 placeOrder_unresolved_sends_nothing)
                  {| Upstox.instrumentsCache := None;
                     Upstox.place_response := fun _ => Normal "240101000000001" |}
                  (upstox_order "MARKET" None None)) eq_refl).
Defined.

(** X6.  When [placeOrder] resolves the instrument from the catalog, the
    request is made out to the first catalog entry that matches the
    symbol.  On the Dhan client it carries that entry's security id and
    exchange, whatever exchange the caller gave; on the Zerodha client
    that entry's exchange and symbol; on the Upstox client that entry's
    instrument token, and the caller's exchange when one is given, the
    entry's otherwise. *)
Theorem placeOrder_resolves_from_catalog :
  (forall (c : Dhan.Client) (params : Dhan.Params.t) before i after,
      Boolean (Dhan.Params.securityId params) = false ->
      Dhan.instrumentsCache c = Some (before ++ i :: after)%list ->
      (forall y, In y before -> Dhan.matches (Dhan.Params.symbolName params) y = false) ->
      Dhan.matches (Dhan.Params.symbolName params) i = true ->
      exists body,
        requests (Dhan.placeOrder c params) = [Dhan.POST_orders body]
        /\ Dhan.OrderRequest.securityId body = Dhan.Instrument.securityId i
        /\ Dhan.OrderRequest.exchange body = Some (Dhan.Instrument.exchange i))
  /\
  (forall (c : Zerodha.Client) (params : Zerodha.Params.t) before i after,
      Boolean (Zerodha.Params.exchange params) = false
      \/ Boolean (Zerodha.Params.symbolName params) = false ->
      Zerodha.instrumentsCache c = Some (before ++ i :: after)%list ->
      (forall y, In y before ->
                 Zerodha.matches (Zerodha.Params.symbolName params) y = false) ->
      Zerodha.matches (Zerodha.Params.symbolName params) i = true ->
      exists variety body,
        requests (Zerodha.placeOrder c params) = [Zerodha.kite_placeOrder variety body]
        /\ Zerodha.OrderRequest.tradingsymbol body = Zerodha.Instrument.tradingsymbol i
        /\ Zerodha.OrderRequest.exchange body = Some (Zerodha.Instrument.exchange i))
  /\
  (forall (c : Upstox.Client) (params : Upstox.Params.t) before i after,
      Upstox.instrumentsCache c = Some (before ++ i :: after)%list ->
      (forall y, In y before ->
                 Upstox.matches (Upstox.Params.symbolName params) y = false) ->
      Upstox.matches (Upstox.Params.symbolName params) i = true ->
      exists body,
        requests (Upstox.placeOrder c params) = [Upstox.POST_order_place body]
        /\ Upstox.OrderRequest.instrument_token body = Upstox.Instrument.instrument_token i
        /\ Upstox.OrderRequest.exchange body
           = or_else (Upstox.Params.exchange params) (Upstox.Instrument.exchange i)).
Proof.
  split; [|split].
  - intros c params before i after Hid Hc Hb Hm.
    eexists. split; [|split].
    + unfold Dhan.placeOrder, Dhan.resolveInstrument.
      rewrite Hid, Hc. cbn [negb Dhan.getInstrumentDetails].
      rewrite (find_first _ before after i Hb Hm).
      cbn [lift await fst snd app send].
      now destruct (Dhan.place_response _ _).
    + reflexivity.
    + reflexivity.
  - intros c params before i after Hmiss Hc Hb Hm.
    assert ((negb (Boolean (Zerodha.Params.exchange params))
             || negb (Boolean (Zerodha.Params.symbolName params)))%bool = true) as Hif.
    { destruct Hmiss as [-> | ->]; [reflexivity | apply orb_true_r]. }
    eexists. eexists. split; [|split].
    + unfold Zerodha.placeOrder, Zerodha.resolveInstrument.
      rewrite Hif, Hc. cbn [Zerodha.getInstrumentDetails].
      rewrite (find_first _ before after i Hb Hm).
      cbn [lift await fst snd app send].
      now destruct (Zerodha.place_response _ _ _).
    + reflexivity.
    + reflexivity.
  - intros c params before i after Hc Hb Hm.
    eexists. split; [|split].
    + unfold Upstox.placeOrder, Upstox.resolveInstrument.
      rewrite Hc. cbn [Upstox.getInstrumentDetails].
      now rewrite (find_first _ before after i Hb Hm).
    + reflexivity.
    + reflexivity.
Qed.

Lemma placeOrder_resolves_from_catalog_run :
  let params := dhan_order_by_symbol "reliance" (Some "BSE") in
  Boolean (Dhan.Params.securityId params) = false
  /\ exists body,
       requests (Dhan.placeOrder dhan_catalog_client params) = [Dhan.POST_orders body]
       /\ Dhan.OrderRequest.securityId body = PStr "2885"
       /\ Dhan.OrderRequest.exchange body = Some "NSE".
Proof.
  cbv zeta. split; [reflexivity|].
  exact (proj1 placeOrder_resolves_from_catalog dhan_catalog_client
           (dhan_order_by_symbol "reliance" (Some "BSE")) []
           (Dhan.Instrument.mk "RELIANCE" (PStr "2885") "NSE" (PNum 2885))
           [ Dhan.Instrument.mk "RELIANCE" (PStr "500325") "BSE" (PNum 500325);
             Dhan.Instrument.mk "Nifty50" (PStr "13") "NSE" (PNum 13) ]
           eq_refl eq_refl (fun y (H : In y []) => match H with end) eq_refl).
Defined.

(** X7.  [placeOrder] sends at most one request and never retries.  It
    is fulfilled only if it has posted exactly one order and the broker
    has accepted it, the result then carrying the broker's order id; and
    when the broker refuses the order that was posted, the call is
    rejected with the broker's error as it came. *)
Theorem placeOrder_posts_at_most_once :
  (forall (c : Dhan.Client) (params : Dhan.Params.t),
      (List.length (requests (Dhan.placeOrder c params)) <= 1)%nat
      /\ (forall result,
             settled (Dhan.placeOrder c params) = Normal result ->
             exists body,
               requests (Dhan.placeOrder c params) = [Dhan.POST_orders body]
               /\ Dhan.place_response (Dhan.broker c) body
                  = Normal (OrderResult.orderId result)
               /\ OrderResult.status result = "success")
      /\ (forall body e,
             In (Dhan.POST_orders body) (requests (Dhan.placeOrder c params)) ->
             Dhan.place_response (Dhan.broker c) body = Throw e ->
             settled (Dhan.placeOrder c params) = Throw e))
  /\
  (forall (c : Zerodha.Client) (params : Zerodha.Params.t),
      (List.length (requests (Zerodha.placeOrder c params)) <= 1)%nat
      /\ (forall result,
             settled (Zerodha.placeOrder c params) = Normal result ->
             exists variety body,
               requests (Zerodha.placeOrder c params)
               = [Zerodha.kite_placeOrder variety body]
               /\ Zerodha.place_response (Zerodha.broker c) variety body
                  = Normal (OrderResult.orderId result)
               /\ OrderResult.status result = "success")
      /\ (forall variety body e,
             In (Zerodha.kite_placeOrder variety body)
                (requests (Zerodha.placeOrder c params)) ->
             Zerodha.place_response (Zerodha.broker c) variety body = Throw e ->
             settled (Zerodha.placeOrder c params) = Throw e))
  /\
  (forall (c : Upstox.Client) (params : Upstox.Params.t),
      (List.length (requests (Upstox.placeOrder c params)) <= 1)%nat
      /\ (forall data,
             settled (Upstox.placeOrder c params) = Normal data ->
             exists body,
               requests (Upstox.placeOrder c params) = [Upstox.POST_order_place body]
               /\ Upstox.place_response c body = Normal data)
      /\ (forall body e,
             In (Upstox.POST_order_place body) (requests (Upstox.placeOrder c params)) ->
             Upstox.place_response c body = Throw e ->
             settled (Upstox.placeOrder c params) = Throw e)).
Proof.
  split; [|split].
  - intros c params. unfold Dhan.placeOrder.
    destruct (Dhan.resolveInstrument c params) as [[id ex]|e0];
      cbn [lift await fst snd app send requests settled].
    + destruct (Dhan.place_response (Dhan.broker c) (Dhan.orderRequest params id ex))
        as [orderId|e1] eqn:Hp; cbn [resolve fst snd app List.length requests settled].
      * split; [cbn; lia|]. split.
        -- intros result Hr. injection Hr as <-. eexists. split; [reflexivity|].
           split; [exact Hp | reflexivity].
        -- intros body e [Hb|[]] He. injection Hb as <-. congruence.
      * split; [cbn; lia|]. split; [discriminate|].
        intros body e [Hb|[]] He. injection Hb as <-. congruence.
    + split; [cbn; lia|]. split; [discriminate | intros body e []].
  - intros c params. unfold Zerodha.placeOrder.
    destruct (Zerodha.resolveInstrument c params) as [[ex sym]|e0];
      cbn [lift await fst snd app send requests settled].
    + destruct (Zerodha.place_response (Zerodha.broker c)
                  (Zerodha.OrderRequest.variety (Zerodha.orderRequest params ex sym))
                  (Zerodha.orderRequest params ex sym))
        as [orderId|e1] eqn:Hp; cbn [resolve fst snd app List.length requests settled].
      * split; [cbn; lia|]. split.
        -- intros result Hr. injection Hr as <-. eexists. eexists.
           split; [reflexivity|]. split; [exact Hp | reflexivity].
        -- intros variety body e [Hb|[]] He. injection Hb as <- <-.
           discriminate (eq_trans (eq_sym Hp) He).
      * split; [cbn; lia|]. split; [discriminate|].
        intros variety body e [Hb|[]] He. injection Hb as <- <-.
        f_equal. exact (f_equal (fun r => match r with Throw x => x | Normal _ => e end)
                          (eq_trans (eq_sym Hp) He)).
    + split; [cbn; lia|]. split; [discriminate | intros variety body e []].
  - intros c params. unfold Upstox.placeOrder.
    destruct (Upstox.resolveInstrument c params) as [instrument|e0];
      cbn [lift await fst snd app send requests settled List.length].
    + split; [cbn; lia|]. split.
      * intros data Hr. eexists. split; [reflexivity | exact Hr].
      * intros body e [Hb|[]] He. injection Hb as <-. exact He.
    + split; [cbn; lia|]. split; [discriminate | intros body e []].
Qed.

Lemma placeOrder_posts_at_most_once_run :
  let c := dhan_client "" (num_of_Z 100) in
  let params := dhan_order "MARKET" None None in
  settled (Dhan.placeOrder c params)
  = Normal (OrderResult.mk "7001" "success" "Order placed successfully")
  /\ exists body,
       requests (Dhan.placeOrder c params) = [Dhan.POST_orders body]
       /\ Dhan.place_response (Dhan.broker c) body = Normal "7001".
Proof.
  cbv zeta.
  assert (settled (Dhan.placeOrder (dhan_client "" (num_of_Z 100))
                     (dhan_order "MARKET" None None))
          = Normal (OrderResult.mk "7001" "success" "Order placed successfully"))
    as H by reflexivity.
  split; [exact H|].
  destruct (proj1 (proj2 (proj1 placeOrder_posts_at_most_once _ _)) _ H)
    as [body [Hreq [Hresp _]]].
  exists body. split; [exact Hreq | exact Hresp].
Defined.

(** X8.  The Upstox lookup compares every field with [===], and
    [undefined === undefined] holds: a key that is [undefined] matches
    every instrument that lacks one of the three fields.  So an order
    placed without a symbol is not refused but made out to the first
    catalog entry with a missing field, whereas the Dhan and the Zerodha
    lookup never match an [undefined] key. *)
Theorem upstox_order_without_symbol_is_sent :
  (forall i : Upstox.Instrument.t,
      Upstox.matches PUndef i = true
      <-> (Upstox.Instrument.tradingsymbol i = PUndef
           \/ Upstox.Instrument.instrument_token i = PUndef
           \/ Upstox.Instrument.instrument_key i = PUndef))
  /\ (forall (c : Upstox.Client) (params : Upstox.Params.t) before i after,
         Upstox.Params.symbolName params = PUndef ->
         Upstox.instrumentsCache c = Some (before ++ i :: after)%list ->
         (forall y, In y before ->
                    Upstox.Instrument.tradingsymbol y <> PUndef
                    /\ Upstox.Instrument.instrument_token y <> PUndef
                    /\ Upstox.Instrument.instrument_key y <> PUndef) ->
         Upstox.Instrument.tradingsymbol i = PUndef
         \/ Upstox.Instrument.instrument_token i = PUndef
         \/ Upstox.Instrument.instrument_key i = PUndef ->
         requests (Upstox.placeOrder c params)
         = [Upstox.POST_order_place (Upstox.orderRequest params i)])
  /\ (forall catalog, Dhan.getInstrumentDetails (Some catalog) PUndef = Normal None)
  /\ (forall catalog, Zerodha.getInstrumentDetails (Some catalog) PUndef = Normal None).
Proof.
  split; [intros i; apply upstox_matches_exact|]. split; [|split].
  - intros c params before i after Hsym Hc Hb Hi.
    unfold Upstox.placeOrder, Upstox.resolveInstrument.
    rewrite Hc, Hsym. cbn [Upstox.getInstrumentDetails].
    rewrite (find_first (Upstox.matches PUndef) before after i).
    + reflexivity.
    + intros y Hy. apply not_true_is_false. rewrite upstox_matches_exact.
      destruct (Hb y Hy) as [H1 [H2 H3]]. tauto.
    + now apply upstox_matches_exact.
  - intros catalog. cbn [Dhan.getInstrumentDetails]. now rewrite find_no_match.
  - intros catalog. cbn [Zerodha.getInstrumentDetails]. now rewrite find_no_match.
Qed.

Lemma upstox_order_without_symbol_is_sent_run :
  let c := {| Upstox.instrumentsCache := Some upstox_partial_catalog;
              Upstox.place_response := fun _ => Normal "240101000000002" |} in
  Upstox.Params.symbolName upstox_order_without_symbol = PUndef
  /\ exists body,
       requests (Upstox.placeOrder c upstox_order_without_symbol)
       = [Upstox.POST_order_place body]
       /\ Upstox.OrderRequest.instrument_token body = PNum 3045
       /\ Upstox.OrderRequest.quantity body = 100.
Proof.
  cbv zeta. split; [reflexivity|]. eexists. split.
  - exact (proj1 (proj2 upstox_order_without_symbol_is_sent)
             {| Upstox.instrumentsCache := Some upstox_partial_catalog;
                Upstox.place_response := fun _ => Normal "240101000000002" |}
             upstox_order_without_symbol []
             (Upstox.Instrument.mk (PStr "SBIN") (PNum 3045) PUndef "NSE")
             [ Upstox.Instrument.mk (PStr "INFY") (PNum 1594)
                 (PStr "NSE_EQ|INE009A01021") "NSE" ]
             eq_refl eq_refl (fun y (H : In y []) => match H with end)
             (or_intror (or_intror eq_refl))).
  - split; reflexivity.
Defined.

(* ===================================================================== *)
(** * What a lookup can return                                           *)
(* ===================================================================== *)

Section Find.
Context {I : Type}.
Variable matching : I -> bool.

Lemma find_sound (catalog : list I) (i : I) :
  find matching catalog = Some i -> In i catalog /\ matching i = true.
Proof. apply find_some. Qed.

Lemma find_misses_iff (catalog : list I) :
  find matching catalog = None <-> forall i, In i catalog -> matching i = false.
Proof.
  split; [apply List.find_none | apply find_no_match].
Qed.

End Find.

Lemma dhan_matches_meaning (key : prim) (i : Dhan.Instrument.t) :
  Dhan.matches key i = true
  <-> match key with
      | PStr k => toUpperCase (Dhan.Instrument.tradingSymbol i) = toUpperCase k
                  \/ Dhan.Instrument.securityId i = PStr k
      | PNum n => Dhan.Instrument.exchangeToken i = PNum n
      | PUndef => False
      end.
Proof.
  destruct key as [|k|n]; cbn [Dhan.matches].
  - split; [discriminate | contradiction].
  - rewrite !orb_true_iff, !String.eqb_eq. split.
    + intros [[H|H]|H]; [left; now rewrite H | now left | right; now apply strict_eq_eq].
    + intros [H|H]; [left; now right | right; rewrite H; apply strict_eq_refl].
  - split; [apply strict_eq_eq | intros ->; apply strict_eq_refl].
Qed.

Section Scan.
Variable key : prim.

Lemma scan_sound (catalog : list DhanScan.Entry.t) (e : DhanScan.Entry.t) :
  DhanScan.find key catalog = Normal (Some e) ->
  In e catalog /\ DhanScan.matches key e = Normal true.
Proof.
  induction catalog as [|i l IH]; cbn [DhanScan.find]; [discriminate|].
  destruct (DhanScan.matches key i) as [[|]|err] eqn:Hm; intros H.
  - injection H as <-. split; [now left | exact Hm].
  - destruct (IH H) as [Hin He]. split; [now right | exact He].
  - discriminate.
Qed.

Lemma scan_misses_iff (catalog : list DhanScan.Entry.t) :
  DhanScan.find key catalog = Normal None
  <-> forall e, In e catalog -> DhanScan.matches key e = Normal false.
Proof.
  induction catalog as [|i l IH]; cbn [DhanScan.find].
  - split; [intros _ e [] | reflexivity].
  - destruct (DhanScan.matches key i) as [[|]|err] eqn:Hm.
    + split; [discriminate|]. intros H.
      specialize (H i (or_introl eq_refl)). congruence.
    + rewrite IH. split.
      * intros H e [<-|He]; [exact Hm | now apply H].
      * intros H e He. apply H. now right.
    + split; [discriminate|]. intros H.
      specialize (H i (or_introl eq_refl)). congruence.
Qed.

Lemma scan_throws_iff (catalog : list DhanScan.Entry.t) (err : string) :
  DhanScan.find key catalog = Throw err
  <-> exists before e after,
        catalog = (before ++ e :: after)%list
        /\ (forall b, In b before -> DhanScan.matches key b = Normal false)
        /\ DhanScan.matches key e = Throw err.
Proof.
  induction catalog as [|i l IH]; cbn [DhanScan.find].
  - split; [discriminate|]. intros [before [e [after [H _]]]].
    now destruct before.
  - destruct (DhanScan.matches key i) as [[|]|err'] eqn:Hm.
    + split; [discriminate|]. intros [before [e [after [H [Hb He]]]]].
      destruct before as [|b before]; cbn [app] in H; injection H as -> ->.
      * congruence.
      * specialize (Hb b (or_introl eq_refl)). congruence.
    + rewrite IH. split.
      * intros [before [e [after [-> [Hb He]]]]].
        exists (i :: before), e, after. split; [reflexivity|]. split; [|exact He].
        intros b [<-|Hin]; [exact Hm | now apply Hb].
      * intros [before [e [after [H [Hb He]]]]].
        destruct before as [|b before]; cbn [app] in H; injection H as -> ->.
        -- congruence.
        -- exists before, e, after. split; [reflexivity|]. split; [|exact He].
           intros b' Hin. apply Hb. now right.
    + split.
      * intros H. injection H as ->. exists [], i, l.
        split; [reflexivity|]. split; [intros b []| exact Hm].
      * intros [before [e [after [H [Hb He]]]]].
        destruct before as [|b before]; cbn [app] in H; injection H as -> ->.
        -- congruence.
        -- specialize (Hb b (or_introl eq_refl)). congruence.
Qed.

Lemma scan_match_meaning (e : DhanScan.Entry.t) :
  DhanScan.matches key e = Normal true
  <-> match key with
      | PStr k =>
          exists symbol,
            DhanScan.Entry.tradingSymbol e = PStr symbol
            /\ (toUpperCase symbol = toUpperCase k
                \/ DhanScan.Entry.securityId e = PStr k)
      | PNum n => DhanScan.Entry.exchangeToken e = PNum n
      | PUndef => False
      end.
Proof.
  unfold DhanScan.matches. destruct key as [|k|n].
  - split; [discriminate | contradiction].
  - destruct (strict_eq (DhanScan.Entry.tradingSymbol e) (PStr k)) eqn:Hs.
    + apply strict_eq_eq in Hs. split; [|reflexivity]. intros _.
      exists k. split; [exact Hs | now left].
    + destruct (DhanScan.Entry.tradingSymbol e) as [|symbol|m].
      * split; [discriminate|]. intros [symbol [H _]]. discriminate.
      * split.
        -- intros H. injection H as H. exists symbol. split; [reflexivity|].
           apply orb_true_iff in H. destruct H as [H|H];
             [left; now apply String.eqb_eq | right; now apply strict_eq_eq].
        -- intros [symbol' [H1 H2]]. injection H1 as <-. f_equal.
           apply orb_true_iff. destruct H2 as [H2|H2];
             [left; now apply String.eqb_eq | right; rewrite H2; apply strict_eq_refl].
      * split; [discriminate|]. intros [symbol [H _]]. discriminate.
  - split; intros H.
    + injection H as H. now apply strict_eq_eq.
    + rewrite H. f_equal. apply strict_eq_refl.
Qed.

Lemma scan_type_error_iff (e : DhanScan.Entry.t) :
  (exists err, DhanScan.matches key e = Throw err)
  <-> (exists k, key = PStr k)
      /\ forall symbol, DhanScan.Entry.tradingSymbol e <> PStr symbol.
Proof.
  unfold DhanScan.matches. destruct key as [|k|n].
  - split; [intros [err H]; discriminate | intros [[k H] _]; discriminate].
  - destruct (strict_eq (DhanScan.Entry.tradingSymbol e) (PStr k)) eqn:Hs.
    + apply strict_eq_eq in Hs. split; [intros [err H]; discriminate|].
      intros [_ H]. now destruct (H k).
    + destruct (DhanScan.Entry.tradingSymbol e) as [|symbol|m].
      * split; [|intros _; eexists; reflexivity].
        intros _. split; [now exists k | discriminate].
      * split; [intros [err H]; discriminate|]. intros [_ H]. now destruct (H symbol).
      * split; [|intros _; eexists; reflexivity].
        intros _. split; [now exists k | discriminate].
  - split; [intros [err H]; discriminate | intros [[k H] _]; discriminate].
Qed.

Lemma scan_agrees (catalog : list Dhan.Instrument.t) :
  DhanScan.find key (map DhanScan.entry catalog)
  = Normal (option_map DhanScan.entry (find (Dhan.matches key) catalog)).
Proof.
  assert (forall i, DhanScan.matches key (DhanScan.entry i)
                    = Normal (Dhan.matches key i)) as Hm.
  { intros i. unfold DhanScan.matches, Dhan.matches, DhanScan.entry.
    destruct key as [|k|n]; [reflexivity | | reflexivity].
    cbn [DhanScan.Entry.tradingSymbol DhanScan.Entry.securityId strict_eq].
    now destruct (String.eqb (Dhan.Instrument.tradingSymbol i) k). }
  induction catalog as [|i l IH]; [reflexivity|].
  cbn [map DhanScan.find find]. rewrite Hm.
  now destruct (Dhan.matches key i).
Qed.

End Scan.

(** X9.  What a lookup can return.  With the catalog not loaded
    ([null]) it throws "Instruments cache not loaded" on every client.
    On the Zerodha and the Upstox client, which compare with [===]
    only, a lookup in a loaded catalog returns an entry of the catalog
    that matches the key (its symbol, or its instrument token for a
    numeric key, on Zerodha; one of its three fields on Upstox), and
    [undefined] exactly when no entry matches.  On the Dhan client, for
    an ASCII key and a catalog with ASCII symbols: an entry returned is
    an entry of the catalog that has a symbol equal to the key up to
    letter case or that security id (that exchange token for a numeric
    key); [undefined] is returned exactly when the predicate is false on
    every entry; and the lookup throws a type error exactly when the key
    is a string and the scan reaches, before any match, an entry whose
    trading symbol is missing or not a string.  On a catalog all of
    whose entries have their symbol it is the lookup
    [Dhan.getInstrumentDetails], which never throws. *)
Theorem lookup_is_sound :
  (forall key,
      Dhan.getInstrumentDetails None key = Throw "Instruments cache not loaded"
      /\ DhanScan.getInstrumentDetails None key = Throw "Instruments cache not loaded"
      /\ Zerodha.getInstrumentDetails None key = Throw "Instruments cache not loaded"
      /\ Upstox.getInstrumentDetails None key = Throw "Instruments cache not loaded")
  /\
  (forall catalog key,
      ascii_key key = true ->
      forallb DhanScan.ascii_symbol catalog = true ->
      (forall e, DhanScan.getInstrumentDetails (Some catalog) key = Normal (Some e) ->
                 In e catalog
                 /\ match key with
                    | PStr k =>
                        exists symbol,
                          DhanScan.Entry.tradingSymbol e = PStr symbol
                          /\ (toUpperCase symbol = toUpperCase k
                              \/ DhanScan.Entry.securityId e = PStr k)
                    | PNum n => DhanScan.Entry.exchangeToken e = PNum n
                    | PUndef => False
                    end)
      /\ (DhanScan.getInstrumentDetails (Some catalog) key = Normal None
          <-> forall e, In e catalog -> DhanScan.matches key e = Normal false)
      /\ ((exists err, DhanScan.getInstrumentDetails (Some catalog) key = Throw err)
          <-> exists before e after,
                catalog = (before ++ e :: after)%list
                /\ (forall b, In b before -> DhanScan.matches key b = Normal false)
                /\ (exists k, key = PStr k)
                /\ forall symbol, DhanScan.Entry.tradingSymbol e <> PStr symbol))
  /\
  (forall catalog key,
      ascii_key key = true ->
      forallb DhanScan.ascii_symbol (map DhanScan.entry catalog) = true ->
      exists found,
        Dhan.getInstrumentDetails (Some catalog) key = Normal found
        /\ DhanScan.getInstrumentDetails (Some (map DhanScan.entry catalog)) key
           = Normal (option_map DhanScan.entry found))
  /\
  (forall catalog key,
      (forall i, Zerodha.getInstrumentDetails (Some catalog) key = Normal (Some i) ->
                 In i catalog
                 /\ match key with
                    | PStr _ => Zerodha.Instrument.tradingsymbol i = key
                    | PNum _ => Zerodha.Instrument.instrument_token i = key
                    | PUndef => False
                    end)
      /\ (Zerodha.getInstrumentDetails (Some catalog) key = Normal None
          <-> forall i, In i catalog -> Zerodha.matches key i = false))
  /\
  (forall catalog key,
      (forall i, Upstox.getInstrumentDetails (Some catalog) key = Normal (Some i) ->
                 In i catalog
                 /\ (Upstox.Instrument.tradingsymbol i = key
                     \/ Upstox.Instrument.instrument_token i = key
                     \/ Upstox.Instrument.instrument_key i = key))
      /\ (Upstox.getInstrumentDetails (Some catalog) key = Normal None
          <-> forall i, In i catalog -> Upstox.matches key i = false)).
Proof.
  split; [intros key; repeat split|]. split; [|split; [|split]].
  - intros catalog key _ _. cbn [DhanScan.getInstrumentDetails]. split; [|split].
    + intros e H. apply scan_sound in H. destruct H as [Hin Hm].
      split; [exact Hin | now apply scan_match_meaning].
    + apply scan_misses_iff.
    + split.
      * intros [err H]. apply scan_throws_iff in H.
        destruct H as [before [e [after [Hc [Hb He]]]]].
        exists before, e, after. split; [exact Hc|]. split; [exact Hb|].
        apply scan_type_error_iff. now exists err.
      * intros [before [e [after [Hc [Hb [Hk Hs]]]]]].
        destruct (proj2 (scan_type_error_iff key e) (conj Hk Hs)) as [err He].
        exists err. apply scan_throws_iff. now exists before, e, after.
  - intros catalog key _ _.
    cbn [DhanScan.getInstrumentDetails Dhan.getInstrumentDetails].
    eexists. split; [reflexivity | apply scan_agrees].
  - intros catalog key. cbn [Zerodha.getInstrumentDetails]. split.
    + intros i H. injection H as H. apply find_sound in H. destruct H as [Hin Hm].
      split; [exact Hin|]. unfold Zerodha.matches in Hm.
      destruct key; [discriminate | now apply strict_eq_eq | now apply strict_eq_eq].
    + rewrite <- find_misses_iff. split; congruence.
  - intros catalog key. cbn [Upstox.getInstrumentDetails]. split.
    + intros i H. injection H as H. apply find_sound in H. destruct H as [Hin Hm].
      split; [exact Hin | now apply upstox_matches_exact].
    + rewrite <- find_misses_iff. split; congruence.
Qed.

Lemma lookup_is_sound_run :
  ascii_key (PStr "nifty50") = true
  /\ forallb DhanScan.ascii_symbol dhan_parsed_catalog = true
  /\ (exists err,
         DhanScan.getInstrumentDetails (Some dhan_parsed_catalog) (PStr "nifty50")
         = Throw err)
  /\ DhanScan.getInstrumentDetails (Some dhan_parsed_catalog) (PStr "reliance")
     = Normal (Some (DhanScan.entry
                       (Dhan.Instrument.mk "RELIANCE" (PStr "2885") "NSE" (PNum 2885))))
  /\ DhanScan.getInstrumentDetails (Some dhan_parsed_catalog) (PNum 13)
     = Normal (Some (DhanScan.entry
                       (Dhan.Instrument.mk "Nifty50" (PStr "13") "NSE" (PNum 13)))).
Proof.
  split; [reflexivity|]. split; [reflexivity|]. split; [|split; reflexivity].
  apply (proj2 (proj2 (proj1 (proj2 lookup_is_sound) dhan_parsed_catalog
                         (PStr "nifty50") eq_refl eq_refl))).
  exists [ DhanScan.entry (Dhan.Instrument.mk "RELIANCE" (PStr "2885") "NSE" (PNum 2885)) ],
         (DhanScan.Entry.mk PUndef (PStr "999") "NSE" (PNum 999)),
         [ DhanScan.entry (Dhan.Instrument.mk "Nifty50" (PStr "13") "NSE" (PNum 13)) ].
  split; [reflexivity|]. split.
  - intros b [<-|[]]. reflexivity.
  - split; [now exists "nifty50" | discriminate].
Defined.

(* ===================================================================== *)
(** * Open statuses                                                      *)
(* ===================================================================== *)

Lemma lower_upper_ascii (c : ascii) : lower_ascii (upper_ascii c) = lower_ascii c.
Proof.
  destruct c as [[] [] [] [] [] [] [] []]; reflexivity.
Qed.

Lemma toLowerCase_toUpperCase (s : string) :
  toLowerCase (toUpperCase s) = toLowerCase s.
Proof.
  induction s as [|c s IH]; simpl; [reflexivity|].
  now rewrite lower_upper_ascii, IH.
Qed.

Lemma toLowerCase_same_letters (s t : string) :
  toUpperCase s = toUpperCase t -> toLowerCase s = toLowerCase t.
Proof.
  intros H. rewrite <- (toLowerCase_toUpperCase s), <- (toLowerCase_toUpperCase t).
  now rewrite H.
Qed.

(** X10.  The status filter of [cancelAllOrders] ignores letter case:
    two orders whose statuses differ only in the case of their letters
    are either both cancelled or both left alone.  An order counts as
    open exactly when its lower-cased status is open, pending or trigger
    pending on the Dhan and the Zerodha client, and open, pending or
    validation_pending on the Upstox client, which therefore leaves a
    trigger-pending order alone. *)
Theorem open_status_ignores_case :
  (forall o1 o2 : Dhan.Order.t,
      toUpperCase (Dhan.Order.status o1) = toUpperCase (Dhan.Order.status o2) ->
      Dhan.isOpen o1 = Dhan.isOpen o2)
  /\ (forall o1 o2 : Zerodha.Order.t,
         toUpperCase (Zerodha.Order.status o1) = toUpperCase (Zerodha.Order.status o2) ->
         Zerodha.isOpen o1 = Zerodha.isOpen o2)
  /\ (forall o1 o2 : UpstoxBulk.Order.t,
         toUpperCase (UpstoxBulk.Order.status o1)
         = toUpperCase (UpstoxBulk.Order.status o2) ->
         UpstoxBulk.isOpen o1 = UpstoxBulk.isOpen o2)
  /\ (forall o : Dhan.Order.t,
         Dhan.isOpen o = true
         <-> In (toLowerCase (Dhan.Order.status o)) ["open"; "pending"; "trigger pending"])
  /\ (forall o : Zerodha.Order.t,
         Zerodha.isOpen o = true
         <-> In (toLowerCase (Zerodha.Order.status o))
                ["open"; "pending"; "trigger pending"])
  /\ (forall o : UpstoxBulk.Order.t,
         UpstoxBulk.isOpen o = true
         <-> In (toLowerCase (UpstoxBulk.Order.status o))
                ["open"; "pending"; "validation_pending"])
  /\ (forall o : UpstoxBulk.Order.t,
         toUpperCase (UpstoxBulk.Order.status o) = "TRIGGER PENDING" ->
         UpstoxBulk.isOpen o = false).
Proof.
  split; [|split; [|split; [|split; [|split; [|split]]]]].
  - intros o1 o2 H. unfold Dhan.isOpen. now rewrite (toLowerCase_same_letters _ _ H).
  - intros o1 o2 H. unfold Zerodha.isOpen. now rewrite (toLowerCase_same_letters _ _ H).
  - intros o1 o2 H. unfold UpstoxBulk.isOpen.
    now rewrite (toLowerCase_same_letters _ _ H).
  - intros o. apply includes_In.
  - intros o. apply includes_In.
  - intros o. apply includes_In.
  - intros o H. unfold UpstoxBulk.isOpen.
    rewrite <- (toLowerCase_toUpperCase (UpstoxBulk.Order.status o)), H. reflexivity.
Qed.

Lemma open_status_ignores_case_run :
  toUpperCase "Trigger Pending" = toUpperCase "TRIGGER pending"
  /\ Dhan.isOpen (Dhan.Order.mk "1" "Trigger Pending")
     = Dhan.isOpen (Dhan.Order.mk "2" "TRIGGER pending")
  /\ UpstoxBulk.isOpen (UpstoxBulk.Order.mk "3" "Trigger Pending") = false.
Proof.
  split; [reflexivity|]. split.
  - exact (proj1 open_status_ignores_case (Dhan.Order.mk "1" "Trigger Pending")
             (Dhan.Order.mk "2" "TRIGGER pending") eq_refl).
  - exact (proj2 (proj2 (proj2 (proj2 (proj2 (proj2 open_status_ignores_case)))))
             (UpstoxBulk.Order.mk "3" "Trigger Pending") eq_refl).
Defined.

(* ===================================================================== *)
(** * Catalog refresh: fresh files, downloads, reloads                   *)
(* ===================================================================== *)

Lemma fresh_file_is_kept {I : Type} (f : CacheFile.t I) :
  CacheFile.age f <= day_ms -> shouldDownload (Some f) = false.
Proof.
  intros H. unfold shouldDownload. rewrite Z.gtb_ltb. now apply Z.ltb_ge.
Qed.

(** X11.  A cache file that is at most 24 hours old is used as it is:
    whatever the network would answer, the catalog is what the file
    holds and the file is left untouched; a file of exactly 24 hours
    still counts as fresh.  When such a file cannot be parsed the
    catalog stays as it was, and nothing is downloaded to replace it. *)
Theorem fresh_cache_file_is_used :
  (forall (net : Dhan.Segments) (st : CacheState.t Dhan.Instrument.t) f,
      CacheState.file st = Some f ->
      CacheFile.age f <= day_ms ->
      Dhan._loadInstrumentsCache net st
      = match CacheFile.parsed f with
        | Some catalog => CacheState.mk (Some catalog) (Some f)
        | None => st
        end)
  /\
  (forall (fetched : completion (list Zerodha.Instrument.t))
          (st : CacheState.t Zerodha.Instrument.t) f,
      CacheState.file st = Some f ->
      CacheFile.age f <= day_ms ->
      Zerodha._loadInstrumentsCache fetched st
      = match CacheFile.parsed f with
        | Some catalog => CacheState.mk (Some catalog) (Some f)
        | None => st
        end)
  /\
  (forall (bundle : completion (option (list Upstox.Instrument.t)))
          (st : CacheState.t Upstox.Instrument.t) f,
      CacheState.file st = Some f ->
      CacheFile.age f <= day_ms ->
      Upstox._loadInstrumentsCache bundle st
      = match CacheFile.parsed f with
        | Some catalog => CacheState.mk (Some catalog) (Some f)
        | None => st
        end).
Proof.
  split; [|split].
  - intros net [cache file] f Hf Hage. cbn in Hf. subst file.
    unfold Dhan._loadInstrumentsCache. cbn [CacheState.file].
    rewrite (fresh_file_is_kept f Hage). now destruct (CacheFile.parsed f).
  - intros fetched [cache file] f Hf Hage. cbn in Hf. subst file.
    unfold Zerodha._loadInstrumentsCache. cbn [CacheState.file].
    rewrite (fresh_file_is_kept f Hage). now destruct (CacheFile.parsed f).
  - intros bundle [cache file] f Hf Hage. cbn in Hf. subst file.
    unfold Upstox._loadInstrumentsCache. cbn [CacheState.file CacheState.instrumentsCache].
    rewrite (fresh_file_is_kept f Hage). now destruct (CacheFile.parsed f).
Qed.

Lemma fresh_cache_file_is_used_run :
  let f := CacheFile.mk day_ms (Some upstox_catalog) in
  CacheFile.age f <= day_ms
  /\ Upstox._loadInstrumentsCache (Throw "getaddrinfo ENOTFOUND assets.upstox.com")
       (CacheState.mk None (Some f))
     = CacheState.mk (Some upstox_catalog) (Some f).
Proof.
  cbv zeta. split; [discriminate|].
  exact (proj2 (proj2 fresh_cache_file_is_used)
           (Throw "getaddrinfo ENOTFOUND assets.upstox.com")
           (CacheState.mk None (Some (CacheFile.mk day_ms (Some upstox_catalog))))
           (CacheFile.mk day_ms (Some upstox_catalog)) eq_refl ltac:(discriminate)).
Defined.

(** X12.  A successful download is kept: when there is no cache file or
    the file is stale and the download succeeds, the catalog is the
    downloaded one and the file is rewritten with it; loading again
    right away gives the same catalog and the same file without using
    the network. *)
Theorem download_then_reload :
  (forall (net net' : Dhan.Segments) (st : CacheState.t Dhan.Instrument.t) catalog,
      shouldDownload (CacheState.file st) = true ->
      Dhan.download net = Normal catalog ->
      let st' := Dhan._loadInstrumentsCache net st in
      st' = CacheState.mk (Some catalog) (Some (CacheFile.mk 0 (Some catalog)))
      /\ Dhan._loadInstrumentsCache net' st' = st')
  /\
  (forall (fetched fetched' : completion (list Zerodha.Instrument.t))
          (st : CacheState.t Zerodha.Instrument.t) catalog,
      shouldDownload (CacheState.file st) = true ->
      fetched = Normal catalog ->
      let st' := Zerodha._loadInstrumentsCache fetched st in
      st' = CacheState.mk (Some catalog) (Some (CacheFile.mk 0 (Some catalog)))
      /\ Zerodha._loadInstrumentsCache fetched' st' = st')
  /\
  (forall (bundle bundle' : completion (option (list Upstox.Instrument.t)))
          (st : CacheState.t Upstox.Instrument.t) catalog,
      shouldDownload (CacheState.file st) = true ->
      bundle = Normal (Some catalog) ->
      let st' := Upstox._loadInstrumentsCache bundle st in
      st' = CacheState.mk (Some catalog) (Some (CacheFile.mk 0 (Some catalog)))
      /\ Upstox._loadInstrumentsCache bundle' st' = st').
Proof.
  split; [|split].
  - intros net net' st catalog Hs Hd st'. subst st'.
    assert (Dhan._loadInstrumentsCache net st
            = CacheState.mk (Some catalog) (Some (CacheFile.mk 0 (Some catalog)))) as H1.
    { unfold Dhan._loadInstrumentsCache. now rewrite Hs, Hd. }
    split; [exact H1 | now rewrite H1].
  - intros fetched fetched' st catalog Hs -> st'. subst st'.
    assert (Zerodha._loadInstrumentsCache (Normal catalog) st
            = CacheState.mk (Some catalog) (Some (CacheFile.mk 0 (Some catalog)))) as H1.
    { unfold Zerodha._loadInstrumentsCache. now rewrite Hs. }
    split; [exact H1 | now rewrite H1].
  - intros bundle bundle' st catalog Hs -> st'. subst st'.
    assert (Upstox._loadInstrumentsCache (Normal (Some catalog)) st
            = CacheState.mk (Some catalog) (Some (CacheFile.mk 0 (Some catalog)))) as H1.
    { unfold Upstox._loadInstrumentsCache. now rewrite Hs. }
    split; [exact H1 | now rewrite H1].
Qed.

Lemma download_then_reload_run :
  let st := CacheState.mk None (Some (CacheFile.mk (3 * day_ms) (Some []))) in
  shouldDownload (CacheState.file st) = true
  /\ Zerodha._loadInstrumentsCache (Throw "NetworkException")
       (Zerodha._loadInstrumentsCache (Normal zerodha_catalog) st)
     = CacheState.mk (Some zerodha_catalog)
                     (Some (CacheFile.mk 0 (Some zerodha_catalog))).
Proof.
  cbv zeta. split; [reflexivity|].
  destruct (proj1 (proj2 download_then_reload) (Normal zerodha_catalog)
              (Throw "NetworkException")
              (CacheState.mk None (Some (CacheFile.mk (3 * day_ms) (Some []))))
              zerodha_catalog eq_refl eq_refl) as [H1 H2].
  rewrite H2. exact H1.
Defined.

(** X13.  On the Upstox client the downloaded bytes are written to the
    cache file before they are decoded.  A download that cannot be
    decoded therefore replaces the file, stale or missing, the catalog
    stays as it was, and loading again within the next 24 hours only
    reads the broken file: the catalog still stays as it was, whatever
    the network would answer.  On the Dhan and the Zerodha client a
    failed download leaves the cache file as it is. *)
Theorem upstox_undecodable_download_replaces_file :
  (forall (bundle' : completion (option (list Upstox.Instrument.t)))
          (st : CacheState.t Upstox.Instrument.t),
      shouldDownload (CacheState.file st) = true ->
      let st' := Upstox._loadInstrumentsCache (Normal None) st in
      st' = CacheState.mk (CacheState.instrumentsCache st) (Some (CacheFile.mk 0 None))
      /\ Upstox._loadInstrumentsCache bundle' st' = st')
  /\
  (forall (net : Dhan.Segments) (st : CacheState.t Dhan.Instrument.t) e,
      Dhan.download net = Throw e ->
      CacheState.file (Dhan._loadInstrumentsCache net st) = CacheState.file st)
  /\
  (forall (st : CacheState.t Zerodha.Instrument.t) e,
      CacheState.file (Zerodha._loadInstrumentsCache (Throw e) st) = CacheState.file st).
Proof.
  split; [|split].
  - intros bundle' st Hs st'. subst st'.
    assert (Upstox._loadInstrumentsCache (Normal None) st
            = CacheState.mk (CacheState.instrumentsCache st)
                            (Some (CacheFile.mk 0 None))) as H1.
    { unfold Upstox._loadInstrumentsCache. now rewrite Hs. }
    split; [exact H1 | now rewrite H1].
  - intros net [cache file] e Hd. unfold Dhan._loadInstrumentsCache.
    cbn [CacheState.file]. rewrite Hd.
    destruct (shouldDownload file), file as [f|]; try reflexivity;
      now destruct (CacheFile.parsed f).
  - intros [cache file] e. unfold Zerodha._loadInstrumentsCache.
    cbn [CacheState.file].
    destruct (shouldDownload file), file as [f|]; try reflexivity;
      now destruct (CacheFile.parsed f).
Qed.

Lemma upstox_undecodable_download_replaces_file_run :
  let st := CacheState.mk None (Some (CacheFile.mk (2 * day_ms) (Some upstox_catalog))) in
  shouldDownload (CacheState.file st) = true
  /\ Upstox._loadInstrumentsCache (Normal (Some upstox_catalog))
       (Upstox._loadInstrumentsCache (Normal None) st)
     = CacheState.mk None (Some (CacheFile.mk 0 None)).
Proof.
  cbv zeta. split; [reflexivity|].
  destruct (proj1 upstox_undecodable_download_replaces_file
              (Normal (Some upstox_catalog))
              (CacheState.mk None
                 (Some (CacheFile.mk (2 * day_ms) (Some upstox_catalog))))
              eq_refl) as [H1 H2].
  rewrite H2. exact H1.
Defined.

Lemma find_in_prefix {I : Type} (f : I -> bool) (l l' : list I) (x : I) :
  find f l = Some x -> find f (l ++ l') = Some x.
Proof.
  induction l as [|y l IH]; simpl; [discriminate|].
  destruct (f y); [trivial | exact IH].
Qed.

Lemma dhan_download_all_or_nothing (net : Dhan.Segments) :
  (exists e, Dhan.nseEquity net = Throw e)
  \/ (exists e, Dhan.bseEquity net = Throw e)
  \/ (exists e, Dhan.nfo net = Throw e)
  \/ (exists e, Dhan.cds net = Throw e)
  \/ (exists e, Dhan.mcx net = Throw e) ->
  exists e, Dhan.download net = Throw e.
Proof.
  unfold Dhan.download.
  destruct (Dhan.nseEquity net), (Dhan.bseEquity net), (Dhan.nfo net),
    (Dhan.cds net), (Dhan.mcx net);
    intros [[e' H]|[[e' H]|[[e' H]|[[e' H]|[e' H]]]]];
    try discriminate; eexists; reflexivity.
Qed.

(** X14.  The Dhan catalog is downloaded in five segments and is all or
    nothing: when any one of them fails the download as a whole fails,
    nothing is written to the cache file, and with no cache file the
    catalog stays as it was, the segments that did arrive being
    dropped.  When all five arrive the catalog is their concatenation
    in the order NSE equity, BSE equity, NFO, currency, MCX, so a key
    that matches an NSE equity instrument is resolved to an NSE equity
    instrument even when later segments match it too. *)
Theorem dhan_segments_all_or_nothing :
  (forall (net : Dhan.Segments) (st : CacheState.t Dhan.Instrument.t),
      (exists e, Dhan.nseEquity net = Throw e)
      \/ (exists e, Dhan.bseEquity net = Throw e)
      \/ (exists e, Dhan.nfo net = Throw e)
      \/ (exists e, Dhan.cds net = Throw e)
      \/ (exists e, Dhan.mcx net = Throw e) ->
      CacheState.file (Dhan._loadInstrumentsCache net st) = CacheState.file st
      /\ (CacheState.file st = None -> Dhan._loadInstrumentsCache net st = st))
  /\
  (forall (net : Dhan.Segments) (st : CacheState.t Dhan.Instrument.t) a b c d e,
      shouldDownload (CacheState.file st) = true ->
      Dhan.nseEquity net = Normal a -> Dhan.bseEquity net = Normal b ->
      Dhan.nfo net = Normal c -> Dhan.cds net = Normal d -> Dhan.mcx net = Normal e ->
      CacheState.instrumentsCache (Dhan._loadInstrumentsCache net st)
      = Some (a ++ b ++ c ++ d ++ e)%list
      /\ forall key i,
           In i a -> Dhan.matches key i = true ->
           exists found,
             Dhan.getInstrumentDetails
               (CacheState.instrumentsCache (Dhan._loadInstrumentsCache net st)) key
             = Normal (Some found)
             /\ In found a /\ Dhan.matches key found = true).
Proof.
  split.
  - intros net [cache file] Hfail.
    destruct (dhan_download_all_or_nothing net Hfail) as [e Hd].
    unfold Dhan._loadInstrumentsCache. cbn [CacheState.file]. rewrite Hd. split.
    + destruct (shouldDownload file), file as [f|]; try reflexivity;
        now destruct (CacheFile.parsed f).
    + intros ->. reflexivity.
  - intros net st a b c d e Hs Ha Hb Hc Hd He.
    assert (Dhan._loadInstrumentsCache net st
            = CacheState.mk (Some (a ++ b ++ c ++ d ++ e)%list)
                (Some (CacheFile.mk 0 (Some (a ++ b ++ c ++ d ++ e)%list)))) as H1.
    { unfold Dhan._loadInstrumentsCache, Dhan.download.
      now rewrite Hs, Ha, Hb, Hc, Hd, He. }
    rewrite H1. cbn [CacheState.instrumentsCache]. split; [reflexivity|].
    intros key i Hin Hm. cbn [Dhan.getInstrumentDetails].
    destruct (find_finds (Dhan.matches key) a i Hin Hm) as [found [Hf Hfm]].
    exists found. rewrite (find_in_prefix (Dhan.matches key) a _ found Hf).
    split; [reflexivity|]. split; [|exact Hfm].
    now apply find_some in Hf.
Qed.

Lemma dhan_segments_all_or_nothing_run :
  let st := CacheState.mk None None in
  Dhan._loadInstrumentsCache dhan_segments_cds_down st = st
  /\ exists found,
       Dhan.getInstrumentDetails
         (CacheState.instrumentsCache (Dhan._loadInstrumentsCache dhan_segments_up st))
         (PStr "reliance")
       = Normal (Some found)
       /\ Dhan.Instrument.exchange found = "NSE".
Proof.
  cbv zeta. split.
  - exact (proj2 (proj1 dhan_segments_all_or_nothing dhan_segments_cds_down
                    (CacheState.mk None None)
                    (or_intror (or_intror (or_intror (or_introl
                       (ex_intro _ "Request failed with status code 503" eq_refl))))))
                 eq_refl).
  - destruct (proj2 (proj2 dhan_segments_all_or_nothing dhan_segments_up
                (CacheState.mk None None) _ _ _ _ _ eq_refl
                eq_refl eq_refl eq_refl eq_refl eq_refl)
              (PStr "reliance")
              (Dhan.Instrument.mk "RELIANCE" (PStr "2885") "NSE" (PNum 2885))
              (or_introl eq_refl) eq_refl) as [found [Hf [Hin _]]].
    exists found. split; [exact Hf|].
    destruct Hin as [<-|[]]. reflexivity.
Defined.

(* ===================================================================== *)
(** * Reports of the market exit, and nothing to do                      *)
(* ===================================================================== *)

Lemma dhan_market_fanout_settled (c : Dhan.Client) (answer : Dhan.Position.t -> string)
    (l : list Dhan.Position.t) :
  (forall p, In p l ->
             Boolean (Dhan.Position.securityId p) = true
             /\ Dhan.place_response (Dhan.broker c)
                  (Dhan.orderRequest (Dhan.marketExit p) (Dhan.Position.securityId p)
                                     (Some (Dhan.Position.exchange p)))
                = Normal (answer p)) ->
  map settled (map (fun p => Dhan.placeOrder c (Dhan.marketExit p)) l)
  = map Normal
      (map (fun p => OrderResult.mk (answer p) "success" "Order placed successfully") l).
Proof.
  induction l as [|p l IH]; intros H; [reflexivity|].
  cbn [map]. destruct (H p (or_introl eq_refl)) as [Hid Hresp].
  destruct (DhanExit.dhan_placeOrder_direct c (Dhan.marketExit p) Hid) as [_ Hs].
  cbv zeta in Hs. cbn [Dhan.marketExit Dhan.Params.securityId Dhan.Params.exchange] in Hs.
  fold (Dhan.marketExit p) in Hs. rewrite Hs, Hresp.
  f_equal. apply IH. intros q Hq. apply H. now right.
Qed.

(** X15.  [exitAllPositions] on the Dhan client reports all or nothing.
    When the broker accepts the order of every open position, the
    report counts the open positions and holds one success result per
    open position, in order, with the broker's order ids.  When the
    broker refuses the order of one open position, the call is rejected
    and no report is returned, although the orders of all open
    positions have been sent. *)
Theorem dhan_exit_report_all_or_nothing
    (c : Dhan.Client) (positions : list Dhan.Position.t) :
  settled (Dhan.listPositions c) = Normal positions ->
  let open := filter (fun p => negb (Dhan.Position.quantity p =? 0)) positions in
  let body := fun p => Dhan.orderRequest (Dhan.marketExit p) (Dhan.Position.securityId p)
                                         (Some (Dhan.Position.exchange p)) in
  (forall p, In p open -> Boolean (Dhan.Position.securityId p) = true) ->
  requests (Dhan.exitAllPositions c)
  = Dhan.GET_positions :: map (fun p => Dhan.POST_orders (body p)) open
  /\ (forall answer : Dhan.Position.t -> string,
         (forall p, In p open ->
                    Dhan.place_response (Dhan.broker c) (body p) = Normal (answer p)) ->
         settled (Dhan.exitAllPositions c)
         = Normal (Report.mk true
                     ("Exited " ++ string_of_nat (List.length open) ++ " positions")
                     (map (fun p => OrderResult.mk (answer p) "success"
                                      "Order placed successfully") open)))
  /\ (forall p e,
         In p open ->
         Dhan.place_response (Dhan.broker c) (body p) = Throw e ->
         exists e', settled (Dhan.exitAllPositions c) = Throw e').
Proof.
  intros H open body Hid. split; [|split].
  - apply (dhan_exit_requests c positions H).
    intros p Hin Hq. apply Hid. apply filter_In. split; [exact Hin|].
    apply Z.eqb_neq in Hq. now rewrite Hq.
  - intros answer Hok. rewrite dhan_exit_calls.
    rewrite settled_await, H, settled_await, Promise_all_settled.
    fold open. rewrite (dhan_market_fanout_settled c answer open).
    + rewrite all_values_map_Normal. cbn [settled resolve snd].
      now rewrite length_map.
    + intros p Hp. split; [now apply Hid | now apply Hok].
  - intros p e Hp He. rewrite dhan_exit_calls.
    rewrite settled_await, H, settled_await, Promise_all_settled. fold open.
    destruct (all_values_Throw
                (map settled (map (fun p => Dhan.placeOrder c (Dhan.marketExit p)) open))
                e) as [e' ->]; [|now exists e'].
    rewrite map_map. apply in_map_iff. exists p. split; [|exact Hp].
    destruct (DhanExit.dhan_placeOrder_direct c (Dhan.marketExit p) (Hid p Hp))
      as [_ Hs].
    rewrite Hs. cbn [Dhan.marketExit Dhan.Params.securityId Dhan.Params.exchange].
    fold (Dhan.marketExit p). fold (body p). now rewrite He.
Qed.

Lemma dhan_exit_report_all_or_nothing_run :
  let c := dhan_client "" (num_of_Z 100) in
  settled (Dhan.listPositions c) = Normal dhan_positions
  /\ settled (Dhan.exitAllPositions c)
     = Normal (Report.mk true "Exited 1 positions"
                 [OrderResult.mk "7001" "success" "Order placed successfully"]).
Proof.
  cbv zeta.
  assert (settled (Dhan.listPositions (dhan_client "" (num_of_Z 100)))
          = Normal dhan_positions) as H by reflexivity.
  split; [exact H|].
  assert (forall p,
             In p (filter (fun p => negb (Dhan.Position.quantity p =? 0)) dhan_positions) ->
             Boolean (Dhan.Position.securityId p) = true) as Hid.
  { intros p Hp. cbn in Hp. destruct Hp as [<-|[]]. reflexivity. }
  destruct (dhan_exit_report_all_or_nothing _ _ H Hid) as [_ [Hok _]].
  apply (Hok (fun _ => "7001")). intros p Hp. reflexivity.
Defined.

(** X16.  With nothing to do the bulk operations of the Dhan client send
    only their list request and report zero: [cancelAllOrders] when the
    order list is [null], empty or holds no open order, and
    [exitAllPositions] when the position list is [null], empty or holds
    only flat positions.  When the list request itself fails, the call
    is rejected with that error and nothing else is sent. *)
Theorem dhan_bulk_with_nothing_to_do (c : Dhan.Client) :
  (forall data,
      Dhan.orders_response (Dhan.broker c) = Normal data ->
      filter Dhan.isOpen (match data with Some l => l | None => [] end) = [] ->
      Dhan.cancelAllOrders c
      = ([Dhan.GET_orders], Normal (Report.mk true "Cancelled 0 orders" [])))
  /\ (forall data,
         Dhan.positions_response (Dhan.broker c) = Normal data ->
         (forall p, In p (match data with Some l => l | None => [] end) ->
                    Dhan.Position.quantity p = 0) ->
         Dhan.exitAllPositions c
         = ([Dhan.GET_positions], Normal (Report.mk true "Exited 0 positions" [])))
  /\ (forall e,
         Dhan.orders_response (Dhan.broker c) = Throw e ->
         Dhan.cancelAllOrders c = ([Dhan.GET_orders], Throw e))
  /\ (forall e,
         Dhan.positions_response (Dhan.broker c) = Throw e ->
         Dhan.exitAllPositions c = ([Dhan.GET_positions], Throw e)
         /\ forall x, Dhan.exitAllPositionsLimit c x = ([Dhan.GET_positions], Throw e)
                      /\ Dhan.exitAllPositionsAddStopLoss c x
                         = ([Dhan.GET_positions], Throw e)).
Proof.
  split; [|split; [|split]].
  - intros data Hd Hnone. unfold Dhan.cancelAllOrders, Dhan.listOrders, send.
    rewrite Hd. cbn [await resolve app]. now rewrite Hnone.
  - intros data Hd Hflat. rewrite dhan_exit_calls. unfold Dhan.listPositions, send.
    rewrite Hd. cbn [await resolve app].
    assert (filter (fun p => negb (Dhan.Position.quantity p =? 0))
                   (match data with Some l => l | None => [] end) = []) as ->;
      [|reflexivity].
    induction (match data with Some l => l | None => [] end) as [|p l IH];
      [reflexivity|].
    cbn [filter]. rewrite (Hflat p (or_introl eq_refl)). cbn [Z.eqb negb].
    apply IH. intros q Hq. apply Hflat. now right.
  - intros e He. unfold Dhan.cancelAllOrders, Dhan.listOrders, send. now rewrite He.
  - intros e He. split; [|intros x; split].
    + unfold Dhan.exitAllPositions, Dhan.listPositions, send. now rewrite He.
    + unfold Dhan.exitAllPositionsLimit, Dhan.listPositions, send. now rewrite He.
    + unfold Dhan.exitAllPositionsAddStopLoss, Dhan.listPositions, send. now rewrite He.
Qed.

Lemma dhan_bulk_with_nothing_to_do_run :
  Dhan.orders_response (Dhan.broker dhan_short_client) = Normal None
  /\ Dhan.cancelAllOrders dhan_short_client
     = ([Dhan.GET_orders], Normal (Report.mk true "Cancelled 0 orders" [])).
Proof.
  split; [reflexivity|].
  exact (proj1 (dhan_bulk_with_nothing_to_do dhan_short_client) None eq_refl eq_refl).
Defined.

(* ===================================================================== *)
(** * The provider's registry                                            *)
(* ===================================================================== *)

Section ProviderFacts.
Context {Client Credentials : Type}.
Variable construct : string -> Credentials -> completion Client.

(** The brokers directory has no module [__proto__Client]. *)
Hypothesis no_proto_module :
  forall credentials, exists e, construct "__proto__" credentials = Throw e.

Lemma constructed_is_not_proto (brokerName : string) (credentials : Credentials)
    (client : Client) :
  construct brokerName credentials = Normal client -> brokerName <> "__proto__".
Proof.
  intros H ->. destruct (no_proto_module credentials) as [e He]. congruence.
Qed.

Lemma registerBroker_own (registry : OrderProvider.brokerClients Client)
    (brokerName other : string) (credentials : Credentials) :
  OrderProvider.own_client
    (OrderProvider.registerBroker construct registry brokerName credentials) other
  = match construct brokerName credentials with
    | Normal client =>
        if String.eqb brokerName other then Some client
        else OrderProvider.own_client registry other
    | Throw _ => OrderProvider.own_client registry other
    end.
Proof.
  unfold OrderProvider.registerBroker.
  destruct (construct brokerName credentials) as [client|e] eqn:Hc; [|reflexivity].
  unfold OrderProvider.write.
  destruct (String.eqb_spec brokerName "__proto__") as [Heq|_];
    [now apply constructed_is_not_proto in Hc|].
  reflexivity.
Qed.

Lemma fold_register_skips (brokers : list (string * Credentials))
    (registry : OrderProvider.brokerClients Client) (brokerName : string) :
  (forall entry, In entry brokers -> fst entry = brokerName ->
                 exists e, construct brokerName (snd entry) = Throw e) ->
  OrderProvider.own_client
    (fold_left (fun r broker =>
                  OrderProvider.registerBroker construct r (fst broker) (snd broker))
               brokers registry) brokerName
  = OrderProvider.own_client registry brokerName.
Proof.
  revert registry. induction brokers as [|[n cr] brokers IH]; intros registry H;
    [reflexivity|].
  cbn [fold_left fst snd]. rewrite IH.
  - rewrite registerBroker_own.
    destruct (construct n cr) as [client|e] eqn:Hc; [|reflexivity].
    destruct (String.eqb_spec n brokerName) as [->|_]; [|reflexivity].
    destruct (H (brokerName, cr) (or_introl eq_refl) eq_refl) as [e He].
    cbn [snd] in He. congruence.
  - intros entry Hin. apply H. now right.
Qed.

End ProviderFacts.

(** X17.  Registering and looking up a broker round-trip: after
    [registerBroker] has constructed a client under a name,
    [getBrokerClient] returns that client for that name, replacing any
    client registered under it before, every operation of the provider
    called with that name is the client's own operation, and the slots
    of all other names are as they were. *)
Theorem registerBroker_then_getBrokerClient
    {Client Credentials : Type}
    (construct : string -> Credentials -> completion Client)
    (registry : OrderProvider.brokerClients Client)
    (brokerName : string) (credentials : Credentials) (client : Client) :
  (forall credentials, exists e, construct "__proto__" credentials = Throw e) ->
  construct brokerName credentials = Normal client ->
  let registry' := OrderProvider.registerBroker construct registry brokerName credentials in
  OrderProvider.getBrokerClient registry' brokerName
  = Normal (OrderProvider.Registered client)
  /\ (forall (Req A : Type) (method : string) (call : Client -> Async Req A),
         OrderProvider.delegate method call registry' brokerName = call client)
  /\ (forall other, other <> brokerName ->
                    OrderProvider.read registry' other = OrderProvider.read registry other).
Proof.
  intros Hproto Hc registry'. subst registry'.
  assert (OrderProvider.read
            (OrderProvider.registerBroker construct registry brokerName credentials)
            brokerName = OrderProvider.Registered client) as Hread.
  { unfold OrderProvider.read.
    now rewrite (registerBroker_own construct Hproto), Hc, String.eqb_refl. }
  split; [|split].
  - unfold OrderProvider.getBrokerClient. now rewrite Hread.
  - intros Req A method call.
    unfold OrderProvider.delegate, OrderProvider.getBrokerClient. now rewrite Hread.
  - intros other Hne. unfold OrderProvider.read.
    rewrite (registerBroker_own construct Hproto), Hc.
    destruct (String.eqb_spec brokerName other) as [->|_]; [contradiction|reflexivity].
Qed.

(** X18.  A broker that cannot be registered is not registered: when the
    client module does not load or its constructor throws,
    [registerBroker] leaves the registry exactly as it was.  For a name
    whose slot is unset, [getBrokerClient] throws "Broker <name> is not
    registered" and every operation of the provider is rejected with
    that error without sending anything.  A name that is a member of
    [Object.prototype], such as [constructor], is not reported as
    unregistered, even in a new provider: the inherited member is
    returned, and an operation fails with a type error instead. *)
Theorem unregistered_broker_is_refused
    {Client Credentials : Type}
    (construct : string -> Credentials -> completion Client)
    (registry : OrderProvider.brokerClients Client) (brokerName : string) :
  (forall credentials e,
      construct brokerName credentials = Throw e ->
      OrderProvider.registerBroker construct registry brokerName credentials = registry)
  /\ (OrderProvider.read registry brokerName = OrderProvider.Unset ->
      OrderProvider.getBrokerClient registry brokerName
      = Throw ("Broker " ++ brokerName ++ " is not registered")
      /\ forall (Req A : Type) (method : string) (call : Client -> Async Req A),
           OrderProvider.delegate method call registry brokerName
           = ([], Throw ("Broker " ++ brokerName ++ " is not registered")))
  /\ (OrderProvider.own_client registry brokerName = None ->
      (OrderProvider.read registry brokerName = OrderProvider.Unset
       <-> includes Object_prototype brokerName = false)
      /\ (includes Object_prototype brokerName = true ->
          OrderProvider.getBrokerClient registry brokerName
          = Normal (OrderProvider.Inherited brokerName)
          /\ forall (Req A : Type) (method : string) (call : Client -> Async Req A),
               OrderProvider.delegate method call registry brokerName
               = ([], Throw ("client." ++ method ++ " is not a function")))).
Proof.
  split; [|split].
  - intros credentials e H. unfold OrderProvider.registerBroker. now rewrite H.
  - intros H. unfold OrderProvider.delegate, OrderProvider.getBrokerClient.
    rewrite H. split; reflexivity.
  - intros Hown. unfold OrderProvider.delegate, OrderProvider.getBrokerClient,
      OrderProvider.read. rewrite Hown.
    destruct (includes Object_prototype brokerName); split;
      try (split; congruence); try discriminate.
    intros _. split; reflexivity.
Qed.

(** X19.  The constructor registers the brokers of the configuration in
    order, so a name ends up with the client of its last entry whose
    construction succeeded: later entries of that name that fail to
    construct do not unregister it, and a name none of whose entries
    constructs has no client. *)
Theorem provider_keeps_last_constructed_client
    {Client Credentials : Type}
    (construct : string -> Credentials -> completion Client) :
  (forall credentials, exists e, construct "__proto__" credentials = Throw e) ->
  (forall earlier later brokerName credentials client,
      construct brokerName credentials = Normal client ->
      (forall entry, In entry later -> fst entry = brokerName ->
                     exists e, construct brokerName (snd entry) = Throw e) ->
      OrderProvider.getBrokerClient
        (OrderProvider.OrderProvider construct
           (earlier ++ (brokerName, credentials) :: later)%list) brokerName
      = Normal (OrderProvider.Registered client))
  /\ (forall brokers brokerName,
         (forall entry, In entry brokers -> fst entry = brokerName ->
                        exists e, construct brokerName (snd entry) = Throw e) ->
         OrderProvider.own_client (OrderProvider.OrderProvider construct brokers)
                                  brokerName = None).
Proof.
  intros Hproto. split.
  - intros earlier later brokerName credentials client Hc Hlater.
    unfold OrderProvider.getBrokerClient, OrderProvider.read,
      OrderProvider.OrderProvider.
    rewrite fold_left_app. cbn [fold_left fst snd].
    rewrite (fold_register_skips construct Hproto later _ brokerName Hlater).
    now rewrite (registerBroker_own construct Hproto), Hc, String.eqb_refl.
  - intros brokers brokerName H. unfold OrderProvider.OrderProvider.
    now rewrite (fold_register_skips construct Hproto brokers [] brokerName H).
Qed.

Lemma sample_construct_no_proto :
  forall credentials, exists e, sample_construct "__proto__" credentials = Throw e.
Proof. intros credentials. eexists. reflexivity. Qed.

Lemma registerBroker_then_getBrokerClient_run :
  sample_construct "dhan" (Some "token") = Normal (dhan_client "" (num_of_Z 100))
  /\ OrderProvider.getBrokerClient
       (OrderProvider.registerBroker sample_construct [] "dhan" (Some "token")) "dhan"
     = Normal (OrderProvider.Registered (dhan_client "" (num_of_Z 100)))
  /\ OrderProvider.delegate "cancelAllOrders" Dhan.cancelAllOrders
       (OrderProvider.registerBroker sample_construct [] "dhan" (Some "token")) "dhan"
     = Dhan.cancelAllOrders (dhan_client "" (num_of_Z 100)).
Proof.
  split; [reflexivity|].
  destruct (registerBroker_then_getBrokerClient sample_construct [] "dhan"
              (Some "token") (dhan_client "" (num_of_Z 100))
              sample_construct_no_proto eq_refl) as [Hget [Hcall _]].
  split; [exact Hget | apply Hcall].
Defined.

Lemma unregistered_broker_is_refused_run :
  OrderProvider.read (@nil (string * Dhan.Client)) "zerodha" = OrderProvider.Unset
  /\ OrderProvider.delegate "exitAllPositions" Dhan.exitAllPositions [] "zerodha"
     = ([], Throw "Broker zerodha is not registered")
  /\ OrderProvider.registerBroker sample_construct [] "zerodha" (Some "token") = [].
Proof.
  split; [reflexivity|]. split.
  - exact (proj2 (proj1 (proj2 (unregistered_broker_is_refused sample_construct
                                  [] "zerodha")) eq_refl)
             _ _ "exitAllPositions" Dhan.exitAllPositions).
  - exact (proj1 (unregistered_broker_is_refused sample_construct [] "zerodha")
             (Some "token") _ eq_refl).
Defined.

Lemma provider_keeps_last_constructed_client_run :
  sample_construct "dhan" (Some "token") = Normal (dhan_client "" (num_of_Z 100))
  /\ OrderProvider.getBrokerClient
       (OrderProvider.OrderProvider sample_construct
          [("upstox", Some "key"); ("dhan", Some "token"); ("dhan", None)]) "dhan"
     = Normal (OrderProvider.Registered (dhan_client "" (num_of_Z 100))).
Proof.
  split; [reflexivity|].
  apply (proj1 (provider_keeps_last_constructed_client sample_construct
                  sample_construct_no_proto)
           [("upstox", Some "key")] [("dhan", None)] "dhan" (Some "token")
           (dhan_client "" (num_of_Z 100)) eq_refl).
  intros entry [<-|[]] _. eexists. reflexivity.
Defined.

(* ===================================================================== *)
(** * The provider's instrument cache                                    *)
(* ===================================================================== *)

(** X20.  The provider's instrument cache exists for Upstox only: for
    every other broker name [updateInstrumentCache] downloads nothing,
    changes nothing and returns [false], and
    [findInstrumentBySecurityId] returns [null] whatever the key and
    whatever has been cached. *)
Theorem provider_cache_is_upstox_only
    (bundle : completion (option (list Upstox.Instrument.t)))
    (brokerName : string) (st : OrderProvider.Cache) (securityId : prim) :
  brokerName <> "upstox" ->
  OrderProvider.updateInstrumentCache bundle brokerName st = (st, false)
  /\ OrderProvider.findInstrumentBySecurityId st brokerName securityId = JsNull.
Proof.
  intros H. apply String.eqb_neq in H.
  unfold OrderProvider.updateInstrumentCache, OrderProvider.findInstrumentBySecurityId,
    OrderProvider.cached.
  rewrite H. split; [reflexivity|].
  now destruct (includes Object_prototype brokerName).
Qed.

Lemma provider_cache_is_upstox_only_run :
  let st := {| OrderProvider.upstox := Some upstox_catalog; OrderProvider.file := None |} in
  "zerodha" <> "upstox"
  /\ OrderProvider.updateInstrumentCache (Normal (Some upstox_catalog)) "zerodha" st
     = (st, false)
  /\ OrderProvider.findInstrumentBySecurityId st "zerodha" (PStr "INFY") = JsNull.
Proof.
  cbv zeta. split; [discriminate|].
  exact (provider_cache_is_upstox_only (Normal (Some upstox_catalog)) "zerodha"
           {| OrderProvider.upstox := Some upstox_catalog; OrderProvider.file := None |}
           (PStr "INFY") ltac:(discriminate)).
Defined.

(** X21.  Updating and searching the provider's Upstox cache round-trip.
    Before any update a search returns [null].  After an update whose
    download decodes, [updateInstrumentCache] has returned [true], a
    search by a key returns the first downloaded instrument one of whose
    three fields is the key, and [undefined] when there is none; the
    cache file holds the download and is fresh, so the Upstox client
    loads the same catalog from it without downloading again.  When the
    download fails or does not decode, the update returns [false] and
    the cached catalog is the one from before. *)
Theorem provider_update_then_find
    (st : OrderProvider.Cache) (catalog : list Upstox.Instrument.t) :
  (OrderProvider.upstox st = None ->
   forall key, OrderProvider.findInstrumentBySecurityId st "upstox" key = JsNull)
  /\
  (let updated := OrderProvider.updateInstrumentCache (Normal (Some catalog)) "upstox" st in
   snd updated = true
   /\ (forall key,
          OrderProvider.findInstrumentBySecurityId (fst updated) "upstox" key
          = match find (Upstox.matches key) catalog with
            | Some i => Value i
            | None => JsUndefined
            end)
   /\ (forall key i,
          In i catalog ->
          Upstox.Instrument.tradingsymbol i = key
          \/ Upstox.Instrument.instrument_token i = key
          \/ Upstox.Instrument.instrument_key i = key ->
          exists found,
            OrderProvider.findInstrumentBySecurityId (fst updated) "upstox" key
            = Value found
            /\ In found catalog /\ Upstox.matches key found = true)
   /\ (forall bundle' cache,
          Upstox._loadInstrumentsCache bundle'
            (CacheState.mk cache (OrderProvider.file (fst updated)))
          = CacheState.mk (Some catalog) (OrderProvider.file (fst updated))))
  /\
  (forall bundle,
      (exists e, bundle = Throw e) \/ bundle = Normal None ->
      let failed := OrderProvider.updateInstrumentCache bundle "upstox" st in
      snd failed = false
      /\ OrderProvider.upstox (fst failed) = OrderProvider.upstox st).
Proof.
  split; [|split].
  - intros H key. unfold OrderProvider.findInstrumentBySecurityId, OrderProvider.cached.
    cbn [String.eqb Ascii.eqb Bool.eqb]. now rewrite H.
  - cbv zeta. cbn [OrderProvider.updateInstrumentCache String.eqb Ascii.eqb Bool.eqb
                   OrderProvider._updateUpstoxInstrumentCache fst snd].
    split; [reflexivity|]. split; [|split].
    + intros key. unfold OrderProvider.findInstrumentBySecurityId, OrderProvider.cached.
      cbn [String.eqb Ascii.eqb Bool.eqb OrderProvider.upstox negb]. reflexivity.
    + intros key i Hin Hfield.
      destruct (find_finds (Upstox.matches key) catalog i Hin
                  (proj2 (upstox_matches_exact i key) Hfield)) as [found [Hf Hm]].
      exists found.
      unfold OrderProvider.findInstrumentBySecurityId, OrderProvider.cached.
      cbn [String.eqb Ascii.eqb Bool.eqb OrderProvider.upstox negb]. rewrite Hf.
      split; [reflexivity|]. split; [|exact Hm]. now apply find_some in Hf.
    + intros bundle' cache. reflexivity.
  - intros bundle Hfail failed. subst failed.
    unfold OrderProvider.updateInstrumentCache.
    cbn [String.eqb Ascii.eqb Bool.eqb OrderProvider._updateUpstoxInstrumentCache].
    destruct Hfail as [[e ->]| ->]; split; reflexivity.
Qed.

Lemma provider_update_then_find_run :
  let st := {| OrderProvider.upstox := None; OrderProvider.file := None |} in
  OrderProvider.findInstrumentBySecurityId st "upstox" (PNum 1594) = JsNull
  /\ OrderProvider.findInstrumentBySecurityId
       (fst (OrderProvider.updateInstrumentCache (Normal (Some upstox_catalog))
               "upstox" st)) "upstox" (PNum 1594)
     = Value (Upstox.Instrument.mk (PStr "INFY") (PNum 1594)
                (PStr "NSE_EQ|INE009A01021") "NSE").
Proof.
  cbv zeta. split.
  - exact (proj1 (provider_update_then_find
                    {| OrderProvider.upstox := None; OrderProvider.file := None |}
                    upstox_catalog) eq_refl (PNum 1594)).
  - rewrite (proj1 (proj2 (proj1 (proj2 (provider_update_then_find
                    {| OrderProvider.upstox := None; OrderProvider.file := None |}
                    upstox_catalog)))) (PNum 1594)).
    reflexivity.
Defined.

(* ===================================================================== *)
(** * Upstox: bulk cancellation and exits                                *)
(* ===================================================================== *)

Module UpstoxFacts.
Import UpstoxBulk.

Lemma upstox_listOrders_requests (c : Client) : requests (listOrders c) = [GET_orders].
Proof. unfold listOrders, send. now destruct (orders_response c). Qed.

Lemma upstox_listPositions_requests (c : Client) :
  requests (listPositions c) = [GET_positions].
Proof. unfold listPositions, send. now destruct (positions_response c). Qed.

Lemma upstox_cancel_fanout_requests (c : Client) (l : list Order.t) :
  List.concat (map requests (map (fun o => cancelOrder c (Order.order_id o)) l))
  = map (fun o => DELETE_order (Order.order_id o)) l.
Proof.
  induction l as [|o l IH]; [reflexivity|].
  cbn [map List.concat]. now rewrite IH.
Qed.

Lemma upstox_cancel_fanout_fulfilled (c : Client) (answer : string -> string)
    (l : list Order.t) :
  (forall o, In o l -> cancel_response c (Order.order_id o)
                       = Normal (answer (Order.order_id o))) ->
  map settled (map (fun o => cancelOrder c (Order.order_id o)) l)
  = map Normal (map (fun o => answer (Order.order_id o)) l).
Proof.
  induction l as [|o l IH]; intros H; [reflexivity|].
  cbn [map]. unfold cancelOrder at 1, send. cbn [settled snd].
  rewrite (H o (or_introl eq_refl)).
  f_equal. apply IH. intros o' Ho'. apply H. now right.
Qed.

Lemma upstox_placeOrder_unloaded (c : Client) (params : Upstox.Params.t) :
  Upstox.instrumentsCache (placing c) = None ->
  placeOrder c params = ([], Throw "Instruments cache not loaded").
Proof.
  intros H. unfold placeOrder, Upstox.placeOrder, Upstox.resolveInstrument.
  now rewrite H.
Qed.

End UpstoxFacts.

(** X22.  [cancelAllOrders] on the Upstox client sends one cancel
    request for every order whose status is open, pending or
    validation_pending in any letter case, and for no other order.
    When every cancellation succeeds the report holds the broker's
    answers, one per such order and in order; when one fails the call
    is rejected and no report is returned, the other requests having
    been sent all the same. *)
Theorem upstox_cancelAllOrders_all_or_nothing
    (c : UpstoxBulk.Client) (orders : list UpstoxBulk.Order.t) :
  settled (UpstoxBulk.listOrders c) = Normal orders ->
  let live := filter UpstoxBulk.isOpen orders in
  requests (UpstoxBulk.cancelAllOrders c)
  = UpstoxBulk.GET_orders
      :: map (fun o => UpstoxBulk.DELETE_order (UpstoxBulk.Order.order_id o)) live
  /\ (forall answer : string -> string,
         (forall o, In o live ->
                    UpstoxBulk.cancel_response c (UpstoxBulk.Order.order_id o)
                    = Normal (answer (UpstoxBulk.Order.order_id o))) ->
         settled (UpstoxBulk.cancelAllOrders c)
         = Normal (Report.mk true
                     ("Cancelled " ++ string_of_nat (List.length live) ++ " orders")
                     (map (fun o => answer (UpstoxBulk.Order.order_id o)) live)))
  /\ (forall o e,
         In o live ->
         UpstoxBulk.cancel_response c (UpstoxBulk.Order.order_id o) = Throw e ->
         exists e', settled (UpstoxBulk.cancelAllOrders c) = Throw e').
Proof.
  intros H live. subst live. split; [|split].
  - unfold UpstoxBulk.cancelAllOrders.
    rewrite requests_await, H, UpstoxFacts.upstox_listOrders_requests, requests_await.
    rewrite Promise_all_requests, UpstoxFacts.upstox_cancel_fanout_requests.
    destruct (settled (Promise_all _)); cbn [requests resolve fst app];
      now rewrite ?app_nil_r.
  - intros answer Hok. unfold UpstoxBulk.cancelAllOrders.
    rewrite settled_await, H, settled_await, Promise_all_settled.
    rewrite (UpstoxFacts.upstox_cancel_fanout_fulfilled c answer _ Hok),
      all_values_map_Normal.
    cbn [settled resolve snd]. now rewrite length_map.
  - intros o e Hin He. unfold UpstoxBulk.cancelAllOrders.
    rewrite settled_await, H, settled_await, Promise_all_settled.
    destruct (all_values_Throw
                (map settled
                   (map (fun o => UpstoxBulk.cancelOrder c (UpstoxBulk.Order.order_id o))
                        (filter UpstoxBulk.isOpen orders))) e) as [e' ->];
      [|now exists e'].
    rewrite map_map. apply in_map_iff. exists o. split; [|exact Hin].
    unfold UpstoxBulk.cancelOrder, send. cbn [settled snd]. exact He.
Qed.

Lemma upstox_cancelAllOrders_all_or_nothing_run :
  let c := upstox_bulk_client None "" in
  settled (UpstoxBulk.listOrders c)
  = Normal [ UpstoxBulk.Order.mk "A1" "open"; UpstoxBulk.Order.mk "A2" "complete";
             UpstoxBulk.Order.mk "A3" "Validation_Pending" ]
  /\ requests (UpstoxBulk.cancelAllOrders c)
     = [ UpstoxBulk.GET_orders; UpstoxBulk.DELETE_order "A1";
         UpstoxBulk.DELETE_order "A3" ]
  /\ settled (UpstoxBulk.cancelAllOrders c)
     = Normal (Report.mk true "Cancelled 2 orders" ["cancelled"; "cancelled"]).
Proof.
  cbv zeta.
  assert (settled (UpstoxBulk.listOrders (upstox_bulk_client None ""))
          = Normal [ UpstoxBulk.Order.mk "A1" "open";
                     UpstoxBulk.Order.mk "A2" "complete";
                     UpstoxBulk.Order.mk "A3" "Validation_Pending" ]) as H
    by reflexivity.
  destruct (upstox_cancelAllOrders_all_or_nothing _ _ H) as [Hreq [Hok _]].
  split; [exact H|]. split; [exact Hreq|].
  apply (Hok (fun _ => "cancelled")). intros o Ho. cbn in Ho.
  destruct Ho as [<-|[<-|[]]]; reflexivity.
Defined.

Lemma upstox_no_order_when_unloaded (c : UpstoxBulk.Client)
    (callback : UpstoxBulk.Position.t -> Async UpstoxBulk.Request (option string))
    (exit : UpstoxBulk.Position.t -> number -> Upstox.Params.t)
    (positions : list UpstoxBulk.Position.t) (r : Upstox.Request) :
  Upstox.instrumentsCache (UpstoxBulk.placing c) = None ->
  (forall p, callback p
             = if UpstoxBulk.Position.quantity p =? 0 then resolve None
               else (ltp <- UpstoxBulk._getLTP c (UpstoxBulk.Position.instrument_token p) ;;
                     placed <- UpstoxBulk.placeOrder c (exit p ltp) ;;
                     resolve (Some placed))) ->
  ~ In (UpstoxBulk.Placing r) (requests (Promise_all (map callback positions))).
Proof.
  intros Hc Hcb H. apply In_requests_Promise_all in H.
  destruct H as [run [Hrun H]]. apply in_map_iff in Hrun.
  destruct Hrun as [p [<- _]]. rewrite Hcb in H.
  destruct (UpstoxBulk.Position.quantity p =? 0);
    [now apply requests_resolve in H|].
  apply In_requests_await in H. destruct H as [H|[ltp [_ H]]].
  { destruct H as [H|[]]. discriminate. }
  rewrite (UpstoxFacts.upstox_placeOrder_unloaded c _ Hc) in H. destruct H.
Qed.

(** X23.  Every exit of the Upstox client resolves its orders through
    the instrument catalog, the position's own instrument token
    notwithstanding.  On a client that is logged in, so that its
    position list is answered, but whose catalog is not loaded, none of
    the three exit operations sends any order; [exitAllPositions] then
    sends only the position list, is rejected with "Instruments cache
    not loaded" as soon as one position is open, and reports zero when
    all are flat. *)
Theorem upstox_exits_need_the_catalog (c : UpstoxBulk.Client)
    (positions : list UpstoxBulk.Position.t) :
  settled (UpstoxBulk.listPositions c) = Normal positions ->
  Upstox.instrumentsCache (UpstoxBulk.placing c) = None ->
  (forall r x,
      ~ In (UpstoxBulk.Placing r) (requests (UpstoxBulk.exitAllPositions c))
      /\ ~ In (UpstoxBulk.Placing r) (requests (UpstoxBulk.exitAllPositionsLimit c x))
      /\ ~ In (UpstoxBulk.Placing r)
              (requests (UpstoxBulk.exitAllPositionsAddStopLoss c x)))
  /\ requests (UpstoxBulk.exitAllPositions c) = [UpstoxBulk.GET_positions]
  /\ ((forall p, In p positions -> UpstoxBulk.Position.quantity p = 0) ->
      settled (UpstoxBulk.exitAllPositions c)
      = Normal (Report.mk true "Exited 0 positions" []))
  /\ (forall p,
         In p positions -> UpstoxBulk.Position.quantity p <> 0 ->
         settled (UpstoxBulk.exitAllPositions c) = Throw "Instruments cache not loaded").
Proof.
  intros H Hc.
  assert (forall positions,
             filter_Boolean (map (UpstoxBulk.marketCallback c) positions)
             = map (fun _ => ([], Throw "Instruments cache not loaded"))
                   (filter (fun p => negb (UpstoxBulk.Position.quantity p =? 0))
                           positions)) as Hfan.
  { intros l. unfold UpstoxBulk.marketCallback.
    rewrite (filter_Boolean_promises
               (fun p => UpstoxBulk.Position.quantity p =? 0)
               (fun p => UpstoxBulk.placeOrder c (UpstoxBulk.marketExit p))).
    apply map_ext. intros p. now apply UpstoxFacts.upstox_placeOrder_unloaded. }
  assert (forall (l : list UpstoxBulk.Position.t),
             Promise_all (map (fun _ => (@nil UpstoxBulk.Request,
                                         @Throw string "Instruments cache not loaded")) l)
             = ([], match l with
                    | [] => Normal []
                    | _ => Throw "Instruments cache not loaded"
                    end)) as Hall.
  { intros l. unfold Promise_all. f_equal.
    - induction l as [|p l IH]; [reflexivity | exact IH].
    - now destruct l. }
  assert (requests (UpstoxBulk.exitAllPositions c) = [UpstoxBulk.GET_positions]) as Hreq.
  { unfold UpstoxBulk.exitAllPositions.
    rewrite requests_await, UpstoxFacts.upstox_listPositions_requests, H.
    rewrite Hfan, Hall.
    now destruct (filter _ positions). }
  split; [|split; [exact Hreq|split]].
  - intros r x. split; [|split].
    + rewrite Hreq. intros [H0|[]]. discriminate.
    + unfold UpstoxBulk.exitAllPositionsLimit. intros H0.
      apply In_requests_await in H0. destruct H0 as [H0|[positions' [_ H0]]].
      { rewrite UpstoxFacts.upstox_listPositions_requests in H0.
        destruct H0 as [H0|[]]. discriminate. }
      apply In_requests_await in H0. destruct H0 as [H0|[results [_ H0]]];
        [|now apply requests_resolve in H0].
      rewrite filter_Boolean_all in H0.
      now apply (upstox_no_order_when_unloaded c (UpstoxBulk.limitCallback c x)
                   (UpstoxBulk.limitExit x) positions' r Hc) in H0.
    + unfold UpstoxBulk.exitAllPositionsAddStopLoss. intros H0.
      apply In_requests_await in H0. destruct H0 as [H0|[positions' [_ H0]]].
      { rewrite UpstoxFacts.upstox_listPositions_requests in H0.
        destruct H0 as [H0|[]]. discriminate. }
      apply In_requests_await in H0. destruct H0 as [H0|[results [_ H0]]];
        [|now apply requests_resolve in H0].
      rewrite filter_Boolean_all in H0.
      now apply (upstox_no_order_when_unloaded c (UpstoxBulk.stopLossCallback c x)
                   (UpstoxBulk.stopLossExit x) positions' r Hc) in H0.
  - intros Hflat. unfold UpstoxBulk.exitAllPositions.
    rewrite settled_await, H, Hfan, Hall.
    assert (filter (fun p => negb (UpstoxBulk.Position.quantity p =? 0)) positions = [])
      as ->; [|reflexivity].
    clear H. induction positions as [|p l IH]; [reflexivity|].
    cbn [filter]. rewrite (Hflat p (or_introl eq_refl)). cbn [Z.eqb negb].
    apply IH. intros q Hq. apply Hflat. now right.
  - intros p Hin Hq. unfold UpstoxBulk.exitAllPositions.
    rewrite settled_await, H, Hfan, Hall.
    assert (In p (filter (fun p => negb (UpstoxBulk.Position.quantity p =? 0)) positions))
      as Hp.
    { apply filter_In. split; [exact Hin|]. apply Z.eqb_neq in Hq. now rewrite Hq. }
    now destruct (filter _ positions).
Qed.

Lemma upstox_exits_need_the_catalog_run :
  let c := upstox_bulk_client None "" in
  settled (UpstoxBulk.listPositions c)
  = Normal [ UpstoxBulk.Position.mk (PStr "SBIN") (PNum 3045) "NSE" 0 None;
             UpstoxBulk.Position.mk (PStr "INFY") (PNum 1594) "NSE" (-3) (Some "D") ]
  /\ Upstox.instrumentsCache (UpstoxBulk.placing c) = None
  /\ requests (UpstoxBulk.exitAllPositions c) = [UpstoxBulk.GET_positions]
  /\ settled (UpstoxBulk.exitAllPositions c) = Throw "Instruments cache not loaded".
Proof.
  cbv zeta.
  destruct (upstox_exits_need_the_catalog (upstox_bulk_client None "") _
              eq_refl eq_refl) as [_ [Hreq [_ Hrej]]].
  split; [reflexivity|]. split; [reflexivity|]. split; [exact Hreq|].
  apply (Hrej (UpstoxBulk.Position.mk (PStr "INFY") (PNum 1594) "NSE" (-3) (Some "D"))
              (or_intror (or_introl eq_refl))).
  discriminate.
Defined.

Lemma upstox_placeOrder_resolved (c : UpstoxBulk.Client) (params : Upstox.Params.t)
    (i : Upstox.Instrument.t) :
  Upstox.getInstrumentDetails (Upstox.instrumentsCache (UpstoxBulk.placing c))
    (Upstox.Params.symbolName params) = Normal (Some i) ->
  requests (UpstoxBulk.placeOrder c params)
  = [UpstoxBulk.Placing (Upstox.POST_order_place (Upstox.orderRequest params i))].
Proof.
  intros H. unfold UpstoxBulk.placeOrder, Upstox.placeOrder, Upstox.resolveInstrument.
  rewrite H. reflexivity.
Qed.

Lemma upstox_priced_callback_requests (c : UpstoxBulk.Client)
    (exit : UpstoxBulk.Position.t -> number -> Upstox.Params.t)
    (p : UpstoxBulk.Position.t) (ltp : number) (i : Upstox.Instrument.t) :
  UpstoxBulk.ltp_response c (UpstoxBulk.Position.instrument_token p) = Normal ltp ->
  Upstox.getInstrumentDetails (Upstox.instrumentsCache (UpstoxBulk.placing c))
    (Upstox.Params.symbolName (exit p ltp)) = Normal (Some i) ->
  requests (ltp <- UpstoxBulk._getLTP c (UpstoxBulk.Position.instrument_token p) ;;
            placed <- UpstoxBulk.placeOrder c (exit p ltp) ;;
            resolve (Some placed))
  = [ UpstoxBulk.GET_ltp (UpstoxBulk.Position.instrument_token p);
      UpstoxBulk.Placing (Upstox.POST_order_place (Upstox.orderRequest (exit p ltp) i)) ].
Proof.
  intros Hltp Hi. rewrite requests_await. unfold UpstoxBulk._getLTP at 1 2, send.
  cbn [settled snd requests fst]. rewrite Hltp, requests_await.
  rewrite (upstox_placeOrder_resolved c _ i Hi). cbn [app].
  now destruct (settled (UpstoxBulk.placeOrder c _)).
Qed.

Lemma upstox_priced_exit_issues {A : Type} (c : UpstoxBulk.Client)
    (callback : UpstoxBulk.Position.t -> Async UpstoxBulk.Request (option string))
    (report : list (option string) -> A)
    (positions : list UpstoxBulk.Position.t) (p : UpstoxBulk.Position.t)
    (r : UpstoxBulk.Request) :
  settled (UpstoxBulk.listPositions c) = Normal positions ->
  In p positions ->
  In r (requests (callback p)) ->
  In r (requests (positions <- UpstoxBulk.listPositions c ;;
                  results <- Promise_all (filter Boolean (map callback positions)) ;;
                  resolve (report results))).
Proof.
  intros H Hin Hr. rewrite requests_await, H. apply in_or_app. right.
  rewrite requests_await, filter_Boolean_all.
  assert (In r (requests (Promise_all (map callback positions)))) as Hall.
  { apply (Promise_all_issues _ (callback p)); [now apply in_map | exact Hr]. }
  destruct (settled (Promise_all _)); [apply in_or_app; now left | exact Hall].
Qed.

(** X24.  The limit and stop-loss exits of the Upstox client ask the
    quote by the position's instrument token but address the order to
    the catalog entry found for the position's trading symbol.  For an
    open position that can be quoted and resolved, the limit exit posts
    a LIMIT order closing the position at
    [Math.round(x * 100) / 100] with x = LTP * (1 - offset/100) for the
    sell of a long position and LTP * (1 + offset/100) for the buy of a
    short one (a missing offset counts as 0), without a trigger price;
    the stop-loss exit posts an SL-M order with that formula as trigger
    price (a missing or zero percentage counts as 1) and no price.  With
    a last traded price of 100, an offset of 0.5 gives 99.50 and 100.50,
    and the default percentage gives 99 and 101. *)
Theorem upstox_priced_exit_orders (c : UpstoxBulk.Client) (x : option number) :
  (forall positions p ltp i,
      settled (UpstoxBulk.listPositions c) = Normal positions ->
      In p positions ->
      UpstoxBulk.Position.quantity p <> 0 ->
      UpstoxBulk.ltp_response c (UpstoxBulk.Position.instrument_token p) = Normal ltp ->
      Upstox.getInstrumentDetails (Upstox.instrumentsCache (UpstoxBulk.placing c))
        (UpstoxBulk.Position.tradingsymbol p) = Normal (Some i) ->
      let long := UpstoxBulk.Position.quantity p >? 0 in
      let quoted (percent : number) :=
        let pct := num_div percent (num_of_Z 100) in
        UpstoxBulk.round2
          (if long then num_mul ltp (num_sub (num_of_Z 1) pct)
           else num_mul ltp (num_add (num_of_Z 1) pct)) in
      (exists body,
          In (UpstoxBulk.Placing (Upstox.POST_order_place body))
             (requests (UpstoxBulk.exitAllPositionsLimit c x))
          /\ In (UpstoxBulk.GET_ltp (UpstoxBulk.Position.instrument_token p))
                (requests (UpstoxBulk.exitAllPositionsLimit c x))
          /\ Upstox.OrderRequest.instrument_token body
             = Upstox.Instrument.instrument_token i
          /\ Upstox.OrderRequest.order_type body = "LIMIT"
          /\ Upstox.OrderRequest.transaction_type body
             = (if long then "SELL" else "BUY")
          /\ Upstox.OrderRequest.quantity body = Z.abs (UpstoxBulk.Position.quantity p)
          /\ Upstox.OrderRequest.price body
             = (let price := quoted (or_else x (num_of_Z 0)) in
                if Boolean price then Some price else None)
          /\ Upstox.OrderRequest.trigger_price body = None)
      /\
      (exists body,
          In (UpstoxBulk.Placing (Upstox.POST_order_place body))
             (requests (UpstoxBulk.exitAllPositionsAddStopLoss c x))
          /\ In (UpstoxBulk.GET_ltp (UpstoxBulk.Position.instrument_token p))
                (requests (UpstoxBulk.exitAllPositionsAddStopLoss c x))
          /\ Upstox.OrderRequest.instrument_token body
             = Upstox.Instrument.instrument_token i
          /\ Upstox.OrderRequest.order_type body = "SL-M"
          /\ Upstox.OrderRequest.transaction_type body
             = (if long then "SELL" else "BUY")
          /\ Upstox.OrderRequest.quantity body = Z.abs (UpstoxBulk.Position.quantity p)
          /\ Upstox.OrderRequest.price body = None
          /\ Upstox.OrderRequest.trigger_price body
             = (let trigger := quoted (or_else x (num_of_Z 1)) in
                if Boolean trigger then Some trigger else None)))
  /\ UpstoxBulk.limitPrice "SELL" (num_of_Z 100) (decimal 5 10) = decimal 9950 100
  /\ UpstoxBulk.limitPrice "BUY" (num_of_Z 100) (decimal 5 10) = decimal 10050 100
  /\ UpstoxBulk.triggerPrice "SELL" (num_of_Z 100) (num_of_Z 1) = num_of_Z 99
  /\ UpstoxBulk.triggerPrice "BUY" (num_of_Z 100) (num_of_Z 1) = num_of_Z 101.
Proof.
  split; [|split; [|split; [|split]]];
    [ | vm_compute; reflexivity | vm_compute; reflexivity
      | vm_compute; reflexivity | vm_compute; reflexivity ].
  intros positions p ltp i H Hin Hq Hltp Hi long quoted.
  assert ((UpstoxBulk.Position.quantity p =? 0) = false) as Hq0 by now apply Z.eqb_neq.
  split.
  - assert (requests (UpstoxBulk.limitCallback c x p)
            = [ UpstoxBulk.GET_ltp (UpstoxBulk.Position.instrument_token p);
                UpstoxBulk.Placing
                  (Upstox.POST_order_place
                     (Upstox.orderRequest (UpstoxBulk.limitExit x p ltp) i)) ]) as Hcb.
    { unfold UpstoxBulk.limitCallback. rewrite Hq0.
      now apply (upstox_priced_callback_requests c (UpstoxBulk.limitExit x)). }
    eexists. split; [|split].
    + unfold UpstoxBulk.exitAllPositionsLimit.
      apply (upstox_priced_exit_issues c (UpstoxBulk.limitCallback c x) _ positions p _
               H Hin).
      rewrite Hcb. right. left. reflexivity.
    + unfold UpstoxBulk.exitAllPositionsLimit.
      apply (upstox_priced_exit_issues c (UpstoxBulk.limitCallback c x) _ positions p _
               H Hin).
      rewrite Hcb. left. reflexivity.
    + subst quoted long.
      unfold Upstox.orderRequest, UpstoxBulk.limitExit, UpstoxBulk.limitPrice,
        UpstoxBulk.oppositeTransactionType.
      cbn [Upstox.OrderRequest.instrument_token Upstox.OrderRequest.order_type
           Upstox.OrderRequest.transaction_type Upstox.OrderRequest.quantity
           Upstox.OrderRequest.price Upstox.OrderRequest.trigger_price
           Upstox.Params.transactionType Upstox.Params.orderType
           Upstox.Params.quantity Upstox.Params.price Upstox.Params.triggerPrice].
      destruct (UpstoxBulk.Position.quantity p >? 0); repeat split.
  - assert (requests (UpstoxBulk.stopLossCallback c x p)
            = [ UpstoxBulk.GET_ltp (UpstoxBulk.Position.instrument_token p);
                UpstoxBulk.Placing
                  (Upstox.POST_order_place
                     (Upstox.orderRequest (UpstoxBulk.stopLossExit x p ltp) i)) ]) as Hcb.
    { unfold UpstoxBulk.stopLossCallback. rewrite Hq0.
      now apply (upstox_priced_callback_requests c (UpstoxBulk.stopLossExit x)). }
    eexists. split; [|split].
    + unfold UpstoxBulk.exitAllPositionsAddStopLoss.
      apply (upstox_priced_exit_issues c (UpstoxBulk.stopLossCallback c x) _ positions p _
               H Hin).
      rewrite Hcb. right. left. reflexivity.
    + unfold UpstoxBulk.exitAllPositionsAddStopLoss.
      apply (upstox_priced_exit_issues c (UpstoxBulk.stopLossCallback c x) _ positions p _
               H Hin).
      rewrite Hcb. left. reflexivity.
    + subst quoted long.
      unfold Upstox.orderRequest, UpstoxBulk.stopLossExit, UpstoxBulk.triggerPrice,
        UpstoxBulk.oppositeTransactionType.
      cbn [Upstox.OrderRequest.instrument_token Upstox.OrderRequest.order_type
           Upstox.OrderRequest.transaction_type Upstox.OrderRequest.quantity
           Upstox.OrderRequest.price Upstox.OrderRequest.trigger_price
           Upstox.Params.transactionType Upstox.Params.orderType
           Upstox.Params.quantity Upstox.Params.price Upstox.Params.triggerPrice].
      destruct (UpstoxBulk.Position.quantity p >? 0); repeat split.
Qed.

Lemma upstox_priced_exit_orders_run :
  let c := upstox_bulk_client (Some upstox_catalog) "" in
  exists body,
    In (UpstoxBulk.Placing (Upstox.POST_order_place body))
       (requests (UpstoxBulk.exitAllPositionsAddStopLoss c None))
    /\ Upstox.OrderRequest.instrument_token body = PNum 1594
    /\ Upstox.OrderRequest.order_type body = "SL-M"
    /\ Upstox.OrderRequest.transaction_type body = "BUY"
    /\ Upstox.OrderRequest.quantity body = 3
    /\ Upstox.OrderRequest.trigger_price body = Some (num_of_Z 101).
Proof.
  cbv zeta.
  destruct (proj1 (upstox_priced_exit_orders
                     (upstox_bulk_client (Some upstox_catalog) "") None)
              [ UpstoxBulk.Position.mk (PStr "SBIN") (PNum 3045) "NSE" 0 None;
                UpstoxBulk.Position.mk (PStr "INFY") (PNum 1594) "NSE" (-3) (Some "D") ]
              (UpstoxBulk.Position.mk (PStr "INFY") (PNum 1594) "NSE" (-3) (Some "D"))
              (num_of_Z 100)
              (Upstox.Instrument.mk (PStr "INFY") (PNum 1594)
                 (PStr "NSE_EQ|INE009A01021") "NSE")
              eq_refl (or_intror (or_introl eq_refl)) ltac:(discriminate)
              eq_refl eq_refl)
    as [_ [body [Hin [_ [Htok [Hty [Hside [Hq [_ Htrig]]]]]]]]].
  exists body. split; [exact Hin|]. split; [exact Htok|]. split; [exact Hty|].
  split; [exact Hside|]. split; [exact Hq|].
  rewrite Htrig. vm_compute. reflexivity.
Defined.
